(** * Bandcamp MCP: extraction layer and presentation formatter

    A shallow embedding of [src/bandcamp_client.py] (the [BandcampClient]
    methods) and of the album, artist and track branches of [call_tool] in
    [src/server_remote.py], followed by the properties of the specification
    that are settled against it.

    Conventions.
    - A Python [str] is a Rocq [string]; each [ascii] stands for one Python
      character with code point 0..255, so [String.length] is Python's [len]
      and a slice [s[:n]] keeps the first [n] characters.
    - A Python [dict] with string keys is a [gmap string value]; an absent
      key is an absent binding.
    - An exception is a [Raise] result; state that survives an exception
      (the record under construction inside [try]) is threaded explicitly.
    - The HTML parser (BeautifulSoup), [json.loads], [urljoin], the HTTP
      client and [repr] are external libraries: they are parameters. *)

From Stdlib Require Import ZArith String Ascii List Lia.
From stdpp Require Import base strings gmap list pretty.

Local Open Scope string_scope.
Local Open Scope Z_scope.

(** ** Python values and built-ins *)

Module Py.

(** A Python [float]: [FFinite m e] is [m * 2^e]. *)
Inductive pyfloat :=
  | FFinite (m e : Z)
  | FInf (negative : bool)
  | FNaN.

(** The values [json.loads] produces, which are also the values stored in
    the records the client returns. *)
#[warnings="-register-all"]
Inductive value :=
  | VNone
  | VBool (b : bool)
  | VInt (z : Z)
  | VFloat (f : pyfloat)
  | VStr (s : string)
  | VList (l : list value)
  | VDict (d : gmap string value).

Abbreviation dict := (gmap string value).

Inductive exn :=
  | JSONDecodeError
  | KeyError
  | AttributeError
  | TypeError
  | ValueError
  | RecursionError
  | HTTPError.

Inductive result (A : Type) :=
  | Ok (a : A)
  | Raise (e : exn).
Arguments Ok {A} a.
Arguments Raise {A} e.

Definition rbind {A B} (r : result A) (k : A -> result B) : result B :=
  match r with
  | Ok a => k a
  | Raise e => Raise e
  end.

(** [bool(v)]. *)
Definition truthy (v : value) : bool :=
  match v with
  | VNone => false
  | VBool b => b
  | VInt z => negb (z =? 0)
  | VFloat (FFinite m _) => negb (m =? 0)
  | VFloat _ => true
  | VStr s => negb (String.eqb s "")
  | VList l => match l with [] => false | _ => true end
  | VDict d => negb (bool_decide (d = ∅))
  end.

(** [d.get(k, default)] and [d.get(k)] on a dict. *)
Definition get (d : dict) (k : string) (default : value) : value :=
  match d !! k with
  | Some v => v
  | None => default
  end.

Definition get_none (d : dict) (k : string) : value := get d k VNone.

(** [x.get(k, default)] on an arbitrary object: only a dict has the method. *)
Definition call_get (x : value) (k : string) (default : value) : result value :=
  match x with
  | VDict d => Ok (get d k default)
  | _ => Raise AttributeError
  end.

(** [d[k]]. *)
Definition getitem (d : dict) (k : string) : result value :=
  match d !! k with
  | Some v => Ok v
  | None => Raise KeyError
  end.

Definition chars (s : string) : list value :=
  (fun c => VStr (String c "")) <$> list_ascii_of_string s.

(** [iter(x)] run to the end: a list gives its items, a string its
    characters, a dict its keys; nothing else is iterable. *)
Definition iterate (x : value) : result (list value) :=
  match x with
  | VList l => Ok l
  | VStr s => Ok (chars s)
  | VDict d => Ok (VStr <$> (map_to_list d).*1)
  | _ => Raise TypeError
  end.

(** [len(x)]. *)
Definition len (x : value) : result Z :=
  match x with
  | VStr s => Ok (Z.of_nat (String.length s))
  | VList l => Ok (Z.of_nat (List.length l))
  | VDict d => Ok (Z.of_nat (size d))
  | _ => Raise TypeError
  end.

(** *** Strings *)

Fixpoint str_take (n : nat) (s : string) : string :=
  match n, s with
  | S n', String c s' => String c (str_take n' s')
  | _, _ => ""
  end.

(** [x[:n]] for [n >= 0]: strings and lists can be sliced. *)
Definition slice_to (n : nat) (x : value) : result value :=
  match x with
  | VStr s => Ok (VStr (str_take n s))
  | VList l => Ok (VList (take n l))
  | _ => Raise TypeError
  end.

Fixpoint replace_go (old new : string) (skip : nat) (s : string) : string :=
  match s with
  | "" => ""
  | String c s' =>
      match skip with
      | S k => replace_go old new k s'
      | O =>
          if String.prefix old s
          then new +:+ replace_go old new (String.length old - 1) s'
          else String c (replace_go old new O s')
      end
  end.

(** [s.replace(old, new)] for a non-empty [old]: every non-overlapping
    occurrence, found left to right, is replaced. *)
Definition replace (old new s : string) : string := replace_go old new O s.

Definition lower_char (c : ascii) : ascii :=
  let n := N_of_ascii c in
  if ((65 <=? n) && (n <=? 90))%N then ascii_of_N (n + 32)
  else if ((192 <=? n) && (n <=? 222) && negb (n =? 215))%N then ascii_of_N (n + 32)
  else c.

(** [s.lower()]. *)
Fixpoint lower (s : string) : string :=
  match s with
  | "" => ""
  | String c s' => String (lower_char c) (lower s')
  end.

(** [sep.join(l)] on a list of strings. *)
Definition join (sep : string) (l : list string) : string := String.concat sep l.

(** [str(n)] for an [int]. *)
Definition str_int (z : Z) : string := pretty z.

(** *** [urllib.parse.quote_plus] *)

Definition always_safe (c : ascii) : bool :=
  let n := N_of_ascii c in
  ((65 <=? n) && (n <=? 90) || (97 <=? n) && (n <=? 122) || (48 <=? n) && (n <=? 57)
   || (n =? 95) || (n =? 46) || (n =? 45) || (n =? 126))%N.

Definition hex_digit (n : N) : ascii :=
  match String.get (N.to_nat n) "0123456789ABCDEF" with
  | Some c => c
  | None => "0"%char
  end.

Definition percent (byte : N) : string :=
  String "%" (String (hex_digit (byte / 16)) (String (hex_digit (byte mod 16)) "")).

(** The UTF-8 encoding of a character with code point below 256. *)
Definition utf8 (c : ascii) : list N :=
  let n := N_of_ascii c in
  if (n <? 128)%N then [n] else [(192 + n / 64)%N; (128 + n mod 64)%N].

Definition quote_plus_char (c : ascii) : string :=
  if Ascii.eqb c " " then "+"
  else if always_safe c then String c ""
  else String.concat "" (percent <$> utf8 c).

Fixpoint quote_plus (s : string) : string :=
  match s with
  | "" => ""
  | String c s' => quote_plus_char c +:+ quote_plus s'
  end.

End Py.

(** ** External libraries *)

(** BeautifulSoup as the client uses it. [Tag] is a parsed element (the
    whole document included). *)
Class Bs4 (Tag : Type) := {
  (** [BeautifulSoup(html, "html.parser")] *)
  BeautifulSoup : string -> Tag;
  (** [tag.select(css)]: the matching descendants in document order *)
  select : Tag -> string -> list Tag;
  (** [tag.get_text(strip=True)] *)
  get_text : Tag -> string;
  (** [tag.get(name)]: [None] when the attribute is absent *)
  attr : Tag -> string -> option string;
  (** [tag.string] *)
  tag_string : Tag -> option string;
}.

(** [tag.select_one(css)]: the first match, or [None]. *)
Definition select_one {Tag : Type} {bs4 : Bs4 Tag} (t : Tag) (css : string) : option Tag :=
  head (select t css).

(** [tag.get(name, "")]. *)
Definition attr_or_empty {Tag : Type} {bs4 : Bs4 Tag} (t : Tag) (name : string) : string :=
  match attr t name with
  | Some v => v
  | None => ""
  end.

(** [httpx]: a GET with the given headers, redirects followed, and
    [raise_for_status]; [None] stands for any failure it raises. *)
Definition Network : Type := list (string * string) -> string -> option string.

(** ** [bandcamp_client.py] *)

Module Client.
Import Py.

Definition BANDCAMP_BASE : string := "https://bandcamp.com".

Record BandcampClient := {
  user_agent : string;
  headers : list (string * string);
}.

Definition __init__ (ua : string) : BandcampClient :=
  {| user_agent := ua;
     headers :=
       [("User-Agent", ua);
        ("Accept", "text/html,application/xhtml+xml,application/xml;q=0.9,*/*;q=0.8");
        ("Accept-Language", "en-US,en;q=0.5")] |}.

Definition default_client : BandcampClient := __init__ "BandcampMCP/1.0".

Definition _fetch (net : Network) (self : BandcampClient) (url : string) : result string :=
  match net (headers self) url with
  | Some text => Ok text
  | None => Raise HTTPError
  end.

(** *** The record under construction

    [get_album] and [get_track] fill a dict statement by statement inside
    a [try]; what was assigned before an exception stays assigned. The
    state is that dict together with the warnings logged so far. *)

Record state := {
  record : dict;
  warnings : list exn;
}.

Definition M (A : Type) : Type := state -> result A * state.

#[export] Instance M_ret : MRet M := fun A a st => (Ok a, st).

#[export] Instance M_bind : MBind M := fun A B k m st =>
  match m st with
  | (Ok a, st') => k a st'
  | (Raise e, st') => (Raise e, st')
  end.

(** A call that may raise. *)
Definition lift {A} (r : result A) : M A := fun st => (r, st).

(** [record[k] = v] *)
Definition setitem (k : string) (v : value) : M unit :=
  fun st => (Ok tt, {| record := <[k := v]> (record st); warnings := warnings st |}).

(** [record.get(k)] *)
Definition lookup_record (k : string) : M value :=
  fun st => (Ok (get_none (record st) k), st).

(** [logger.warning(...)] about the exception [e] *)
Definition log_warning (e : exn) : M unit :=
  fun st => (Ok tt, {| record := record st; warnings := (warnings st ++ [e])%list |}).

(** [try: body except (...) as e: handler(e)] *)
Definition try_except (body : M unit) (caught : exn -> bool) (handler : exn -> M unit) : M unit :=
  fun st =>
    match body st with
    | (Raise e, st') => if caught e then handler e st' else (Raise e, st')
    | r => r
    end.

(** [for x in l: body(x)] *)
Fixpoint for_each {A} (l : list A) (body : A -> M unit) : M unit :=
  match l with
  | [] => mret tt
  | x :: l' => body x ;; for_each l' body
  end.

(** [if c: body] *)
Definition when (c : bool) (body : M unit) : M unit := if c then body else mret tt.

(** The result of a method body started on the record [init]. *)
Definition run (init : dict) (body : M unit) : result dict :=
  match body {| record := init; warnings := [] |} with
  | (Ok _, st) => Ok (record st)
  | (Raise e, _) => Raise e
  end.

(** [except (json.JSONDecodeError, KeyError)] *)
Definition json_or_key_error (e : exn) : bool :=
  match e with
  | JSONDecodeError | KeyError => true
  | _ => false
  end.

(** The quotation mark, and the selector of the structured-data block,
    [script[type="application/ld+json"]]. *)
Definition dquote : string := String "034" "".
Definition JSON_LD_SELECTOR : string :=
  "script[type=" +:+ dquote +:+ "application/ld+json" +:+ dquote +:+ "]".

(** [if s:] on a string. *)
Definition nonempty (s : string) : bool := negb (String.eqb s "").

(** [entries.append(entry)] guarded by [if entry.get("title"):], the last
    statement of every listing loop. *)
Definition append_if_title (entries : list dict) (entry : dict) : list dict :=
  if truthy (get_none entry "title") then (entries ++ [entry])%list else entries.

(** [img.get("src", "") or img.get("data-original", "")] *)
Definition src_or_data_original {Tag : Type} {bs4 : Bs4 Tag} (img : Tag) : string :=
  if nonempty (attr_or_empty img "src") then attr_or_empty img "src"
  else attr_or_empty img "data-original".

(** [if elem: entry[k] = f(elem)] *)
Definition set_if_found {Tag} (elem : option Tag) (k : string) (f : Tag -> value) (entry : dict) : dict :=
  match elem with
  | Some e => <[k := f e]> entry
  | None => entry
  end.

(** *** Query builder *)

Definition type_map : gmap string string :=
  list_to_map
    [("all", ""); ("album", "a"); ("artist", "b"); ("track", "t"); ("label", "b"); ("fan", "f")].

Definition search_url (query item_type : string) (page : Z) : string :=
  let search_type := default "" (type_map !! item_type) in
  let url := BANDCAMP_BASE +:+ "/search?q=" +:+ quote_plus query +:+ "&page=" +:+ str_int page in
  if nonempty search_type then url +:+ "&item_type=" +:+ search_type else url.

Definition tag_url (tag sort : string) (page : Z) : string :=
  BANDCAMP_BASE +:+ "/tag/" +:+ quote_plus tag +:+ "?sort_field=" +:+ sort
    +:+ "&page=" +:+ str_int page.

Definition discover_params (genre subgenre sort format : string) (location : Z) : list string :=
  let params := [] in
  let params := if nonempty genre then (params ++ ["g=" +:+ quote_plus genre])%list else params in
  let params := if nonempty subgenre then (params ++ ["s=" +:+ quote_plus subgenre])%list else params in
  let params := if nonempty sort then (params ++ ["sort=" +:+ sort])%list else params in
  let params := if negb (String.eqb format "all") then (params ++ ["f=" +:+ format])%list else params in
  let params := if negb (location =? 0) then (params ++ ["l=" +:+ str_int location])%list else params in
  params.

Definition discover_url (genre subgenre sort format : string) (location : Z) : string :=
  let url := BANDCAMP_BASE +:+ "/discover" in
  let params := discover_params genre subgenre sort format location in
  match params with
  | [] => url
  | _ => url +:+ "?" +:+ join "&" params
  end.

Section Methods.
Context {Tag : Type} {bs4 : Bs4 Tag}.
(** [json.loads] on a string: it returns the value or raises, with
    [JSONDecodeError] on a text that is not JSON. *)
Variable json_loads : string -> result value.
(** [urllib.parse.urljoin]: it returns the joined address or raises
    ([ValueError] on a reference it cannot split). *)
Variable urljoin : string -> string -> result string.

(** [json.loads(tag.string)]: [tag.string] may be [None], which is not a
    string. *)
Definition loads (text : option string) : result value :=
  match text with
  | None => Raise TypeError
  | Some s => json_loads s
  end.

(** *** [search] *)

Definition search_result (item : Tag) : dict :=
  let result : dict := ∅ in
  let result :=
    <["type" := VStr (match select_one item ".itemtype" with
                      | Some result_type => lower (get_text result_type)
                      | None => "unknown"
                      end)]> result in
  let result :=
    match select_one item ".heading a" with
    | Some heading =>
        <["url" := VStr (attr_or_empty heading "href")]>
          (<["title" := VStr (get_text heading)]> result)
    | None => result
    end in
  let result := set_if_found (select_one item ".subhead") "subhead"
                  (fun subhead => VStr (get_text subhead)) result in
  let result := set_if_found (select_one item ".art img") "image"
                  (fun img => VStr (attr_or_empty img "src")) result in
  let result := <["tags" := VList (VStr <$> (get_text <$> select item ".tag"))]> result in
  let result := set_if_found (select_one item ".released") "released"
                  (fun released => VStr (replace "released " "" (get_text released))) result in
  let result := set_if_found (select_one item ".genre") "genre"
                  (fun genre => VStr (replace "genre: " "" (get_text genre))) result in
  result.

Definition search_results (soup : Tag) : list dict :=
  foldl (fun results item => append_if_title results (search_result item))
    [] (select soup ".searchresult").

Definition search_soup (soup : Tag) (page : Z) : dict :=
  let results := search_results soup in
  let pagination : dict :=
    <["page" := VInt page]> (<["items" := VInt (Z.of_nat (List.length results))]> ∅) in
  <["results" := VList (VDict <$> results)]> (<["pagination" := VDict pagination]> ∅).

Definition search (net : Network) (self : BandcampClient)
    (query item_type : string) (page : Z) : result dict :=
  rbind (_fetch net self (search_url query item_type page)) (fun html =>
  Ok (search_soup (BeautifulSoup html) page)).

(** *** [get_album] *)

(** [record[k].append(v)] *)
Definition append_item (k : string) (v : value) : M unit :=
  fun st =>
    match record st !! k with
    | Some (VList l) =>
        (Ok tt, {| record := <[k := VList (l ++ [v])%list]> (record st);
                   warnings := warnings st |})
    | Some _ => (Raise AttributeError, st)
    | None => (Raise KeyError, st)
    end.

(** One pass of the loop over [itemListElement]. *)
Definition album_track (t : value) : M unit :=
  track_item ← lift (call_get t "item" (VDict ∅));
  position ← lift (call_get t "position" (VInt 0));
  title ← lift (call_get track_item "name" (VStr ""));
  duration ← lift (call_get track_item "duration" (VStr ""));
  url ← lift (call_get track_item "@id" (VStr ""));
  append_item "tracks"
    (VDict (<["position" := position]> (<["title" := title]>
           (<["duration" := duration]> (<["url" := url]> ∅))))).

(** The body of [if isinstance(data, dict):] in [get_album]. *)
Definition album_json_ld (data : dict) : M unit :=
  setitem "title" (get data "name" (VStr ""));;
  artist ← lift (call_get (get data "byArtist" (VDict ∅)) "name" (VStr ""));
  setitem "artist" artist;;
  setitem "description" (get data "description" (VStr ""));;
  setitem "release_date" (get data "datePublished" (VStr ""));;
  setitem "image" (get data "image" (VStr ""));;
  setitem "num_tracks" (get data "numTracks" (VInt 0));;
  tracks ← lift (call_get (get data "track" (VDict ∅)) "itemListElement" (VList []));
  setitem "tracks" (VList []);;
  items ← lift (iterate tracks);
  for_each items album_track;;
  let offers := get data "offers" (VDict ∅) in
  when (truthy offers) (
    price ← lift (call_get offers "price" (VStr ""));
    setitem "price" price;;
    currency ← lift (call_get offers "priceCurrency" (VStr ""));
    setitem "currency" currency);;
  let publisher := get data "publisher" (VDict ∅) in
  when (truthy publisher) (
    label ← lift (call_get publisher "name" (VStr ""));
    setitem "label" label;;
    label_url ← lift (call_get publisher "@id" (VStr ""));
    setitem "label_url" label_url).

(** [if json_ld: try: ... except (json.JSONDecodeError, KeyError) as e:
    logger.warning(...)], with the body of the [isinstance] test given. *)
Definition json_ld_block (soup : Tag) (body : dict -> M unit) : M unit :=
  match select_one soup JSON_LD_SELECTOR with
  | Some json_ld =>
      try_except
        (data ← lift (loads (tag_string json_ld));
         match data with
         | VDict d => body d
         | _ => mret tt
         end)
        json_or_key_error
        log_warning
  | None => mret tt
  end.

(** [if not record.get(k): elem = soup.select_one(css); if elem:
    record[k] = elem.get_text(strip=True)] *)
Definition fallback_text (soup : Tag) (k css : string) : M unit :=
  current ← lookup_record k;
  when (negb (truthy current))
    match select_one soup css with
    | Some elem => setitem k (VStr (get_text elem))
    | None => mret tt
    end.

(** [elem = soup.select_one(css); if elem: record[k] = elem.get_text(strip=True)] *)
Definition text_if_found (soup : Tag) (k css : string) : M unit :=
  match select_one soup css with
  | Some elem => setitem k (VStr (get_text elem))
  | None => mret tt
  end.

Definition tralbum_tags (soup : Tag) : value :=
  VList (VStr <$> (get_text <$> select soup ".tralbum-tags a.tag")).

(** The statements of [get_album] after the structured-data block. *)
Definition album_html (soup : Tag) : M unit :=
  fallback_text soup "title" "#name-section .trackTitle";;
  fallback_text soup "artist" "#name-section a";;
  setitem "tags" (tralbum_tags soup);;
  text_if_found soup "about" ".tralbum-about";;
  text_if_found soup "credits" ".tralbum-credits".

Definition get_album_body (soup : Tag) : M unit :=
  json_ld_block soup album_json_ld;;
  album_html soup.

Definition get_album_soup (soup : Tag) (url : string) : result dict :=
  run {[ "url" := VStr url ]} (get_album_body soup).

Definition get_album (net : Network) (self : BandcampClient) (url : string) : result dict :=
  rbind (_fetch net self url) (fun html => get_album_soup (BeautifulSoup html) url).

(** *** [get_artist] *)

(** One pass of the loop over the grid items, up to the title test. *)
Definition discography_entry (url : string) (item : Tag) : result dict :=
  let album : dict := ∅ in
  rbind (match select_one item "a" with
         | Some link =>
             rbind (urljoin url (attr_or_empty link "href")) (fun joined =>
             Ok (<["url" := VStr joined]> album))
         | None => Ok album
         end) (fun album =>
  let album := set_if_found (select_one item ".title") "title"
                 (fun title => VStr (get_text title)) album in
  let album := set_if_found (select_one item "img") "image"
                 (fun img => VStr (src_or_data_original img)) album in
  Ok album).

(** The loop over the grid items: it ends at the first pass that raises. *)
Definition discography (soup : Tag) (url : string) : result (list dict) :=
  foldl (fun albums item =>
           rbind albums (fun albums =>
           rbind (discography_entry url item) (fun album =>
           Ok (append_if_title albums album))))
    (Ok []) (select soup ".music-grid-item").

Definition band_link (link : Tag) : dict :=
  <["name" := VStr (get_text link)]> (<["url" := VStr (attr_or_empty link "href")]> ∅).

Definition get_artist_soup (soup : Tag) (url : string) : result dict :=
  let artist : dict := {[ "url" := VStr url ]} in
  let artist := set_if_found (select_one soup "#band-name-location .title") "name"
                  (fun e => VStr (get_text e)) artist in
  let artist := set_if_found (select_one soup "#band-name-location .location") "location"
                  (fun e => VStr (get_text e)) artist in
  let artist := set_if_found (select_one soup ".bio-text") "bio"
                  (fun e => VStr (get_text e)) artist in
  rbind (discography soup url) (fun albums =>
  let artist := <["discography" := VList (VDict <$> albums)]> artist in
  let links := foldl (fun links link => (links ++ [band_link link])%list)
                 [] (select soup "#band-links li a") in
  let artist := <["links" := VList (VDict <$> links)]> artist in
  Ok artist).

Definition get_artist (net : Network) (self : BandcampClient) (url : string) : result dict :=
  rbind (_fetch net self url) (fun html => get_artist_soup (BeautifulSoup html) url).

(** *** [get_track] *)

(** The body of [if isinstance(data, dict):] in [get_track]. *)
Definition track_json_ld (data : dict) : M unit :=
  setitem "title" (get data "name" (VStr ""));;
  artist ← lift (call_get (get data "byArtist" (VDict ∅)) "name" (VStr ""));
  setitem "artist" artist;;
  setitem "duration" (get data "duration" (VStr ""));;
  setitem "description" (get data "description" (VStr ""));;
  setitem "release_date" (get data "datePublished" (VStr ""));;
  setitem "image" (get data "image" (VStr ""));;
  let in_album := get data "inAlbum" (VDict ∅) in
  when (truthy in_album) (
    album ← lift (call_get in_album "name" (VStr ""));
    setitem "album" album;;
    album_url ← lift (call_get in_album "@id" (VStr ""));
    setitem "album_url" album_url);;
  let offers := get data "offers" (VDict ∅) in
  when (truthy offers) (
    price ← lift (call_get offers "price" (VStr ""));
    setitem "price" price;;
    currency ← lift (call_get offers "priceCurrency" (VStr ""));
    setitem "currency" currency).

(** The statements of [get_track] after the structured-data block. *)
Definition track_html (soup : Tag) : M unit :=
  setitem "tags" (tralbum_tags soup);;
  text_if_found soup "lyrics" ".lyricsText".

Definition get_track_body (soup : Tag) : M unit :=
  json_ld_block soup track_json_ld;;
  track_html soup.

Definition get_track_soup (soup : Tag) (url : string) : result dict :=
  run {[ "url" := VStr url ]} (get_track_body soup).

Definition get_track (net : Network) (self : BandcampClient) (url : string) : result dict :=
  rbind (_fetch net self url) (fun html => get_track_soup (BeautifulSoup html) url).

(** *** [get_tag_page] *)

Definition tag_entry (item : Tag) : dict :=
  let album : dict := ∅ in
  let album := set_if_found (select_one item "a") "url"
                 (fun link => VStr (attr_or_empty link "href")) album in
  let album := set_if_found (select_one item ".itemtext") "title"
                 (fun title => VStr (get_text title)) album in
  let album := set_if_found (select_one item ".itemsubtext") "artist"
                 (fun artist => VStr (get_text artist)) album in
  let album := set_if_found (select_one item "img") "image"
                 (fun img => VStr (src_or_data_original img)) album in
  album.

Definition tag_albums (soup : Tag) : list dict :=
  foldl (fun albums item => append_if_title albums (tag_entry item))
    [] (select soup ".item_list .item").

Definition get_tag_page_soup (soup : Tag) (tag sort : string) (page : Z) : dict :=
  <["tag" := VStr tag]> (<["sort" := VStr sort]> (<["page" := VInt page]>
  (<["albums" := VList (VDict <$> tag_albums soup)]> ∅))).

Definition get_tag_page (net : Network) (self : BandcampClient)
    (tag sort : string) (page : Z) : result dict :=
  rbind (_fetch net self (tag_url tag sort page)) (fun html =>
  Ok (get_tag_page_soup (BeautifulSoup html) tag sort page)).

(** *** [discover] *)

Definition discover_entry (item : Tag) : dict :=
  let album : dict := ∅ in
  let album := set_if_found (select_one item "a") "url"
                 (fun link => VStr (attr_or_empty link "href")) album in
  let album := set_if_found (select_one item ".heading") "title"
                 (fun title => VStr (get_text title)) album in
  let album := set_if_found (select_one item ".subhead") "artist"
                 (fun artist => VStr (get_text artist)) album in
  let album := set_if_found (select_one item "img") "image"
                 (fun img => VStr (src_or_data_original img)) album in
  let album := set_if_found (select_one item ".genre") "genre"
                 (fun genre_elem => VStr (get_text genre_elem)) album in
  album.

Definition discover_albums (soup : Tag) : list dict :=
  foldl (fun albums item => append_if_title albums (discover_entry item))
    [] (select soup ".discover-item").

Definition discover_soup (soup : Tag) (genre subgenre sort : string) : dict :=
  <["genre" := VStr genre]> (<["subgenre" := VStr subgenre]> (<["sort" := VStr sort]>
  (<["albums" := VList (VDict <$> discover_albums soup)]> ∅))).

Definition discover (net : Network) (self : BandcampClient)
    (genre subgenre sort format : string) (location : Z) : result dict :=
  rbind (_fetch net self (discover_url genre subgenre sort format location)) (fun html =>
  Ok (discover_soup (BeautifulSoup html) genre subgenre sort)).

End Methods.

End Client.

(** ** [server_remote.py]: the album, artist and track branches of [call_tool] *)

Module Server.
Import Py.

(** What a branch returns: one text block, or, from the [except Exception]
    handler, the text ["Error: " + str(e)], kept as the exception. *)
Inductive tool_output :=
  | TextContent (text : string)
  | ErrorContent (e : exn).

(** The list [lines] a branch appends to; a statement may raise. *)
Definition Fmt : Type := list string -> result (list string).

Definition skip : Fmt := fun lines => Ok lines.

(** [lines.append(line)] *)
Definition append (line : string) : Fmt := fun lines => Ok (lines ++ [line])%list.

Definition andthen (a b : Fmt) : Fmt := fun lines => rbind (a lines) b.
Infix ">>" := andthen (at level 62, left associativity).

(** A computed value, then the statement that uses it. *)
Definition given {A} (r : result A) (k : A -> Fmt) : Fmt :=
  fun lines => rbind r (fun a => k a lines).

(** [if record.get(k): body(record[k])] *)
Definition if_field (record : dict) (k : string) (body : value -> Fmt) : Fmt :=
  if truthy (get_none record k) then body (get_none record k) else skip.

Fixpoint for_lines {A} (l : list A) (body : A -> Fmt) : Fmt :=
  match l with
  | [] => skip
  | x :: l' => body x >> for_lines l' body
  end.

Definition newline : string := String "010" "".

(** [sep.join(x)]: every item must be a string. *)
Fixpoint all_str (l : list value) : result (list string) :=
  match l with
  | [] => Ok []
  | VStr s :: l' => rbind (all_str l') (fun r => Ok (s :: r))
  | _ :: _ => Raise TypeError
  end.

Definition join_value (sep : string) (x : value) : result string :=
  rbind (iterate x) (fun items => rbind (all_str items) (fun strs => Ok (join sep strs))).

(** [x.replace(old, new)]: a string method. *)
Definition call_replace (x : value) (old new : string) : result value :=
  match x with
  | VStr s => Ok (VStr (replace old new s))
  | _ => Raise AttributeError
  end.

(** The conversion of an ISO duration to a readable form:
    [duration.replace("P", "").replace("T", "").replace("M", ":").replace("S", "")] *)
Definition readable_duration (duration : value) : result value :=
  rbind (call_replace duration "P" "") (fun d =>
  rbind (call_replace d "T" "") (fun d =>
  rbind (call_replace d "M" ":") (fun d =>
  call_replace d "S" ""))).

Section Formatting.
(** [repr] of a float, a list or a dict. *)
Variable repr : value -> string.

(** [{v}] inside an f-string. *)
Definition format (v : value) : string :=
  match v with
  | VStr s => s
  | VInt z => str_int z
  | VNone => "None"
  | VBool true => "True"
  | VBool false => "False"
  | _ => repr v
  end.

(** [if record.get(k): text = record[k][:limit];
    lines.append(f"\n{heading}:\n{text}{'...' if len(record.get(k, '')) > limit else ''}")] *)
Definition long_text (record : dict) (k heading : string) (limit : nat) : Fmt :=
  if_field record k (fun v =>
    given (slice_to limit v) (fun text =>
    given (len (get record k (VStr ""))) (fun n =>
    append (newline +:+ heading +:+ ":" +:+ newline +:+ format text
              +:+ (if Z.of_nat limit <? n then "..." else ""))))).

(** [price_str], then the price line. *)
Definition price_line (record : dict) : Fmt :=
  if_field record "price" (fun price =>
    let price_str :=
      if truthy (get_none record "currency")
      then VStr (format (get_none record "currency") +:+ " " +:+ format price)
      else price in
    append ("Price: " +:+ format price_str)).

Definition tags_line (record : dict) : Fmt :=
  if_field record "tags" (fun tags =>
    given (join_value ", " tags) (fun joined => append ("Tags: " +:+ joined))).

(** One pass of the loop over [album["tracks"]]. *)
Definition track_line (track : value) : Fmt :=
  given (call_get track "position" (VStr "")) (fun pos =>
  given (call_get track "title" (VStr "")) (fun title =>
  given (call_get track "duration" (VStr "")) (fun duration =>
  given (if truthy duration then readable_duration duration else Ok duration) (fun duration =>
  let dur_str := if truthy duration then " (" +:+ format duration +:+ ")" else "" in
  append ("  " +:+ format pos +:+ ". " +:+ format title +:+ dur_str))))).

Definition format_album (album : dict) : Fmt :=
  append ("Album: " +:+ format (get album "title" (VStr "Unknown"))) >>
  append ("Artist: " +:+ format (get album "artist" (VStr "Unknown"))) >>
  if_field album "label" (fun label => append ("Label: " +:+ format label)) >>
  if_field album "release_date" (fun d => append ("Released: " +:+ format d)) >>
  price_line album >>
  tags_line album >>
  if_field album "tracks" (fun tracks =>
    given (len tracks) (fun n =>
      append (newline +:+ "Tracklist (" +:+ str_int n +:+ " tracks):")) >>
    given (iterate tracks) (fun items => for_lines items track_line)) >>
  long_text album "about" "About" 500 >>
  long_text album "credits" "Credits" 300 >>
  append (newline +:+ "URL: " +:+ format (get album "url" (VStr ""))).

(** One pass of the loop over [artist["discography"][:20]]. *)
Definition release_lines (release : value) : Fmt :=
  given (call_get release "title" (VStr "Unknown")) (fun title =>
  given (call_get release "url" (VStr "")) (fun url =>
  append ("  - " +:+ format title) >> append ("    " +:+ format url))).

Definition link_line (link : value) : Fmt :=
  given (call_get link "name" (VStr "")) (fun name =>
  given (call_get link "url" (VStr "")) (fun url =>
  append ("  - " +:+ format name +:+ ": " +:+ format url))).

Definition format_artist (artist : dict) : Fmt :=
  append ("Artist: " +:+ format (get artist "name" (VStr "Unknown"))) >>
  if_field artist "location" (fun l => append ("Location: " +:+ format l)) >>
  long_text artist "bio" "Bio" 800 >>
  if_field artist "discography" (fun releases =>
    given (len releases) (fun n =>
      append (newline +:+ "Discography (" +:+ str_int n +:+ " releases):")) >>
    given (slice_to 20 releases) (fun first =>
    given (iterate first) (fun items => for_lines items release_lines))) >>
  if_field artist "links" (fun links =>
    append (newline +:+ "External Links:") >>
    given (iterate links) (fun items => for_lines items link_line)) >>
  append (newline +:+ "URL: " +:+ format (get artist "url" (VStr ""))).

(** [if track.get("description"): desc = track["description"][:500];
    lines.append(f"\nDescription:\n{desc}")] *)
Definition description_text (track : dict) : Fmt :=
  if_field track "description" (fun v =>
    given (slice_to 500 v) (fun desc =>
    append (newline +:+ "Description:" +:+ newline +:+ format desc))).

Definition format_track (track : dict) : Fmt :=
  append ("Track: " +:+ format (get track "title" (VStr "Unknown"))) >>
  append ("Artist: " +:+ format (get track "artist" (VStr "Unknown"))) >>
  if_field track "album" (fun a => append ("Album: " +:+ format a)) >>
  if_field track "duration" (fun d => append ("Duration: " +:+ format d)) >>
  if_field track "release_date" (fun d => append ("Released: " +:+ format d)) >>
  price_line track >>
  tags_line track >>
  long_text track "lyrics" "Lyrics" 1000 >>
  description_text track >>
  append (newline +:+ "URL: " +:+ format (get track "url" (VStr ""))).

(** [return [TextContent(type="text", text="\n".join(lines))]], or the
    handler of [except Exception]. *)
Definition respond (r : result (list string)) : tool_output :=
  match r with
  | Ok lines => TextContent (join newline lines)
  | Raise e => ErrorContent e
  end.

(** [arguments["url"]], which the client needs to be a string. *)
Definition url_argument (arguments : dict) : result string :=
  rbind (getitem arguments "url") (fun v =>
  match v with
  | VStr url => Ok url
  | _ => Raise TypeError
  end).

Section Tools.
Context {Tag : Type} {bs4 : Bs4 Tag}.
Variable json_loads : string -> result value.
Variable urljoin : string -> string -> result string.
Variable net : Network.
(** The global [bandcamp_client]. *)
Variable bandcamp_client : Client.BandcampClient.

Definition call_tool_get_album (arguments : dict) : tool_output :=
  respond (rbind (url_argument arguments) (fun url =>
           rbind (Client.get_album json_loads net bandcamp_client url) (fun album =>
           format_album album []))).

Definition call_tool_get_artist (arguments : dict) : tool_output :=
  respond (rbind (url_argument arguments) (fun url =>
           rbind (Client.get_artist urljoin net bandcamp_client url) (fun artist =>
           format_artist artist []))).

Definition call_tool_get_track (arguments : dict) : tool_output :=
  respond (rbind (url_argument arguments) (fun url =>
           rbind (Client.get_track json_loads net bandcamp_client url) (fun track =>
           format_track track []))).

End Tools.
End Formatting.
End Server.

(** ** A small document model

    An instance of the library interface on element trees, enough to run
    the client on concrete pages. A tag is an element together with its
    ancestors, nearest first. The two parsers are tables: a page or a JSON
    text outside its table parses to the empty document, or fails. *)

Module Dom.
Import Py.

#[warnings="-register-all"]
Inductive node :=
  | Element (name : string) (attrs : list (string * string)) (children : list node)
  | Text (text : string).

Definition located : Type := list node * node.

Fixpoint assoc {A} (k : string) (l : list (string * A)) : option A :=
  match l with
  | [] => None
  | (k', v) :: l' => if String.eqb k k' then Some v else assoc k l'
  end.

Definition node_attr (n : node) (name : string) : option string :=
  match n with
  | Element _ attrs _ => assoc name attrs
  | Text _ => None
  end.

(** A compound selector: [tag], [#id], [.class] and [[attr="value"]] parts. *)
Record compound := {
  c_tag : option string;
  c_id : option string;
  c_class : option string;
  c_attr : option (string * string);
}.

Definition by_tag (t : string) : compound :=
  {| c_tag := Some t; c_id := None; c_class := None; c_attr := None |}.
Definition by_id (i : string) : compound :=
  {| c_tag := None; c_id := Some i; c_class := None; c_attr := None |}.
Definition by_class (c : string) : compound :=
  {| c_tag := None; c_id := None; c_class := Some c; c_attr := None |}.

(** The selectors of the client, as chains of compounds joined by the
    descendant combinator. *)
Definition selectors : list (string * list compound) :=
  [(".searchresult", [by_class "searchresult"]);
   (".itemtype", [by_class "itemtype"]);
   (".heading a", [by_class "heading"; by_tag "a"]);
   (".subhead", [by_class "subhead"]);
   (".art img", [by_class "art"; by_tag "img"]);
   (".tag", [by_class "tag"]);
   (".released", [by_class "released"]);
   (".genre", [by_class "genre"]);
   (Client.JSON_LD_SELECTOR,
      [{| c_tag := Some "script"; c_id := None; c_class := None;
          c_attr := Some ("type", "application/ld+json") |}]);
   ("#name-section .trackTitle", [by_id "name-section"; by_class "trackTitle"]);
   ("#name-section a", [by_id "name-section"; by_tag "a"]);
   (".tralbum-tags a.tag",
      [by_class "tralbum-tags";
       {| c_tag := Some "a"; c_id := None; c_class := Some "tag"; c_attr := None |}]);
   (".tralbum-about", [by_class "tralbum-about"]);
   (".tralbum-credits", [by_class "tralbum-credits"]);
   ("#band-name-location .title", [by_id "band-name-location"; by_class "title"]);
   ("#band-name-location .location", [by_id "band-name-location"; by_class "location"]);
   (".bio-text", [by_class "bio-text"]);
   (".music-grid-item", [by_class "music-grid-item"]);
   ("a", [by_tag "a"]);
   (".title", [by_class "title"]);
   ("img", [by_tag "img"]);
   ("#band-links li a", [by_id "band-links"; by_tag "li"; by_tag "a"]);
   (".lyricsText", [by_class "lyricsText"]);
   (".item_list .item", [by_class "item_list"; by_class "item"]);
   (".itemtext", [by_class "itemtext"]);
   (".itemsubtext", [by_class "itemsubtext"]);
   (".discover-item", [by_class "discover-item"]);
   (".heading", [by_class "heading"])].

Definition is_space (c : ascii) : bool :=
  let n := N_of_ascii c in ((n =? 32) || (9 <=? n) && (n <=? 13))%N.

(** The words of a [class] attribute. *)
Fixpoint words_go (current : string) (s : string) : list string :=
  match s with
  | "" => if String.eqb current "" then [] else [current]
  | String c s' =>
      if is_space c
      then (if String.eqb current "" then words_go "" s' else current :: words_go "" s')
      else words_go (current +:+ String c "") s'
  end.

Definition words (s : string) : list string := words_go "" s.

Definition opt_holds {A} (o : option A) (test : A -> bool) : bool :=
  match o with
  | Some a => test a
  | None => true
  end.

Definition matches (c : compound) (n : node) : bool :=
  match n with
  | Text _ => false
  | Element name _ _ =>
      opt_holds (c_tag c) (String.eqb name)
      && opt_holds (c_id c) (fun i => bool_decide (node_attr n "id" = Some i))
      && opt_holds (c_class c) (fun cl =>
           match node_attr n "class" with
           | Some v => existsb (String.eqb cl) (words v)
           | None => false
           end)
      && opt_holds (c_attr c) (fun kv => bool_decide (node_attr n kv.1 = Some kv.2))
  end.

(** The compounds left of the last one, innermost first, against the
    ancestors, nearest first. *)
Fixpoint match_ancestors (outer : list compound) (ancestors : list node) : bool :=
  match outer with
  | [] => true
  | c :: outer' =>
      match ancestors with
      | [] => false
      | a :: ancestors' =>
          if matches c a then match_ancestors outer' ancestors'
          else match_ancestors outer ancestors'
      end
  end.

Definition match_chain (chain : list compound) (t : located) : bool :=
  match rev chain with
  | [] => false
  | c :: outer => matches c t.2 && match_ancestors outer t.1
  end.

(** The element descendants of a tag in document order. *)
Fixpoint descendants (ancestors : list node) (n : node) : list located :=
  match n with
  | Text _ => []
  | Element _ _ children =>
      (fix go (cs : list node) : list located :=
         match cs with
         | [] => []
         | c :: cs' =>
             (match c with
              | Text _ => []
              | Element _ _ _ => [(n :: ancestors, c)]
              end ++ descendants (n :: ancestors) c ++ go cs')%list
         end) children
  end.

Definition dom_select (t : located) (css : string) : list located :=
  match assoc css selectors with
  | Some chain => List.filter (match_chain chain) (descendants t.1 t.2)
  | None => []
  end.

Fixpoint lstrip (s : string) : string :=
  match s with
  | String c s' => if is_space c then lstrip s' else s
  | "" => ""
  end.

Definition strip (s : string) : string :=
  String.rev (lstrip (String.rev (lstrip s))).

(** The stripped, non-empty strings below a node, in document order. *)
Fixpoint strings (n : node) : list string :=
  match n with
  | Text s => if String.eqb (strip s) "" then [] else [strip s]
  | Element _ _ children =>
      (fix go (cs : list node) : list string :=
         match cs with
         | [] => []
         | c :: cs' => (strings c ++ go cs')%list
         end) children
  end.

Definition dom_get_text (t : located) : string := String.concat "" (strings t.2).

(** [.string]: the only child when it is a string, or the [.string] of an
    only child element. *)
Fixpoint node_string (n : node) : option string :=
  match n with
  | Text s => Some s
  | Element _ _ [c] => node_string c
  | Element _ _ _ => None
  end.

Definition dom_string (t : located) : option string :=
  match t.2 with
  | Text _ => None
  | Element _ _ _ => node_string t.2
  end.

(** The document object of a page with the given top-level nodes. *)
Definition document (children : list node) : node := Element "[document]" [] children.

Section Tables.
Variable pages : list (string * list node).
Variable json_texts : list (string * value).

Definition parse (html : string) : located :=
  ([], document (default [] (assoc html pages))).

Definition json_loads (text : string) : result value :=
  match assoc text json_texts with
  | Some v => Ok v
  | None => Raise JSONDecodeError
  end.

#[export] Instance dom_bs4 : Bs4 located := {|
  BeautifulSoup := parse;
  select := dom_select;
  get_text := dom_get_text;
  attr := fun t name => node_attr t.2 name;
  tag_string := dom_string;
|}.

End Tables.

(** [urljoin] on the references of the example pages: an absolute
    reference replaces the base, and a reference with an opening bracket
    that is not closed is refused, as [urlsplit] refuses such a host. *)
Fixpoint has_char (c : ascii) (s : string) : bool :=
  match s with
  | "" => false
  | String x s' => Ascii.eqb x c || has_char c s'
  end.

Definition urljoin (base ref : string) : result string :=
  if has_char "[" ref && negb (has_char "]" ref) then Raise ValueError else Ok ref.

(** A network that serves one page at one address. *)
Definition serve (address html : string) : Network :=
  fun _ url => if String.eqb url address then Some html else None.

End Dom.

(** ** Example pages *)

Module Pages.
Import Py Dom.

(** A JSON string literal. *)
Definition q (s : string) : string := Client.dquote +:+ s +:+ Client.dquote.

Definition obj (fields : list (string * value)) : value := VDict (list_to_map fields).

Definition ld_script (json : string) : string :=
  "<script type=application/ld+json>" +:+ json +:+ "</script>".

Definition ld_node (json : string) : node :=
  Element "script" [("type", "application/ld+json")] [Text json].

Definition name_section_html : string :=
  "<div id=name-section><h2 class=trackTitle> Dawn </h2><h3>by <a href=https://foo.bandcamp.com>Foo</a></h3></div>".

Definition name_section : node :=
  Element "div" [("id", "name-section")]
    [Element "h2" [("class", "trackTitle")] [Text " Dawn "];
     Element "h3" [] [Text "by "; Element "a" [("href", "https://foo.bandcamp.com")] [Text "Foo"]]].

(** An album whose [byArtist] is a string. *)
Definition bad_artist_json : string :=
  "{" +:+ q "name" +:+ ": " +:+ q "Dawn" +:+ ", " +:+ q "byArtist" +:+ ": " +:+ q "Foo" +:+ "}".
Definition bad_artist_data : value := obj [("name", VStr "Dawn"); ("byArtist", VStr "Foo")].
Definition bad_artist_html : string := ld_script bad_artist_json +:+ name_section_html.

(** A track whose [inAlbum] is a string. *)
Definition bad_in_album_json : string :=
  "{" +:+ q "name" +:+ ": " +:+ q "One" +:+ ", " +:+ q "inAlbum" +:+ ": " +:+ q "Dawn" +:+ "}".
Definition bad_in_album_data : value := obj [("name", VStr "One"); ("inAlbum", VStr "Dawn")].
Definition bad_in_album_html : string := ld_script bad_in_album_json.

(** A block that is not JSON. *)
Definition malformed_json : string := "{name: Dawn".
Definition malformed_html : string := ld_script malformed_json +:+ name_section_html.

(** An album page whose structured-data block is empty: the element has
    no text. *)
Definition empty_block_html : string := ld_script "" +:+ name_section_html.
Definition empty_block_node : node :=
  Element "script" [("type", "application/ld+json")] [].

(** An album page without a structured-data block, and the record
    [get_album] makes of it. *)
Definition plain_html : string := name_section_html.
Definition plain_album : gmap string value :=
  list_to_map
    [("url", VStr "https://foo.bandcamp.com/album/dawn");
     ("title", VStr "Dawn"); ("artist", VStr "Foo"); ("tags", VList [])].

(** An album with two tracks, the second without a position. *)
Definition full_json : string :=
  "{" +:+ q "name" +:+ ": " +:+ q "Dawn" +:+ ", "
  +:+ q "byArtist" +:+ ": {" +:+ q "name" +:+ ": " +:+ q "Foo" +:+ "}, "
  +:+ q "numTracks" +:+ ": 2, "
  +:+ q "track" +:+ ": {" +:+ q "itemListElement" +:+ ": [{"
  +:+ q "position" +:+ ": 1, " +:+ q "item" +:+ ": {" +:+ q "name" +:+ ": " +:+ q "One" +:+ ", "
  +:+ q "duration" +:+ ": " +:+ q "PT3M45S" +:+ "}}, {"
  +:+ q "item" +:+ ": {" +:+ q "name" +:+ ": " +:+ q "Two" +:+ "}}]}}".
Definition full_dict : gmap string value :=
  list_to_map
    [("name", VStr "Dawn");
     ("byArtist", obj [("name", VStr "Foo")]);
     ("numTracks", VInt 2);
     ("track", obj [("itemListElement",
        VList [obj [("position", VInt 1);
                    ("item", obj [("name", VStr "One"); ("duration", VStr "PT3M45S")])];
               obj [("item", obj [("name", VStr "Two")])]])])].
Definition full_data : value := VDict full_dict.
Definition full_html : string := ld_script full_json.

(** Its first track: the item, the list element, and the entry of the
    record. *)
Definition item_one : gmap string value :=
  list_to_map [("name", VStr "One"); ("duration", VStr "PT3M45S")].
Definition element_one : gmap string value :=
  list_to_map [("position", VInt 1); ("item", VDict item_one)].
Definition listed_one : gmap string value :=
  list_to_map [("position", VInt 1); ("title", VStr "One");
               ("duration", VStr "PT3M45S"); ("url", VStr "")].
Definition tracks_started : Client.state :=
  {| Client.record := {[ "tracks" := VList [] ]}; Client.warnings := [] |}.

(** A tag page with two item blocks, the second without a title. *)
Definition tag_html : string :=
  "<div class=item_list><div class=item><a href=https://foo.bandcamp.com/album/dawn><div class=itemtext>Dawn</div><div class=itemsubtext>Foo</div></a></div><div class=item><a href=https://bar.bandcamp.com/album/dusk><img src=https://f4.bcbits.com/img/2.jpg></a></div></div>".
Definition tag_nodes : list node :=
  [Element "div" [("class", "item_list")]
     [Element "div" [("class", "item")]
        [Element "a" [("href", "https://foo.bandcamp.com/album/dawn")]
           [Element "div" [("class", "itemtext")] [Text "Dawn"];
            Element "div" [("class", "itemsubtext")] [Text "Foo"]]];
      Element "div" [("class", "item")]
        [Element "a" [("href", "https://bar.bandcamp.com/album/dusk")]
           [Element "img" [("src", "https://f4.bcbits.com/img/2.jpg")] []]]]].

(** A page on which no rule matches. *)
Definition empty_html : string := "<p>Not found</p>".
Definition empty_nodes : list node := [Element "p" [] [Text "Not found"]].

Definition pages : list (string * list node) :=
  [(bad_artist_html, [ld_node bad_artist_json; name_section]);
   (bad_in_album_html, [ld_node bad_in_album_json]);
   (malformed_html, [ld_node malformed_json; name_section]);
   (empty_block_html, [empty_block_node; name_section]);
   (plain_html, [name_section]);
   (full_html, [ld_node full_json]);
   (tag_html, tag_nodes);
   (empty_html, empty_nodes)].

Definition json_texts : list (string * value) :=
  [(bad_artist_json, bad_artist_data);
   (bad_in_album_json, bad_in_album_data);
   (full_json, full_data)].

Definition bs4 : Bs4 located := dom_bs4 pages.
Definition loads : string -> result value := Dom.json_loads json_texts.

Definition album_url : string := "https://foo.bandcamp.com/album/dawn".
Definition track_url : string := "https://foo.bandcamp.com/track/one".

(** A text of [n] copies of [c]. *)
Fixpoint fill (n : nat) (c : ascii) : string :=
  match n with
  | O => ""
  | S n' => String c (fill n' c)
  end.

(** A network that serves one page whatever the address. *)
Definition always (html : string) : Network := fun _ _ => Some html.

(** Records of a track with a description of 501 characters, of a track
    with lyrics of 1001 characters and of an artist with a bio of 900. *)
Definition long_description : gmap string value := {[ "description" := VStr (fill 501 "x") ]}.
Definition long_lyrics : gmap string value := {[ "lyrics" := VStr (fill 1001 "x") ]}.
Definition long_bio : gmap string value := {[ "bio" := VStr (fill 900 "x") ]}.

(** [repr] of the values the examples format: none. *)
Definition no_repr (v : value) : string := "".

End Pages.

(** ** [server_remote.py]: the tool list, the other branches of [call_tool]
    and its dispatch

    [call_tool] receives its arguments untyped and hands them to the
    client as they are, so the three listing methods are given here as
    they behave on any JSON value; on arguments of the annotated types
    they are the methods of [Client]. *)

Module Tools.
Import Py Client Server.

Record Tool := {
  name : string;
  description : string;
  inputSchema : value;
}.

Definition obj (fields : list (string * value)) : value := VDict (list_to_map fields).

Definition strs (l : list string) : value := VList (VStr <$> l).

Definition string_property (text : string) : value :=
  obj [("type", VStr "string"); ("description", VStr text)].

Definition url_schema (text : string) : value :=
  obj [("type", VStr "object");
       ("properties", obj [("url", string_property text)]);
       ("required", strs ["url"])].

Definition search_tool : Tool :=
  {| name := "bandcamp_search";
       description := "Search Bandcamp for albums, artists, tracks, or labels. Returns titles, URLs, and basic info.";
       inputSchema :=
         obj [("type", VStr "object");
              ("properties",
                obj [("query", string_property "Search query (artist name, album title, etc.)");
                     ("item_type",
                       obj [("type", VStr "string");
                            ("enum", strs ["all"; "album"; "artist"; "track"; "label"]);
                            ("description", VStr "Type of result to filter by");
                            ("default", VStr "all")]);
                     ("page",
                       obj [("type", VStr "integer");
                            ("description", VStr "Page number for pagination");
                            ("default", VInt 1)])]);
              ("required", strs ["query"])] |}.

Definition get_album_tool : Tool :=
  {| name := "bandcamp_get_album";
       description := "Get detailed album information including tracklist, tags, credits, and pricing from a Bandcamp album URL.";
       inputSchema :=
         url_schema "Full Bandcamp album URL (e.g., https://artist.bandcamp.com/album/album-name)" |}.

Definition get_artist_tool : Tool :=
  {| name := "bandcamp_get_artist";
       description := "Get artist/label information including bio, location, discography, and external links from a Bandcamp artist page.";
       inputSchema := url_schema "Bandcamp artist/label URL (e.g., https://artist.bandcamp.com)" |}.

Definition get_track_tool : Tool :=
  {| name := "bandcamp_get_track";
       description := "Get detailed track information including lyrics (if available), tags, and album association.";
       inputSchema :=
         url_schema "Full Bandcamp track URL (e.g., https://artist.bandcamp.com/track/track-name)" |}.

Definition browse_tag_tool : Tool :=
  {| name := "bandcamp_browse_tag";
       description := "Browse albums by tag/genre on Bandcamp. Great for discovering music in specific genres.";
       inputSchema :=
         obj [("type", VStr "object");
              ("properties",
                obj [("tag", string_property "Tag/genre to browse (e.g., 'ambient', 'electronic', 'jazz', 'punk')");
                     ("sort",
                       obj [("type", VStr "string");
                            ("enum", strs ["pop"; "new"; "rec"]);
                            ("description", VStr "Sort order: pop (popular), new (newest), rec (recommended)");
                            ("default", VStr "pop")]);
                     ("page",
                       obj [("type", VStr "integer");
                            ("description", VStr "Page number");
                            ("default", VInt 1)])]);
              ("required", strs ["tag"])] |}.

Definition discover_tool : Tool :=
  {| name := "bandcamp_discover";
       description := "Discover new music on Bandcamp's discovery page. Filter by genre, format, and sort order.";
       inputSchema :=
         obj [("type", VStr "object");
              ("properties",
                obj [("genre", string_property "Main genre (e.g., 'electronic', 'rock', 'hip-hop-rap', 'ambient')");
                     ("subgenre", string_property "Subgenre for more specific filtering");
                     ("sort",
                       obj [("type", VStr "string");
                            ("enum", strs ["top"; "new"; "rec"]);
                            ("description", VStr "Sort: top (best-selling), new (newest), rec (recommended)");
                            ("default", VStr "top")]);
                     ("format",
                       obj [("type", VStr "string");
                            ("enum", strs ["all"; "vinyl"; "cd"; "cassette"]);
                            ("description", VStr "Physical format filter");
                            ("default", VStr "all")])])] |}.

Definition list_tools : list Tool :=
  [search_tool; get_album_tool; get_artist_tool; get_track_tool; browse_tag_tool;
   discover_tool].

(** [init_bandcamp_client]: the global client, [None] at import, is set
    to a client with the default user agent. *)
Definition init_bandcamp_client (bandcamp_client : option BandcampClient)
    : option BandcampClient :=
  Some (__init__ "BandcampMCP/1.0").

(** [quote_plus(x)]: anything but a string is refused. *)
Definition quote_plus_any (x : value) : result string :=
  match x with
  | VStr s => Ok (quote_plus s)
  | _ => Raise TypeError
  end.

(** [type_map.get(item_type, "")]: a list or a dict cannot be a key; any
    other value that is not a string is a key the map does not have. *)
Definition type_map_get (item_type : value) : result string :=
  match item_type with
  | VStr s => Ok (default "" (type_map !! s))
  | VList _ | VDict _ => Raise TypeError
  | _ => Ok ""
  end.

(** [x != "all"] *)
Definition differs_from (x : value) (s : string) : bool :=
  match x with
  | VStr s' => negb (String.eqb s' s)
  | _ => true
  end.

(** [x.title()]: a string method. *)
Definition call_title (title_case : string -> string) (x : value) : result value :=
  match x with
  | VStr s => Ok (VStr (title_case s))
  | _ => Raise AttributeError
  end.

(** [return [TextContent(type="text", text=...)]], or the handler of
    [except Exception]. *)
Definition respond_text (r : result string) : tool_output :=
  match r with
  | Ok text => TextContent text
  | Raise e => ErrorContent e
  end.

(** [bandcamp_client.method]: the attribute of the global, which is
    [None] until it is initialised. *)
Definition client_method {A} (bandcamp_client : option BandcampClient)
    (method : BandcampClient -> result A) : result A :=
  match bandcamp_client with
  | Some self => method self
  | None => Raise AttributeError
  end.

Section Calls.
Context {Tag : Type} {bs4 : Bs4 Tag}.
(** [repr] of a float, a list or a dict, and [str.title]. *)
Variable repr : value -> string.
Variable title_case : string -> string.
Variable json_loads : string -> result value.
Variable urljoin : string -> string -> result string.
Variable net : Network.

(** *** The listing methods on any arguments *)

Definition search_url_any (query item_type page : value) : result string :=
  rbind (type_map_get item_type) (fun search_type =>
  rbind (quote_plus_any query) (fun q =>
  let url := BANDCAMP_BASE +:+ "/search?q=" +:+ q +:+ "&page=" +:+ format repr page in
  Ok (if nonempty search_type then url +:+ "&item_type=" +:+ search_type else url))).

Definition search_soup_any (soup : Tag) (page : value) : dict :=
  let results := search_results soup in
  let pagination : dict :=
    <["page" := page]> (<["items" := VInt (Z.of_nat (List.length results))]> ∅) in
  <["results" := VList (VDict <$> results)]> (<["pagination" := VDict pagination]> ∅).

Definition search_any (self : BandcampClient) (query item_type page : value) : result dict :=
  rbind (search_url_any query item_type page) (fun url =>
  rbind (_fetch net self url) (fun html =>
  Ok (search_soup_any (BeautifulSoup html) page))).

Definition tag_url_any (tag sort page : value) : result string :=
  rbind (quote_plus_any tag) (fun t =>
  Ok (BANDCAMP_BASE +:+ "/tag/" +:+ t +:+ "?sort_field=" +:+ format repr sort
        +:+ "&page=" +:+ format repr page)).

Definition get_tag_page_soup_any (soup : Tag) (tag sort page : value) : dict :=
  <["tag" := tag]> (<["sort" := sort]> (<["page" := page]>
  (<["albums" := VList (VDict <$> tag_albums soup)]> ∅))).

Definition get_tag_page_any (self : BandcampClient) (tag sort page : value) : result dict :=
  rbind (tag_url_any tag sort page) (fun url =>
  rbind (_fetch net self url) (fun html =>
  Ok (get_tag_page_soup_any (BeautifulSoup html) tag sort page))).

(** [if x: params.append(f"{key}={quote_plus(x)}")] *)
Definition quoted_param (key : string) (x : value) (params : list string)
    : result (list string) :=
  if truthy x
  then rbind (quote_plus_any x) (fun q => Ok (params ++ [key +:+ "=" +:+ q])%list)
  else Ok params.

Definition discover_params_any (genre subgenre sort format location : value)
    : result (list string) :=
  let params := [] in
  rbind (quoted_param "g" genre params) (fun params =>
  rbind (quoted_param "s" subgenre params) (fun params =>
  let params := if truthy sort
                then (params ++ ["sort=" +:+ Server.format repr sort])%list else params in
  let params := if differs_from format "all"
                then (params ++ ["f=" +:+ Server.format repr format])%list else params in
  let params := if truthy location
                then (params ++ ["l=" +:+ Server.format repr location])%list else params in
  Ok params)).

Definition discover_url_any (genre subgenre sort format location : value) : result string :=
  let url := BANDCAMP_BASE +:+ "/discover" in
  rbind (discover_params_any genre subgenre sort format location) (fun params =>
  Ok match params with
     | [] => url
     | _ => url +:+ "?" +:+ join "&" params
     end).

Definition discover_soup_any (soup : Tag) (genre subgenre sort : value) : dict :=
  <["genre" := genre]> (<["subgenre" := subgenre]> (<["sort" := sort]>
  (<["albums" := VList (VDict <$> discover_albums soup)]> ∅))).

Definition discover_any (self : BandcampClient)
    (genre subgenre sort format location : value) : result dict :=
  rbind (discover_url_any genre subgenre sort format location) (fun url =>
  rbind (_fetch net self url) (fun html =>
  Ok (discover_soup_any (BeautifulSoup html) genre subgenre sort))).

(** *** The search branch *)

(** One pass of the loop over the results. *)
Definition search_item_lines (item : value) : Fmt :=
  given (call_get item "type" (VStr "unknown")) (fun type =>
  given (call_title title_case type) (fun item_type =>
  given (call_get item "title" (VStr "Unknown")) (fun title =>
  given (call_get item "url" (VStr "")) (fun url =>
  append ("[" +:+ format repr item_type +:+ "] " +:+ format repr title) >>
  given (call_get item "subhead" VNone) (fun subhead =>
    if truthy subhead then append ("  by " +:+ format repr subhead) else skip) >>
  given (call_get item "genre" VNone) (fun genre =>
    if truthy genre then append ("  Genre: " +:+ format repr genre) else skip) >>
  given (call_get item "released" VNone) (fun released =>
    if truthy released then append ("  Released: " +:+ format repr released) else skip) >>
  given (call_get item "tags" VNone) (fun tags =>
    if truthy tags
    then given (slice_to 5 tags) (fun first =>
         given (join_value ", " first) (fun joined => append ("  Tags: " +:+ joined)))
    else skip) >>
  append ("  URL: " +:+ format repr url) >>
  append "")))).

Definition search_text (results : dict) : result string :=
  let items := get results "results" (VList []) in
  let pagination := get results "pagination" (VDict ∅) in
  if negb (truthy items) then Ok "No results found."
  else
    rbind (len items) (fun n =>
    rbind (call_get pagination "page" (VInt 1)) (fun page =>
    rbind (given (iterate items) (fun l => for_lines l search_item_lines)
             ["Found " +:+ str_int n +:+ " results (page " +:+ format repr page +:+ "):"
              +:+ newline]) (fun lines =>
    Ok (join newline lines)))).

(** *** The tag branch *)

(** One pass of the loop over the albums of a tag page. *)
Definition tag_album_lines (album : value) : Fmt :=
  given (call_get album "title" (VStr "Unknown")) (fun title =>
  append (format repr title) >>
  given (call_get album "artist" VNone) (fun artist =>
    if truthy artist then append ("  by " +:+ format repr artist) else skip) >>
  given (call_get album "url" (VStr "")) (fun url =>
  append ("  URL: " +:+ format repr url) >>
  append "")).

Definition tag_text (arguments results : dict) : result string :=
  let albums := get results "albums" (VList []) in
  if negb (truthy albums)
  then rbind (getitem arguments "tag") (fun tag =>
       Ok ("No albums found for tag '" +:+ format repr tag +:+ "'."))
  else
    rbind (getitem results "tag") (fun tag =>
    rbind (getitem results "sort") (fun sort =>
    rbind (getitem results "page") (fun page =>
    rbind (len albums) (fun n =>
    rbind (given (iterate albums) (fun l => for_lines l tag_album_lines)
             ["Tag: " +:+ format repr tag +:+ " (sort: " +:+ format repr sort
              +:+ ", page " +:+ format repr page +:+ ")" +:+ newline;
              "Found " +:+ str_int n +:+ " albums:" +:+ newline]) (fun lines =>
    Ok (join newline lines)))))).

(** *** The discover branch *)

(** One pass of the loop over the albums of the discovery page. *)
Definition discover_album_lines (album : value) : Fmt :=
  given (call_get album "title" (VStr "Unknown")) (fun title =>
  append (format repr title) >>
  given (call_get album "artist" VNone) (fun artist =>
    if truthy artist then append ("  by " +:+ format repr artist) else skip) >>
  given (call_get album "genre" VNone) (fun genre =>
    if truthy genre then append ("  Genre: " +:+ format repr genre) else skip) >>
  given (call_get album "url" (VStr "")) (fun url =>
  append ("  URL: " +:+ format repr url) >>
  append "")).

Definition discover_text (results : dict) : result string :=
  let albums := get results "albums" (VList []) in
  if negb (truthy albums) then Ok "No albums found in discovery."
  else
    let genre_str := if truthy (get_none results "genre")
                     then get_none results "genre" else VStr "all genres" in
    rbind (getitem results "sort") (fun sort =>
    rbind (len albums) (fun n =>
    rbind (given (iterate albums) (fun l => for_lines l discover_album_lines)
             ["Discover: " +:+ format repr genre_str +:+ " (sort: " +:+ format repr sort
              +:+ ")" +:+ newline;
              "Found " +:+ str_int n +:+ " albums:" +:+ newline]) (fun lines =>
    Ok (join newline lines)))).

(** *** [call_tool] *)

Definition call_tool (bandcamp_client : option BandcampClient)
    (name : string) (arguments : dict) : tool_output :=
  if String.eqb name "bandcamp_search" then
    respond_text (
      client_method bandcamp_client (fun self =>
      rbind (getitem arguments "query") (fun query =>
      rbind (search_any self query (get arguments "item_type" (VStr "all"))
               (get arguments "page" (VInt 1))) search_text)))
  else if String.eqb name "bandcamp_get_album" then
    match bandcamp_client with
    | Some self => call_tool_get_album repr json_loads net self arguments
    | None => ErrorContent AttributeError
    end
  else if String.eqb name "bandcamp_get_artist" then
    match bandcamp_client with
    | Some self => call_tool_get_artist repr urljoin net self arguments
    | None => ErrorContent AttributeError
    end
  else if String.eqb name "bandcamp_get_track" then
    match bandcamp_client with
    | Some self => call_tool_get_track repr json_loads net self arguments
    | None => ErrorContent AttributeError
    end
  else if String.eqb name "bandcamp_browse_tag" then
    respond_text (
      client_method bandcamp_client (fun self =>
      rbind (getitem arguments "tag") (fun tag =>
      rbind (get_tag_page_any self tag (get arguments "sort" (VStr "pop"))
               (get arguments "page" (VInt 1))) (tag_text arguments))))
  else if String.eqb name "bandcamp_discover" then
    respond_text (
      client_method bandcamp_client (fun self =>
      rbind (discover_any self (get arguments "genre" (VStr ""))
               (get arguments "subgenre" (VStr "")) (get arguments "sort" (VStr "top"))
               (get arguments "format" (VStr "all")) (VInt 0)) discover_text))
  else TextContent ("Unknown tool: " +:+ name).

End Calls.
End Tools.

(** ** Further example pages *)

Module MorePages.
Import Py Dom.

Definition q (s : string) : string := Client.dquote +:+ s +:+ Client.dquote.

(** A search page with two result blocks, the second without a heading. *)
Definition search_html : string :=
  "<ul><li class=searchresult><div class=art><img src=https://f4.bcbits.com/img/1.jpg></div><div class=itemtype>ALBUM</div><div class=heading><a href=https://foo.bandcamp.com/album/dawn>Dawn</a></div><div class=subhead>by Foo</div><div class=genre>genre: ambient</div><div class=released>released March 3, 2020</div><div class=tags><span class=tag>ambient</span><span class=tag>drone</span></div></li><li class=searchresult><div class=itemtype>ARTIST</div><div class=subhead>Berlin</div></li></ul>".
Definition search_nodes : list node :=
  [Element "ul" []
     [Element "li" [("class", "searchresult")]
        [Element "div" [("class", "art")]
           [Element "img" [("src", "https://f4.bcbits.com/img/1.jpg")] []];
         Element "div" [("class", "itemtype")] [Text "ALBUM"];
         Element "div" [("class", "heading")]
           [Element "a" [("href", "https://foo.bandcamp.com/album/dawn")] [Text "Dawn"]];
         Element "div" [("class", "subhead")] [Text "by Foo"];
         Element "div" [("class", "genre")] [Text "genre: ambient"];
         Element "div" [("class", "released")] [Text "released March 3, 2020"];
         Element "div" [("class", "tags")]
           [Element "span" [("class", "tag")] [Text "ambient"];
            Element "span" [("class", "tag")] [Text "drone"]]];
      Element "li" [("class", "searchresult")]
        [Element "div" [("class", "itemtype")] [Text "ARTIST"];
         Element "div" [("class", "subhead")] [Text "Berlin"]]]].

(** The first block, and the entry [search] makes of it. *)
Definition first_result : located :=
  match search_nodes with
  | [Element _ _ (block :: _) as list] => ([list; document search_nodes], block)
  | _ => ([], Text "")
  end.
Definition dawn_result : gmap string value :=
  list_to_map
    [("type", VStr "album"); ("title", VStr "Dawn");
     ("url", VStr "https://foo.bandcamp.com/album/dawn"); ("subhead", VStr "by Foo");
     ("image", VStr "https://f4.bcbits.com/img/1.jpg");
     ("tags", VList [VStr "ambient"; VStr "drone"]);
     ("released", VStr "March 3, 2020"); ("genre", VStr "ambient")].

(** An artist page with a bio, two releases, the second without a title
    and with a lazily loaded image, and one link. *)
Definition artist_html : string :=
  "<div id=band-name-location><span class=title>Foo</span><span class=location>Berlin, Germany</span></div><div class=bio-text>Foo makes drones.</div><ol><li class=music-grid-item><a href=https://foo.bandcamp.com/album/dawn><img src=https://f4.bcbits.com/img/1.jpg><p class=title>Dawn</p></a></li><li class=music-grid-item><a href=https://foo.bandcamp.com/album/untitled><img data-original=https://f4.bcbits.com/img/2.jpg></a></li></ol><ol id=band-links><li><a href=https://foo.example>foo.example</a></li></ol>".
Definition artist_nodes : list node :=
  [Element "div" [("id", "band-name-location")]
     [Element "span" [("class", "title")] [Text "Foo"];
      Element "span" [("class", "location")] [Text "Berlin, Germany"]];
   Element "div" [("class", "bio-text")] [Text "Foo makes drones."];
   Element "ol" []
     [Element "li" [("class", "music-grid-item")]
        [Element "a" [("href", "https://foo.bandcamp.com/album/dawn")]
           [Element "img" [("src", "https://f4.bcbits.com/img/1.jpg")] [];
            Element "p" [("class", "title")] [Text "Dawn"]]];
      Element "li" [("class", "music-grid-item")]
        [Element "a" [("href", "https://foo.bandcamp.com/album/untitled")]
           [Element "img" [("data-original", "https://f4.bcbits.com/img/2.jpg")] []]]];
   Element "ol" [("id", "band-links")]
     [Element "li" [] [Element "a" [("href", "https://foo.example")] [Text "foo.example"]]]].

(** The release the artist page lists. *)
Definition dawn_release : gmap string value :=
  list_to_map
    [("url", VStr "https://foo.bandcamp.com/album/dawn"); ("title", VStr "Dawn");
     ("image", VStr "https://f4.bcbits.com/img/1.jpg")].

(** An artist page whose grid item links to an address with an opening
    bracket that is not closed. *)
Definition bad_link_html : string :=
  "<ol><li class=music-grid-item><a href=http://[bad><p class=title>Dawn</p></a></li></ol>".
Definition bad_link_nodes : list node :=
  [Element "ol" []
     [Element "li" [("class", "music-grid-item")]
        [Element "a" [("href", "http://[bad")]
           [Element "p" [("class", "title")] [Text "Dawn"]]]]].

(** A discovery page with one item. *)
Definition discover_html : string :=
  "<div class=discover-item><a href=https://foo.bandcamp.com/album/dawn><img src=https://f4.bcbits.com/img/1.jpg></a><div class=heading>Dawn</div><div class=subhead>Foo</div><div class=genre>ambient</div></div>".
Definition discover_nodes : list node :=
  [Element "div" [("class", "discover-item")]
     [Element "a" [("href", "https://foo.bandcamp.com/album/dawn")]
        [Element "img" [("src", "https://f4.bcbits.com/img/1.jpg")] []];
      Element "div" [("class", "heading")] [Text "Dawn"];
      Element "div" [("class", "subhead")] [Text "Foo"];
      Element "div" [("class", "genre")] [Text "ambient"]]].

Definition tags_html : string :=
  "<div class=tralbum-tags><a class=tag href=https://bandcamp.com/tag/ambient>ambient</a><a class=tag href=https://bandcamp.com/tag/drone>drone</a></div>".
Definition tags_node : node :=
  Element "div" [("class", "tralbum-tags")]
    [Element "a" [("class", "tag"); ("href", "https://bandcamp.com/tag/ambient")] [Text "ambient"];
     Element "a" [("class", "tag"); ("href", "https://bandcamp.com/tag/drone")] [Text "drone"]].

(** A track page: a track of an album, with a price, tags and lyrics. *)
Definition track_json : string :=
  "{" +:+ q "name" +:+ ": " +:+ q "One" +:+ ", "
  +:+ q "byArtist" +:+ ": {" +:+ q "name" +:+ ": " +:+ q "Foo" +:+ "}, "
  +:+ q "duration" +:+ ": " +:+ q "P00H03M45S" +:+ ", "
  +:+ q "inAlbum" +:+ ": {" +:+ q "name" +:+ ": " +:+ q "Dawn" +:+ ", "
  +:+ q "@id" +:+ ": " +:+ q "https://foo.bandcamp.com/album/dawn" +:+ "}, "
  +:+ q "offers" +:+ ": {" +:+ q "price" +:+ ": 1, "
  +:+ q "priceCurrency" +:+ ": " +:+ q "EUR" +:+ "}}".
Definition track_dict : gmap string value :=
  list_to_map
    [("name", VStr "One");
     ("byArtist", Pages.obj [("name", VStr "Foo")]);
     ("duration", VStr "P00H03M45S");
     ("inAlbum", Pages.obj [("name", VStr "Dawn");
                            ("@id", VStr "https://foo.bandcamp.com/album/dawn")]);
     ("offers", Pages.obj [("price", VInt 1); ("priceCurrency", VStr "EUR")])].
Definition track_html : string :=
  Pages.ld_script track_json +:+ tags_html +:+ "<div class=lyricsText>la la la</div>".
Definition track_nodes : list node :=
  [Pages.ld_node track_json; tags_node;
   Element "div" [("class", "lyricsText")] [Text "la la la"]].

(** A track page without a structured-data block. *)
Definition bare_track_html : string :=
  "<h2 class=trackTitle>One</h2>" +:+ tags_html.
Definition bare_track_nodes : list node :=
  [Element "h2" [("class", "trackTitle")] [Text "One"]; tags_node].

(** An album page whose structured data has an empty name, a price and
    a label, and whose markup names the album and links another artist. *)
Definition priced_json : string :=
  "{" +:+ q "name" +:+ ": " +:+ q "" +:+ ", "
  +:+ q "byArtist" +:+ ": {" +:+ q "name" +:+ ": " +:+ q "Foo" +:+ "}, "
  +:+ q "offers" +:+ ": {" +:+ q "price" +:+ ": 7, "
  +:+ q "priceCurrency" +:+ ": " +:+ q "USD" +:+ "}, "
  +:+ q "publisher" +:+ ": {" +:+ q "name" +:+ ": " +:+ q "Foo Records" +:+ ", "
  +:+ q "@id" +:+ ": " +:+ q "https://foorecords.bandcamp.com" +:+ "}}".
Definition priced_dict : gmap string value :=
  list_to_map
    [("name", VStr "");
     ("byArtist", Pages.obj [("name", VStr "Foo")]);
     ("offers", Pages.obj [("price", VInt 7); ("priceCurrency", VStr "USD")]);
     ("publisher", Pages.obj [("name", VStr "Foo Records");
                              ("@id", VStr "https://foorecords.bandcamp.com")])].
Definition priced_section_html : string :=
  "<div id=name-section><h2 class=trackTitle>Dawn</h2><h3>by <a href=https://bar.bandcamp.com>Bar</a></h3></div>".
Definition priced_section : node :=
  Element "div" [("id", "name-section")]
    [Element "h2" [("class", "trackTitle")] [Text "Dawn"];
     Element "h3" [] [Text "by "; Element "a" [("href", "https://bar.bandcamp.com")] [Text "Bar"]]].
Definition priced_html : string :=
  Pages.ld_script priced_json +:+ priced_section_html +:+ tags_html
  +:+ "<div class=tralbum-about>Recorded at dawn.</div>".
Definition priced_nodes : list node :=
  [Pages.ld_node priced_json; priced_section; tags_node;
   Element "div" [("class", "tralbum-about")] [Text "Recorded at dawn."]].

(** A track page whose structured data has a number as description. *)
Definition numbered_json : string :=
  "{" +:+ q "name" +:+ ": " +:+ q "One" +:+ ", " +:+ q "description" +:+ ": 7}".
Definition numbered_dict : gmap string value :=
  list_to_map [("name", VStr "One"); ("description", VInt 7)].
Definition numbered_html : string := Pages.ld_script numbered_json.

(** An album page whose structured data gives the duration of its track
    as a number of seconds. *)
Definition timed_json : string :=
  "{" +:+ q "name" +:+ ": " +:+ q "Dawn" +:+ ", "
  +:+ q "track" +:+ ": {" +:+ q "itemListElement" +:+ ": [{"
  +:+ q "position" +:+ ": 1, " +:+ q "item" +:+ ": {" +:+ q "name" +:+ ": " +:+ q "One" +:+ ", "
  +:+ q "duration" +:+ ": 225}}]}}".
Definition timed_dict : gmap string value :=
  list_to_map
    [("name", VStr "Dawn");
     ("track", Pages.obj [("itemListElement",
        VList [Pages.obj [("position", VInt 1);
                          ("item", Pages.obj [("name", VStr "One");
                                              ("duration", VInt 225)])]])])].
Definition timed_html : string := Pages.ld_script timed_json.

Definition pages : list (string * list node) :=
  [(search_html, search_nodes);
   (artist_html, artist_nodes);
   (bad_link_html, bad_link_nodes);
   (discover_html, discover_nodes);
   (track_html, track_nodes);
   (bare_track_html, bare_track_nodes);
   (priced_html, priced_nodes);
   (numbered_html, [Pages.ld_node numbered_json]);
   (timed_html, [Pages.ld_node timed_json]);
   (Pages.full_html, [Pages.ld_node Pages.full_json]);
   (Pages.empty_block_html, [Pages.empty_block_node; Pages.name_section]);
   (Pages.empty_html, Pages.empty_nodes);
   (Pages.bad_artist_html, [Pages.ld_node Pages.bad_artist_json; Pages.name_section])].

Definition json_texts : list (string * value) :=
  [(track_json, VDict track_dict);
   (priced_json, VDict priced_dict);
   (numbered_json, VDict numbered_dict);
   (timed_json, VDict timed_dict);
   (Pages.full_json, Pages.full_data);
   (Pages.bad_artist_json, Pages.bad_artist_data)].

Definition bs4 : Bs4 located := dom_bs4 pages.
Definition loads : string -> result value := Dom.json_loads json_texts.

(** [str.title] on a text of ASCII characters: a letter after a letter
    is lowered, any other letter is raised. *)
Definition is_upper (c : ascii) : bool :=
  let n := N_of_ascii c in ((65 <=? n) && (n <=? 90))%N.
Definition is_lower (c : ascii) : bool :=
  let n := N_of_ascii c in ((97 <=? n) && (n <=? 122))%N.
Fixpoint title_go (previous_is_cased : bool) (s : string) : string :=
  match s with
  | "" => ""
  | String c s' =>
      let c' :=
        if previous_is_cased
        then (if is_upper c then ascii_of_N (N_of_ascii c + 32) else c)
        else (if is_lower c then ascii_of_N (N_of_ascii c - 32) else c) in
      String c' (title_go (is_upper c || is_lower c) s')
  end.
Definition ascii_title (s : string) : string := title_go false s.

(** The tools on these pages. *)
Definition tool (net : Network) (client : option Client.BandcampClient)
    (name : string) (arguments : gmap string value) : Server.tool_output :=
  Tools.call_tool (bs4 := bs4) Pages.no_repr ascii_title loads Dom.urljoin net client
    name arguments.

(** A network on which every request fails. *)
Definition down : Network := fun _ _ => None.

Definition artist_url : string := "https://foo.bandcamp.com".

End MorePages.

(** ** Vocabulary of the statements *)

Import Py Client.

Fixpoint str_forall (p : ascii -> bool) (s : string) : bool :=
  match s with
  | "" => true
  | String c s' => p c && str_forall p s'
  end.

(** [needle in hay] *)
Fixpoint contains (needle hay : string) : bool :=
  String.prefix needle hay
  || match hay with
     | "" => false
     | String _ hay' => contains needle hay'
     end.

(** The characters a percent-encoded query component is made of. *)
Definition query_char (c : ascii) : bool :=
  always_safe c || Ascii.eqb c "+" || Ascii.eqb c "%".

Definition search_base (query : string) (page : Z) : string :=
  BANDCAMP_BASE +:+ "/search?q=" +:+ quote_plus query +:+ "&page=" +:+ str_int page.

Definition known_item_types : list string :=
  ["all"; "album"; "artist"; "track"; "label"; "fan"].

(** The parameters of the discovery URL, each under its own test. *)
Definition optional_param (present : bool) (param : string) : list string :=
  if present then [param] else [].

(** A text without the letters the duration conversion rewrites. *)
Definition marker (c : ascii) : bool :=
  Ascii.eqb c "P" || Ascii.eqb c "T" || Ascii.eqb c "M" || Ascii.eqb c "S".

Definition no_markers (s : string) : bool := str_forall (fun c => negb (marker c)) s.

(** The entry [get_album] stores for a track [t] of the structured data
    whose [item] is [item]. *)
Definition stored_track (t item : dict) : value :=
  VDict (<["position" := get t "position" (VInt 0)]>
        (<["title" := get item "name" (VStr "")]>
        (<["duration" := get item "duration" (VStr "")]>
        (<["url" := get item "@id" (VStr "")]> ∅)))).

(** The state after [record[k] = v]. *)
Definition with_item (k : string) (v : value) (st : state) : state :=
  {| record := <[k := v]> (record st); warnings := warnings st |}.

(** *** Outcomes of a method body

    [wp m Q E st]: run from [st], the body [m] ends normally in a state
    and with a value that satisfy [Q], or raises an exception [e] in a
    state that satisfies [E e]. *)
Definition wp {A} (m : M A) (Q : A -> state -> Prop) (E : exn -> state -> Prop)
    (st : state) : Prop :=
  match m st with
  | (Ok a, st') => Q a st'
  | (Raise e, st') => E e st'
  end.

(** [m] keeps [I] whatever its outcome. *)
Definition keeps (I : state -> Prop) {A} (m : M A) : Prop :=
  forall st, I st -> wp m (fun _ => I) (fun _ => I) st.

(** The key [k] of the record is bound to [v]. *)
Definition bound (k : string) (v : value) (st : state) : Prop :=
  record st !! k = Some v.

(** The state after [logger.warning] about [e]. *)
Definition with_warning (e : exn) (st : state) : state :=
  {| record := record st; warnings := (warnings st ++ [e])%list |}.

(** The selectors [get_album], [get_track] and [get_artist] apply to the
    document. *)
Definition detail_selectors : list string :=
  [JSON_LD_SELECTOR; "#name-section .trackTitle"; "#name-section a";
   ".tralbum-tags a.tag"; ".tralbum-about"; ".tralbum-credits"; ".lyricsText";
   "#band-name-location .title"; "#band-name-location .location"; ".bio-text";
   ".music-grid-item"; "#band-links li a"].

(** None of these selectors matches anything in the document. *)
Definition nothing_matches {Tag : Type} {bs4 : Bs4 Tag} (soup : Tag) : Prop :=
  forall css, In css detail_selectors -> select soup css = [].

(** The entry has a non-empty text as its title. *)
Definition titled (entry : dict) : Prop :=
  exists s, entry !! "title" = Some (VStr s) /\ s <> "".

(** The test [if entry.get("title")]. *)
Definition has_title (entry : dict) : bool := truthy (get_none entry "title").

(** The title an item block of a listing page shows under the selector
    [css]: the text of the first match, nothing without a match. *)
Definition block_title {Tag : Type} {bs4 : Bs4 Tag} (css : string) (item : Tag) : string :=
  match select_one item css with
  | Some title => get_text title
  | None => ""
  end.

(** The text the selector [css] finds in the document, as a value. *)
Definition selected_text {Tag : Type} {bs4 : Bs4 Tag} (soup : Tag) (css : string) : option value :=
  (fun elem => VStr (get_text elem)) <$> select_one soup css.

(** *** Well-formed structured data of an album *)

Definition is_dict (v : value) : bool :=
  match v with
  | VDict _ => true
  | _ => false
  end.

(** An optional nested object: an object, or a value the [if] skips. *)
Definition dict_or_falsy (v : value) : bool := is_dict v || negb (truthy v).

Definition well_formed_element (element : value) : bool :=
  match element with
  | VDict t => is_dict (get t "item" (VDict ∅))
  | _ => false
  end.

(** [byArtist], [track] and every [item] are objects where present,
    [itemListElement] is a list of objects where present, and [offers]
    and [publisher] are objects where present and not skipped. *)
Definition well_formed_album (data : dict) : bool :=
  is_dict (get data "byArtist" (VDict ∅))
  && match get data "track" (VDict ∅) with
     | VDict track =>
         match get track "itemListElement" (VList []) with
         | VList elements => forallb well_formed_element elements
         | _ => false
         end
     | _ => false
     end
  && dict_or_falsy (get data "offers" (VDict ∅))
  && dict_or_falsy (get data "publisher" (VDict ∅)).

(** What the loop of [get_album] iterates over. *)
Definition track_elements (data : dict) : result (list value) :=
  rbind (call_get (get data "track" (VDict ∅)) "itemListElement" (VList [])) iterate.

(** The entry of the record made from an element of the structured
    data: its position is the position of the element, or 0. *)
Definition listed (element entry : value) : Prop :=
  exists t d, element = VDict t /\ entry = VDict d
              /\ d !! "position" = Some (get t "position" (VInt 0)).

(** The record has [num_tracks] and the positions of the structured data. *)
Definition tracks_listed (data : dict) (album : dict) : Prop :=
  album !! "num_tracks" = Some (get data "numTracks" (VInt 0))
  /\ exists elements tracks,
       track_elements data = Ok elements
       /\ album !! "tracks" = Some (VList tracks)
       /\ Forall2 listed elements tracks.

(** The object the structured-data block of the page gives, if any. *)
Definition block_object {Tag : Type} {bs4 : Bs4 Tag} (json_loads : string -> result value)
    (soup : Tag) : option dict :=
  match select_one soup JSON_LD_SELECTOR with
  | None => None
  | Some json_ld =>
      match loads json_loads (tag_string json_ld) with
      | Ok (VDict data) => Some data
      | _ => None
      end
  end.

(** The page gives no structured-data object, and its block is passed
    over: it has no block, or [json.loads] raises on the text of the
    block an exception that the [except] clause catches
    ([JSONDecodeError] on a text that is not JSON), or the text is JSON
    but not an object. A block without text is not passed over:
    [json.loads(None)] raises [TypeError]. *)
Definition no_object {Tag : Type} {bs4 : Bs4 Tag} (json_loads : string -> result value)
    (soup : Tag) : Prop :=
  match select_one soup JSON_LD_SELECTOR with
  | None => True
  | Some json_ld =>
      match loads json_loads (tag_string json_ld) with
      | Ok v => is_dict v = false
      | Raise e => json_or_key_error e = true
      end
  end.

(** How the structured-data part of [get_album] can end other than
    normally: with an exception that the [except] clause does not catch,
    on data that is not well formed. *)
Definition escapes (data : dict) (e : exn) (st : state) : Prop :=
  json_or_key_error e = false /\ well_formed_album data = false.

(** The record while the track loop runs, the elements [passed] done. *)
Definition loop_invariant (data : dict) (passed : list value) (st : state) : Prop :=
  bound "num_tracks" (get data "numTracks" (VInt 0)) st
  /\ exists tracks, bound "tracks" (VList tracks) st /\ Forall2 listed passed tracks.

(** What the duration conversion makes of one character. *)
Definition display_char (c : ascii) : string :=
  if Ascii.eqb c "P" || Ascii.eqb c "T" || Ascii.eqb c "S" then ""
  else if Ascii.eqb c "M" then ":"
  else String c "".

Fixpoint str_flat_map (f : ascii -> string) (s : string) : string :=
  match s with
  | "" => ""
  | String c s' => f c +:+ str_flat_map f s'
  end.

(** The inverse of percent-encoding, to bytes: [+] is a space and [%XY]
    the byte with hexadecimal digits [X] and [Y]. *)
Definition hex_value (c : ascii) : N :=
  let n := N_of_ascii c in
  if (n <? 58)%N then (n - 48)%N else (n - 55)%N.

Fixpoint unquote_bytes (s : string) : list N :=
  match s with
  | "" => []
  | String c r =>
      if Ascii.eqb c "%" then
        match r with
        | String x (String y r') => (16 * hex_value x + hex_value y)%N :: unquote_bytes r'
        | _ => [37%N]
        end
      else (if Ascii.eqb c "+" then 32%N else N_of_ascii c) :: unquote_bytes r
  end.

(** The UTF-8 bytes of a text. *)
Fixpoint utf8_bytes (s : string) : list N :=
  match s with
  | "" => []
  | String c s' => (utf8 c ++ utf8_bytes s')%list
  end.

(** *** The tools and their schemas *)

Definition tool_names : list string := Tools.name <$> Tools.list_tools.

(** The keys a tool's schema lists as required. *)
Definition required_keys (tool : Tools.Tool) : list string :=
  match Tools.inputSchema tool with
  | VDict schema =>
      match schema !! "required" with
      | Some (VList keys) =>
          omap (fun key => match key with VStr s => Some s | _ => None end) keys
      | _ => []
      end
  | _ => []
  end.

(** The properties a tool's schema declares, each with its declared type. *)
Definition declared_types (tool : Tools.Tool) : list (string * value) :=
  match Tools.inputSchema tool with
  | VDict schema =>
      match schema !! "properties" with
      | Some (VDict properties) =>
          omap (fun kv => match kv.2 with
                          | VDict p => (fun ty => (kv.1, ty)) <$> p !! "type"
                          | _ => None
                          end) (map_to_list properties)
      | _ => []
      end
  | _ => []
  end.

(** A value of a JSON schema type, for the two types the schemas use. *)
Definition has_type (ty v : value) : bool :=
  match ty, v with
  | VStr "string", VStr _ => true
  | VStr "integer", VInt _ => true
  | _, _ => false
  end.

(** The arguments have every required key, and the declared properties
    they have are of the declared types. *)
Definition valid_arguments (tool : Tools.Tool) (arguments : dict) : Prop :=
  (forall key, key ∈ required_keys tool -> is_Some (arguments !! key))
  /\ (forall key ty v, (key, ty) ∈ declared_types tool ->
        arguments !! key = Some v -> has_type ty v = true).

(** A network on which every request fails. *)
Definition unreachable (net : Network) : Prop := forall headers url, net headers url = None.

(** The arguments a valid call passes to the client, tool by tool. *)
Inductive valid_call (arguments : dict) : string -> Prop :=
  | search_call (query item_type : string) (page : Z) :
      arguments !! "query" = Some (VStr query) ->
      get arguments "item_type" (VStr "all") = VStr item_type ->
      get arguments "page" (VInt 1) = VInt page ->
      valid_call arguments "bandcamp_search"
  | album_call (url : string) :
      arguments !! "url" = Some (VStr url) -> valid_call arguments "bandcamp_get_album"
  | artist_call (url : string) :
      arguments !! "url" = Some (VStr url) -> valid_call arguments "bandcamp_get_artist"
  | track_call (url : string) :
      arguments !! "url" = Some (VStr url) -> valid_call arguments "bandcamp_get_track"
  | tag_call (tag sort : string) (page : Z) :
      arguments !! "tag" = Some (VStr tag) ->
      get arguments "sort" (VStr "pop") = VStr sort ->
      get arguments "page" (VInt 1) = VInt page ->
      valid_call arguments "bandcamp_browse_tag"
  | discover_call (genre subgenre sort format : string) :
      get arguments "genre" (VStr "") = VStr genre ->
      get arguments "subgenre" (VStr "") = VStr subgenre ->
      get arguments "sort" (VStr "top") = VStr sort ->
      get arguments "format" (VStr "all") = VStr format ->
      valid_call arguments "bandcamp_discover".

(** *** Statements of a branch that cannot raise *)

(** The statement appends lines and ends normally. *)
Definition succeeds (f : Server.Fmt) : Prop :=
  forall lines, exists more, f lines = Ok (lines ++ more)%list.

(** The branch can run on any list of lines, and the lines it adds begin
    with [first]. *)
Definition starts (f : Server.Fmt) (first : list string) : Prop :=
  forall lines, exists more, f lines = Ok (lines ++ first ++ more)%list.

(** Every request is answered. *)
Definition reachable (net : Network) : Prop :=
  forall headers url, exists html, net headers url = Some html.

(** Every request is answered with the page [html]. *)
Definition serves (net : Network) (html : string) : Prop :=
  forall headers url, net headers url = Some html.

(** The tools whose answer is made of texts the client extracted from
    markup only. *)
Definition markup_tools : list string :=
  ["bandcamp_search"; "bandcamp_get_artist"; "bandcamp_browse_tag"; "bandcamp_discover"].

(** *** The request of a tool *)

(** The argument [key] as a text or as an integer, [d] when absent. *)
Definition text_argument (arguments : dict) (key d : string) : string :=
  match get arguments key (VStr d) with
  | VStr s => s
  | _ => d
  end.

Definition integer_argument (arguments : dict) (key : string) (d : Z) : Z :=
  match get arguments key (VInt d) with
  | VInt z => z
  | _ => d
  end.

(** The address a listed tool requests for valid arguments: the search,
    tag and discovery addresses of the query builder, with the defaults of
    [call_tool] for absent arguments and no location, and the given url for
    the three detail tools. *)
Definition requested_url (name : string) (arguments : dict) : string :=
  if String.eqb name "bandcamp_search" then
    search_url (text_argument arguments "query" "") (text_argument arguments "item_type" "all")
      (integer_argument arguments "page" 1)
  else if String.eqb name "bandcamp_browse_tag" then
    tag_url (text_argument arguments "tag" "") (text_argument arguments "sort" "pop")
      (integer_argument arguments "page" 1)
  else if String.eqb name "bandcamp_discover" then
    discover_url (text_argument arguments "genre" "") (text_argument arguments "subgenre" "")
      (text_argument arguments "sort" "top") (text_argument arguments "format" "all") 0
  else text_argument arguments "url" "".

(** *** Decoding *)

(** The text of a UTF-8 byte sequence of characters below 256. *)
Fixpoint utf8_decode (bytes : list N) : string :=
  match bytes with
  | [] => ""
  | b :: rest =>
      if (b <? 128)%N then String (ascii_of_N b) (utf8_decode rest)
      else
        match rest with
        | b2 :: rest' => String (ascii_of_N ((b - 192) * 64 + (b2 - 128))) (utf8_decode rest')
        | [] => ""
        end
  end.

(** [urllib.parse.unquote_plus], the inverse of [quote_plus]. *)
Definition unquote_plus (s : string) : string := utf8_decode (unquote_bytes s).

(** *** Bindings of the record *)

(** The binding a fallback statement leaves, from the binding before it
    and the text the selector finds. *)
Definition fallback_binding (before found : option value) : option value :=
  if truthy (default VNone before) then before
  else match found with
       | Some text => Some text
       | None => before
       end.

(** The binding a conditional assignment of a found text leaves. *)
Definition found_binding (before found : option value) : option value :=
  match found with
  | Some text => Some text
  | None => before
  end.

(** The keys the statements after the block of [get_album] and of
    [get_track] assign. *)
Definition album_html_keys : list string := ["title"; "artist"; "tags"; "about"; "credits"].
Definition track_html_keys : list string := ["tags"; "lyrics"].

(** The field [k] of a nested object [x], with the default [d]. *)
Definition object_field (x : value) (k : string) (d : value) : option value :=
  match x with
  | VDict o => Some (get o k d)
  | _ => None
  end.

(** The binding the statements [if x: record[f] = x.get(k, d)] leave. *)
Definition optional_field (before : option value) (x : value) (k : string) (d : value) :
    option value :=
  if truthy x then object_field x k d else before.

(** [byArtist] is an object where present, and [inAlbum] and [offers]
    are objects where present and not skipped. *)
Definition well_formed_track (data : dict) : bool :=
  is_dict (get data "byArtist" (VDict ∅))
  && dict_or_falsy (get data "inAlbum" (VDict ∅))
  && dict_or_falsy (get data "offers" (VDict ∅)).

(** The keys the structured-data part of [get_track] and of [get_album]
    assigns. *)
Definition track_json_ld_keys : list string :=
  ["title"; "artist"; "duration"; "description"; "release_date"; "image";
   "album"; "album_url"; "price"; "currency"].
Definition album_json_ld_keys : list string :=
  ["title"; "artist"; "description"; "release_date"; "image"; "num_tracks"; "tracks";
   "price"; "currency"; "label"; "label_url"].

(** The entry of the track list that one element of [itemListElement]
    gives: none when the element or its [item] is not an object. *)
Definition track_entry (element : value) : option dict :=
  match element with
  | VDict t =>
      match get t "item" (VDict ∅) with
      | VDict item =>
          Some (<["position" := get t "position" (VInt 0)]>
               (<["title" := get item "name" (VStr "")]>
               (<["duration" := get item "duration" (VStr "")]>
               (<["url" := get item "@id" (VStr "")]> ∅))))
      | _ => None
      end
  | _ => None
  end.

(** The entries are those of the elements, one each and in order. *)
Definition entries_of (elements : list value) (entries : list dict) : Prop :=
  Forall2 (fun element entry => track_entry element = Some entry) elements entries.

(** The record while the track loop runs, the elements [passed] done. *)
Definition entries_invariant (passed : list value) (st : state) : Prop :=
  exists entries,
    record st !! "tracks" = Some (VList (VDict <$> entries)) /\ entries_of passed entries.

Definition is_text (v : value) : bool :=
  match v with
  | VStr _ => true
  | _ => false
  end.

(** A value that [x[:n]] accepts. *)
Definition sliceable (v : value) : bool :=
  match v with
  | VStr _ | VList _ => true
  | _ => false
  end.

(** The description of the object can be shown: it is skipped, or it can
    be sliced. *)
Definition shown_description (data : dict) : bool :=
  let description := get data "description" (VStr "") in
  negb (truthy description) || sliceable description.

(** A duration the track line can show: it is skipped, or it is a text. *)
Definition shown_duration (entry : dict) : bool :=
  let duration := get entry "duration" (VStr "") in
  negb (truthy duration) || is_text duration.

(** The durations of the items of the track list can be shown. *)
Definition text_duration (element : value) : bool :=
  match track_entry element with
  | Some entry => shown_duration entry
  | None => true
  end.

Definition text_durations (data : dict) : bool :=
  match track_elements data with
  | Ok elements => forallb text_duration elements
  | Raise _ => true
  end.

(** The keys of a track record and of an album record. *)
Definition track_keys : list string :=
  "url" :: (track_json_ld_keys ++ track_html_keys)%list.
Definition album_keys : list string :=
  "url" :: (album_json_ld_keys ++ ["tags"; "about"; "credits"])%list.

(** ** Properties of the query builder *)

Lemma append_empty_r (s : string) : s +:+ "" = s.
Proof. induction s as [|c s IH]; [done|]. change (String c (s +:+ "") = String c s). by rewrite IH. Qed.

Lemma append_assoc (a b c : string) : (a +:+ b) +:+ c = a +:+ (b +:+ c).
Proof.
  induction a as [|x a IH]; [done|].
  change (String x ((a +:+ b) +:+ c) = String x (a +:+ (b +:+ c))). by rewrite IH.
Qed.

Lemma str_forall_app p a b :
  str_forall p (a +:+ b) = str_forall p a && str_forall p b.
Proof.
  induction a as [|c a IH]; simpl; [done|].
  rewrite IH. by destruct (p c).
Qed.

Lemma quote_plus_char_query_char c : str_forall query_char (quote_plus_char c) = true.
Proof. destruct c as [[] [] [] [] [] [] [] []]; reflexivity. Qed.

Lemma quote_plus_query_chars s : str_forall query_char (quote_plus s) = true.
Proof.
  induction s as [|c s IH]; simpl; [done|].
  by rewrite str_forall_app, quote_plus_char_query_char, IH.
Qed.

Lemma unquote_quote_plus_char (c : ascii) (r : string) :
  unquote_bytes (quote_plus_char c +:+ r) = (utf8 c ++ unquote_bytes r)%list.
Proof. destruct c as [[] [] [] [] [] [] [] []]; reflexivity. Qed.

(** Decoding the encoded text gives back the UTF-8 bytes of the text. *)
Lemma unquote_quote_plus (s : string) : unquote_bytes (quote_plus s) = utf8_bytes s.
Proof.
  induction s as [|c s IH]; [done|]. simpl.
  by rewrite unquote_quote_plus_char, IH.
Qed.

Lemma type_map_unknown item_type :
  item_type ∉ known_item_types -> type_map !! item_type = None.
Proof.
  intros Hn. unfold type_map, known_item_types in *.
  apply not_elem_of_list_to_map_1. simpl. exact Hn.
Qed.

(** C8. [search] builds its URL from the percent-encoded query and the
    page, followed by the short code of the item type (album a, artist b,
    track t, label b, fan f) and by nothing for [all]; an item type outside
    the mapping gives no filter parameter, and the call goes on to return
    its record as for any other. The encoded query consists of unreserved
    characters, [+] and [%] only, and decodes to the UTF-8 bytes of the
    query. *)
Theorem search_url_item_type (query : string) (page : Z) :
  str_forall query_char (quote_plus query) = true
  /\ unquote_bytes (quote_plus query) = utf8_bytes query
  /\ search_url query "album" page = search_base query page +:+ "&item_type=a"
  /\ search_url query "artist" page = search_base query page +:+ "&item_type=b"
  /\ search_url query "track" page = search_base query page +:+ "&item_type=t"
  /\ search_url query "label" page = search_base query page +:+ "&item_type=b"
  /\ search_url query "fan" page = search_base query page +:+ "&item_type=f"
  /\ search_url query "all" page = search_base query page
  /\ (forall item_type, item_type ∉ known_item_types ->
        search_url query item_type page = search_base query page)
  /\ (forall Tag (bs4 : Bs4 Tag) net self item_type html,
        _fetch net self (search_url query item_type page) = Ok html ->
        search net self query item_type page = Ok (search_soup (BeautifulSoup html) page)).
Proof.
  split; [apply quote_plus_query_chars|].
  split; [apply unquote_quote_plus|].
  repeat (split; [reflexivity|]).
  split.
  - intros item_type Hn. unfold search_url.
    by rewrite (type_map_unknown _ Hn).
  - intros Tag bs4 net self item_type html Hf. unfold search. by rewrite Hf.
Qed.

Lemma search_url_item_type_witness :
  search_url "dub techno" "playlist" 2 = "https://bandcamp.com/search?q=dub+techno&page=2"
  /\ search (bs4 := Pages.bs4) (Dom.serve (search_url "dub techno" "playlist" 2) Pages.empty_html)
       default_client "dub techno" "playlist" 2
     = Ok (search_soup (bs4 := Pages.bs4) (Dom.parse Pages.pages Pages.empty_html) 2).
Proof.
  destruct (search_url_item_type "dub techno" 2)
    as (_ & _ & _ & _ & _ & _ & _ & _ & Hunknown & Hsearch).
  split.
  - rewrite Hunknown; [reflexivity|].
    unfold known_item_types. intros Hin. by repeat (apply elem_of_cons in Hin as [?|Hin]; [done|]);
      apply elem_of_nil in Hin.
  - apply (Hsearch _ Pages.bs4). vm_compute. reflexivity.
Defined.

(** C4. [discover] appends to the discovery URL the parameters [g], [s],
    [sort], [f] and [l], in this order, each one only when its argument
    passes its test: genre, subgenre and sort when not empty, format when
    not ["all"], location when not 0; without any parameter the URL has no
    query. With genre ["ambient"], sort ["new"] and the rest at their
    defaults the URL is [.../discover?g=ambient&sort=new], which contains
    no [s=], [f=] or [l=]. *)
Theorem discover_url_params (genre subgenre sort format : string) (location : Z) :
  discover_params genre subgenre sort format location
    = (optional_param (nonempty genre) ("g=" +:+ quote_plus genre)
       ++ optional_param (nonempty subgenre) ("s=" +:+ quote_plus subgenre)
       ++ optional_param (nonempty sort) ("sort=" +:+ sort)
       ++ optional_param (negb (String.eqb format "all")) ("f=" +:+ format)
       ++ optional_param (negb (location =? 0)) ("l=" +:+ str_int location))%list
  /\ discover_url genre subgenre sort format location
     = BANDCAMP_BASE +:+ "/discover"
       +:+ match discover_params genre subgenre sort format location with
           | [] => ""
           | params => "?" +:+ join "&" params
           end
  /\ discover_params "ambient" "" "new" "all" 0 = ["g=ambient"; "sort=new"]
  /\ discover_url "ambient" "" "new" "all" 0 = "https://bandcamp.com/discover?g=ambient&sort=new"
  /\ contains "g=ambient&sort=new" (discover_url "ambient" "" "new" "all" 0) = true
  /\ contains "s=" (discover_url "ambient" "" "new" "all" 0) = false
  /\ contains "f=" (discover_url "ambient" "" "new" "all" 0) = false
  /\ contains "l=" (discover_url "ambient" "" "new" "all" 0) = false.
Proof.
  split.
  - unfold discover_params, optional_param.
    destruct (nonempty genre), (nonempty subgenre), (nonempty sort),
      (negb (String.eqb format "all")), (negb (location =? 0)); reflexivity.
  - split; [|repeat split; reflexivity].
    unfold discover_url.
    destruct (discover_params genre subgenre sort format location); [|reflexivity].
    reflexivity.
Qed.

(** ** Properties of the duration display *)

Lemma replace_char_cons (c x : ascii) (new s : string) :
  replace (String c "") new (String x s)
  = if Ascii.eqb c x then new +:+ replace (String c "") new s
    else String x (replace (String c "") new s).
Proof.
  unfold replace. simpl.
  destruct (ascii_dec c x) as [->|Hne].
  - rewrite Ascii.eqb_refl. by destruct s.
  - apply Ascii.eqb_neq in Hne. by rewrite Hne.
Qed.

Lemma replace_char_app (c : ascii) (new a b : string) :
  replace (String c "") new (a +:+ b)
  = replace (String c "") new a +:+ replace (String c "") new b.
Proof.
  induction a as [|x a IH]; [done|].
  change (String x a +:+ b) with (String x (a +:+ b)).
  rewrite !replace_char_cons, IH.
  destruct (Ascii.eqb c x); [by rewrite append_assoc | done].
Qed.

Lemma replace_char_absent (c : ascii) (new s : string) :
  str_forall (fun x => negb (Ascii.eqb c x)) s = true ->
  replace (String c "") new s = s.
Proof.
  induction s as [|x s IH]; [done|]. simpl. intros [Hx Hs]%andb_prop.
  rewrite replace_char_cons. apply negb_true_iff in Hx. rewrite Hx.
  by rewrite IH.
Qed.

Lemma str_forall_impl (p r : ascii -> bool) (s : string) :
  (forall c, p c = true -> r c = true) ->
  str_forall p s = true -> str_forall r s = true.
Proof.
  intros Hpr. induction s as [|x s IH]; [done|]. simpl.
  intros [Hx Hs]%andb_prop. by rewrite (Hpr _ Hx), IH.
Qed.

Lemma no_markers_absent (c : ascii) (s : string) :
  marker c = true -> no_markers s = true ->
  str_forall (fun x => negb (Ascii.eqb c x)) s = true.
Proof.
  intros Hc. apply str_forall_impl. intros x Hx.
  apply negb_true_iff. apply negb_true_iff in Hx.
  destruct (Ascii.eqb c x) eqn:E; [|done].
  apply Ascii.eqb_eq in E. subst. congruence.
Qed.

Lemma replace_marker_free (c : ascii) (new s : string) :
  marker c = true -> no_markers s = true -> replace (String c "") new s = s.
Proof. intros Hc Hs. apply replace_char_absent. by apply no_markers_absent. Qed.

(** A replacement of one character is a character-by-character map. *)
Lemma replace_char_flat_map (c : ascii) (new s : string) :
  replace (String c "") new s
  = str_flat_map (fun x => if Ascii.eqb c x then new else String x "") s.
Proof.
  induction s as [|x s IH]; [done|].
  rewrite replace_char_cons. simpl. rewrite IH. by destruct (Ascii.eqb c x).
Qed.

Lemma str_flat_map_app (f : ascii -> string) (a b : string) :
  str_flat_map f (a +:+ b) = str_flat_map f a +:+ str_flat_map f b.
Proof.
  induction a as [|x a IH]; [done|].
  change (String x a +:+ b) with (String x (a +:+ b)). simpl.
  by rewrite IH, append_assoc.
Qed.

Lemma str_flat_map_compose (f g : ascii -> string) (s : string) :
  str_flat_map g (str_flat_map f s) = str_flat_map (fun c => str_flat_map g (f c)) s.
Proof.
  induction s as [|x s IH]; [done|]. simpl. by rewrite str_flat_map_app, IH.
Qed.

Lemma str_flat_map_ext (f g : ascii -> string) (s : string) :
  (forall c, f c = g c) -> str_flat_map f s = str_flat_map g s.
Proof. intros Hfg. induction s as [|x s IH]; [done|]. simpl. by rewrite Hfg, IH. Qed.

(** The conversion on any text: [P], [T] and [S] go, [M] becomes a colon. *)
Lemma readable_duration_chars (d : string) :
  Server.readable_duration (VStr d) = Ok (VStr (str_flat_map display_char d)).
Proof.
  unfold Server.readable_duration, Server.call_replace. simpl rbind. do 2 f_equal.
  rewrite !replace_char_flat_map, !str_flat_map_compose.
  apply str_flat_map_ext.
  intros [[] [] [] [] [] [] [] []]; reflexivity.
Qed.

(** The conversion on a text of the form [PT<m>M<s>S]. *)
Lemma readable_duration_minutes_seconds (m s : string) :
  no_markers m = true -> no_markers s = true ->
  Server.readable_duration (VStr ("PT" +:+ m +:+ "M" +:+ s +:+ "S"))
  = Ok (VStr (m +:+ ":" +:+ s)).
Proof.
  intros Hm Hs. unfold Server.readable_duration, Server.call_replace. simpl rbind.
  do 2 f_equal.
  assert (replace "P" "" ("PT" +:+ m +:+ "M" +:+ s +:+ "S")
          = "T" +:+ m +:+ "M" +:+ s +:+ "S") as ->.
  { rewrite (replace_char_app "P" "" "PT"), (replace_char_app "P" "" m),
      (replace_char_app "P" "" "M"), (replace_char_app "P" "" s).
    by rewrite (replace_marker_free "P" "" m), (replace_marker_free "P" "" s). }
  assert (replace "T" "" ("T" +:+ m +:+ "M" +:+ s +:+ "S")
          = m +:+ "M" +:+ s +:+ "S") as ->.
  { rewrite (replace_char_app "T" "" "T"), (replace_char_app "T" "" m),
      (replace_char_app "T" "" "M"), (replace_char_app "T" "" s).
    by rewrite (replace_marker_free "T" "" m), (replace_marker_free "T" "" s). }
  assert (replace "M" ":" (m +:+ "M" +:+ s +:+ "S")
          = m +:+ ":" +:+ s +:+ "S") as ->.
  { rewrite (replace_char_app "M" ":" m), (replace_char_app "M" ":" "M"),
      (replace_char_app "M" ":" s).
    by rewrite (replace_marker_free "M" ":" m), (replace_marker_free "M" ":" s). }
  rewrite (replace_char_app "S" "" m), (replace_char_app "S" "" ":"),
    (replace_char_app "S" "" s).
  rewrite (replace_marker_free "S" "" m), (replace_marker_free "S" "" s) by done.
  change (replace "S" "" ":") with ":". change (replace "S" "" "S") with "".
  by rewrite append_empty_r.
Qed.

Lemma colon_text_truthy (m s : string) : truthy (VStr (m +:+ ":" +:+ s)) = true.
Proof. by destruct m. Qed.

Lemma iso_text_truthy (m s : string) : truthy (VStr ("PT" +:+ m +:+ "M" +:+ s +:+ "S")) = true.
Proof. done. Qed.

(** A pass of the track loop of [get_album] on a well-formed entry appends
    the entry built from the structured data, untouched. *)
Lemma album_track_stores (t item : dict) (st : state) (l : list value) :
  t !! "item" = Some (VDict item) ->
  record st !! "tracks" = Some (VList l) ->
  album_track (VDict t) st
  = (Ok tt, with_item "tracks" (VList (l ++ [stored_track t item])) st).
Proof.
  intros Ht Hl.
  assert (get t "item" (VDict ∅) = VDict item) as Hitem by (unfold get; by rewrite Ht).
  unfold album_track, mbind, M_bind, lift, append_item, call_get. simpl.
  rewrite !Hitem, Hl. reflexivity.
Qed.

(** The line of a track whose duration [d] converts to [r]. *)
Lemma track_line_shown (repr : value -> string) (t : dict) (lines : list string) (d r : string) :
  t !! "duration" = Some (VStr d) ->
  truthy (VStr d) = true ->
  Server.readable_duration (VStr d) = Ok (VStr r) ->
  truthy (VStr r) = true ->
  Server.track_line repr (VDict t) lines
  = Ok (lines ++ ["  " +:+ Server.format repr (get t "position" (VStr "")) +:+ ". "
                  +:+ Server.format repr (get t "title" (VStr ""))
                  +:+ " (" +:+ r +:+ ")"])%list.
Proof.
  intros Ht Hd Hread Hr.
  assert (get t "duration" (VStr "") = VStr d) as Hg by (unfold get; by rewrite Ht).
  unfold Server.track_line, Server.given, call_get. cbn [rbind].
  rewrite Hg, Hd, Hread. cbn [rbind]. rewrite Hr.
  reflexivity.
Qed.

(** C7. The album formatter converts a duration character by character:
    [P] and [T] are deleted, [M] becomes the colon and [S] is deleted; a
    duration [PT<m>M<s>S] becomes [<m>:<s>], so [PT3M45S] is shown as
    [3:45]. The track line shows the converted text,
    while the entry [get_album] stored for the track keeps the duration of
    the structured data as it was: the formatter reads the record and
    builds text, it has no access to change the record. *)
Theorem duration_display (m s : string) :
  no_markers m = true -> no_markers s = true ->
  let iso := "PT" +:+ m +:+ "M" +:+ s +:+ "S" in
  (forall d, Server.readable_duration (VStr d) = Ok (VStr (str_flat_map display_char d)))
  /\ Server.readable_duration (VStr iso) = Ok (VStr (m +:+ ":" +:+ s))
  /\ Server.readable_duration (VStr "PT3M45S") = Ok (VStr "3:45")
  /\ (forall (repr : value -> string) (t : dict) (lines : list string),
        t !! "duration" = Some (VStr iso) ->
        Server.track_line repr (VDict t) lines
        = Ok (lines ++ ["  " +:+ Server.format repr (get t "position" (VStr "")) +:+ ". "
                        +:+ Server.format repr (get t "title" (VStr ""))
                        +:+ " (" +:+ m +:+ ":" +:+ s +:+ ")"])%list)
  /\ (forall (t item : dict) (st : state) (l : list value),
        t !! "item" = Some (VDict item) ->
        item !! "duration" = Some (VStr iso) ->
        record st !! "tracks" = Some (VList l) ->
        album_track (VDict t) st
        = (Ok tt, with_item "tracks" (VList (l ++ [stored_track t item])) st)
        /\ call_get (stored_track t item) "duration" VNone = Ok (VStr iso)).
Proof.
  intros Hm Hs iso.
  pose proof (readable_duration_minutes_seconds m s Hm Hs) as Hread.
  split; [exact readable_duration_chars|].
  split; [exact Hread|]. split; [reflexivity|]. split.
  - intros repr t lines Ht.
    rewrite (track_line_shown repr t lines iso (m +:+ ":" +:+ s) Ht);
      [|apply iso_text_truthy|exact Hread|apply colon_text_truthy].
    by rewrite !append_assoc.
  - intros t item st l Ht Hi Hl. split; [by apply album_track_stores|].
    unfold stored_track, call_get, get.
    rewrite lookup_insert_ne by done. rewrite lookup_insert_ne by done.
    rewrite lookup_insert_eq. by rewrite Hi.
Qed.

Lemma duration_display_witness :
  no_markers "3" = true /\ no_markers "45" = true
  /\ Server.track_line Pages.no_repr (VDict Pages.listed_one) [] = Ok ["  1. One (3:45)"]
  /\ album_track (VDict Pages.element_one) Pages.tracks_started
     = (Ok tt, with_item "tracks" (VList [VDict Pages.listed_one]) Pages.tracks_started).
Proof.
  destruct (duration_display "3" "45" eq_refl eq_refl) as (_ & _ & _ & Hline & Hstore).
  split; [reflexivity|]. split; [reflexivity|]. split.
  - by rewrite (Hline Pages.no_repr Pages.listed_one []).
  - destruct (Hstore Pages.element_one Pages.item_one Pages.tracks_started [])
      as [-> _]; reflexivity.
Defined.

(** ** Reasoning about method bodies *)

Section Outcomes.
Context {A B : Type}.
Implicit Types (Q : A -> state -> Prop) (E : exn -> state -> Prop) (st : state).

Lemma wp_ret (a : A) Q E st : wp (mret a) Q E st = Q a st.
Proof. reflexivity. Qed.

Lemma wp_bind (m : M A) (k : A -> M B) (R : B -> state -> Prop) E st :
  wp (m ≫= k) R E st = wp m (fun a st' => wp (k a) R E st') E st.
Proof.
  unfold wp, mbind, M_bind. by destruct (m st) as [[a|e] st'].
Qed.

Lemma wp_lift (r : result A) Q E st :
  wp (lift r) Q E st = match r with Ok a => Q a st | Raise e => E e st end.
Proof. unfold wp, lift. by destruct r. Qed.

Lemma wp_mono (m : M A) Q Q' E E' st :
  (forall a st', Q a st' -> Q' a st') ->
  (forall e st', E e st' -> E' e st') ->
  wp m Q E st -> wp m Q' E' st.
Proof.
  intros HQ HE. unfold wp. destruct (m st) as [[a|e] st']; auto.
Qed.

End Outcomes.

Lemma wp_setitem (k : string) (v : value) Q E st :
  wp (setitem k v) Q E st = Q tt (with_item k v st).
Proof. reflexivity. Qed.

Lemma wp_lookup_record (k : string) Q E st :
  wp (lookup_record k) Q E st = Q (get_none (record st) k) st.
Proof. reflexivity. Qed.

Lemma wp_log_warning (e : exn) Q E st :
  wp (log_warning e) Q E st = Q tt (with_warning e st).
Proof. reflexivity. Qed.

Lemma wp_when (c : bool) (m : M unit) Q E st :
  wp (when c m) Q E st = if c then wp m Q E st else Q tt st.
Proof. by destruct c. Qed.

Lemma wp_try_except (body : M unit) (caught : exn -> bool) (handler : exn -> M unit) Q E st :
  wp (try_except body caught handler) Q E st
  = wp body Q (fun e st' => if caught e then wp (handler e) Q E st' else E e st') st.
Proof.
  unfold wp, try_except. destruct (body st) as [[[]|e] st']; [done|].
  by destruct (caught e).
Qed.

(** What [run] returns satisfies what the body establishes. *)
Lemma run_returns (init : dict) (body : M unit) (Q : dict -> Prop) (album : dict) :
  wp body (fun _ st => Q (record st)) (fun _ _ => True)
    {| record := init; warnings := [] |} ->
  run init body = Ok album -> Q album.
Proof.
  unfold wp, run. destruct (body _) as [[[]|e] st']; [|done].
  intros HQ [= <-]. exact HQ.
Qed.

(** A body that cannot raise makes [run] return. *)
Lemma run_completes (init : dict) (body : M unit) (Q : dict -> Prop) :
  wp body (fun _ st => Q (record st)) (fun _ _ => False)
    {| record := init; warnings := [] |} ->
  exists album, run init body = Ok album /\ Q album.
Proof.
  unfold wp, run. destruct (body _) as [[[]|e] st']; [|done].
  intros HQ. by exists (record st').
Qed.

(** A body that always raises [e] makes [run] raise it. *)
Lemma run_raises (init : dict) (body : M unit) (e : exn) :
  wp body (fun _ _ => False) (fun e' _ => e' = e) {| record := init; warnings := [] |} ->
  run init body = Raise e.
Proof.
  unfold wp, run. destruct (body _) as [[[]|e'] st']; [done|]. by intros ->.
Qed.

Create Rewrite HintDb wp.
#[local] Hint Rewrite @wp_ret @wp_bind @wp_lift wp_setitem wp_lookup_record
  wp_log_warning wp_when wp_try_except : wp.

(** *** Bodies that keep a binding of the record *)

Section Keeps.
Variable I : state -> Prop.

Lemma keeps_ret {A} (a : A) : keeps I (mret a).
Proof. intros st HI. by rewrite wp_ret. Qed.

Lemma keeps_bind {A B} (m : M A) (k : A -> M B) :
  keeps I m -> (forall a, keeps I (k a)) -> keeps I (m ≫= k).
Proof.
  intros Hm Hk st HI. rewrite wp_bind.
  eapply wp_mono; [| |apply (Hm st HI)]; [|auto].
  intros a st' HI'. by apply Hk.
Qed.

Lemma keeps_lift {A} (r : result A) : keeps I (lift r).
Proof. intros st HI. rewrite wp_lift. by destruct r. Qed.

Lemma keeps_lookup_record (k : string) : keeps I (lookup_record k).
Proof. intros st HI. by rewrite wp_lookup_record. Qed.

Lemma keeps_when (c : bool) (m : M unit) : keeps I m -> keeps I (when c m).
Proof. intros Hm st HI. rewrite wp_when. destruct c; [by apply Hm|done]. Qed.

Lemma keeps_for_each {A} (l : list A) (body : A -> M unit) :
  (forall x, keeps I (body x)) -> keeps I (for_each l body).
Proof.
  intros Hbody. induction l as [|x l IH]; simpl.
  - apply keeps_ret.
  - apply keeps_bind; [apply Hbody|by intros _].
Qed.

Lemma keeps_try_except (body : M unit) (caught : exn -> bool) (handler : exn -> M unit) :
  keeps I body -> (forall e, keeps I (handler e)) ->
  keeps I (try_except body caught handler).
Proof.
  intros Hb Hh st HI. rewrite wp_try_except.
  eapply wp_mono; [| |apply (Hb st HI)]; [auto|].
  intros e st' HI'. simpl. destruct (caught e); [by apply Hh|done].
Qed.

End Keeps.

Lemma keeps_setitem (k k' : string) (v x : value) :
  k' <> k -> keeps (bound k v) (setitem k' x).
Proof.
  intros Hne st HI. rewrite wp_setitem. unfold bound, with_item. simpl.
  by rewrite lookup_insert_ne.
Qed.

Lemma keeps_log_warning (k : string) (v : value) (e : exn) :
  keeps (bound k v) (log_warning e).
Proof. intros st HI. by rewrite wp_log_warning. Qed.

Lemma keeps_append_item (k k' : string) (v x : value) :
  k' <> k -> keeps (bound k v) (append_item k' x).
Proof.
  intros Hne st HI. unfold wp, append_item.
  destruct (record st !! k') as [[]|] eqn:Hk; try done.
  unfold bound. simpl. by rewrite lookup_insert_ne.
Qed.

(** The steps of a body, one rule each, chosen by the head of the body. *)
Ltac keeps_step :=
  lazymatch goal with
  | |- keeps _ (mbind _ _) => apply keeps_bind; [|intros ?]
  | |- keeps _ (setitem _ _) => apply keeps_setitem; discriminate
  | |- keeps _ (append_item _ _) => apply keeps_append_item; discriminate
  | |- keeps _ (lift _) => apply keeps_lift
  | |- keeps _ (mret _) => apply keeps_ret
  | |- keeps _ (lookup_record _) => apply keeps_lookup_record
  | |- keeps _ (log_warning _) => apply keeps_log_warning
  | |- keeps _ (when _ _) => apply keeps_when
  | |- keeps _ (for_each _ _) => apply keeps_for_each; intros ?
  | |- keeps _ (try_except _ _ _) => apply keeps_try_except; [|intros ?]
  end.

Section KeepsBinding.
Context {Tag : Type} {bs4 : Bs4 Tag}.
Variable json_loads : string -> result value.
Variable k : string.
Variable v : value.

Lemma keeps_json_ld_block (soup : Tag) (body : dict -> M unit) :
  (forall d, keeps (bound k v) (body d)) ->
  keeps (bound k v) (json_ld_block json_loads soup body).
Proof.
  intros Hbody. unfold json_ld_block.
  destruct (select_one soup JSON_LD_SELECTOR); [|apply keeps_ret].
  repeat keeps_step. destruct a; first [apply Hbody | apply keeps_ret].
Qed.

Lemma keeps_fallback_text (soup : Tag) (k' css : string) :
  k' <> k -> keeps (bound k v) (fallback_text soup k' css).
Proof.
  intros Hk. unfold fallback_text. repeat keeps_step.
  destruct (select_one soup css); [by apply keeps_setitem | apply keeps_ret].
Qed.

Lemma keeps_text_if_found (soup : Tag) (k' css : string) :
  k' <> k -> keeps (bound k v) (text_if_found soup k' css).
Proof.
  intros Hk. unfold text_if_found.
  destruct (select_one soup css); [by apply keeps_setitem | apply keeps_ret].
Qed.

(** The statements after the block assign [title], [artist], [tags],
    [about] and [credits] only. *)
Lemma keeps_album_html (soup : Tag) :
  k <> "title" -> k <> "artist" -> k <> "tags" -> k <> "about" -> k <> "credits" ->
  keeps (bound k v) (album_html soup).
Proof.
  intros H1 H2 H3 H4 H5. unfold album_html.
  repeat first
    [ apply keeps_fallback_text; congruence
    | apply keeps_text_if_found; congruence
    | apply keeps_setitem; congruence
    | apply keeps_bind; [|intros ?] ].
Qed.

Lemma keeps_track_html (soup : Tag) :
  k <> "tags" -> k <> "lyrics" -> keeps (bound k v) (track_html soup).
Proof.
  intros H1 H2. unfold track_html.
  repeat first
    [ apply keeps_text_if_found; congruence
    | apply keeps_setitem; congruence
    | apply keeps_bind; [|intros ?] ].
Qed.

End KeepsBinding.

Section KeepsUrl.
Context {Tag : Type} {bs4 : Bs4 Tag}.
Variable json_loads : string -> result value.
Variable v : value.

Lemma keeps_url_album_json_ld (data : dict) : keeps (bound "url" v) (album_json_ld data).
Proof. unfold album_json_ld, album_track. cbv zeta. repeat keeps_step. Qed.

Lemma keeps_url_track_json_ld (data : dict) : keeps (bound "url" v) (track_json_ld data).
Proof. unfold track_json_ld. cbv zeta. repeat keeps_step. Qed.

Lemma keeps_url_get_album_body (soup : Tag) :
  keeps (bound "url" v) (get_album_body json_loads soup).
Proof.
  unfold get_album_body. apply keeps_bind; [|intros ?].
  - apply keeps_json_ld_block. apply keeps_url_album_json_ld.
  - by apply keeps_album_html.
Qed.

Lemma keeps_url_get_track_body (soup : Tag) :
  keeps (bound "url" v) (get_track_body json_loads soup).
Proof.
  unfold get_track_body. apply keeps_bind; [|intros ?].
  - apply keeps_json_ld_block. apply keeps_url_track_json_ld.
  - by apply keeps_track_html.
Qed.

End KeepsUrl.

(** ** The url field *)

Section UrlField.
Context {Tag : Type} {bs4 : Bs4 Tag}.
Variable json_loads : string -> result value.
Variable urljoin : string -> string -> result string.

Lemma get_album_soup_url (soup : Tag) (url : string) (album : dict) :
  get_album_soup json_loads soup url = Ok album -> album !! "url" = Some (VStr url).
Proof.
  apply (run_returns _ _ (fun r => r !! "url" = Some (VStr url))).
  eapply wp_mono; [| |apply (keeps_url_get_album_body json_loads (VStr url) soup)].
  - by intros ? st Hb.
  - done.
  - unfold bound. simpl. apply lookup_singleton_eq.
Qed.

Lemma get_track_soup_url (soup : Tag) (url : string) (track : dict) :
  get_track_soup json_loads soup url = Ok track -> track !! "url" = Some (VStr url).
Proof.
  apply (run_returns _ _ (fun r => r !! "url" = Some (VStr url))).
  eapply wp_mono; [| |apply (keeps_url_get_track_body json_loads (VStr url) soup)].
  - by intros ? st Hb.
  - done.
  - unfold bound. simpl. apply lookup_singleton_eq.
Qed.

Lemma get_artist_soup_url (soup : Tag) (url : string) (artist : dict) :
  get_artist_soup urljoin soup url = Ok artist -> artist !! "url" = Some (VStr url).
Proof.
  unfold get_artist_soup, set_if_found. cbv zeta.
  destruct (discography urljoin soup url) as [albums|e]; [|done].
  intros [= <-].
  do 2 (rewrite lookup_insert_ne by done).
  repeat (case_match; [rewrite lookup_insert_ne by done|]);
    apply lookup_singleton_eq.
Qed.

Lemma nothing_matches_select_one (soup : Tag) (css : string) :
  nothing_matches soup -> In css detail_selectors -> select_one soup css = None.
Proof. intros Hn Hin. unfold select_one. by rewrite (Hn css Hin). Qed.

(** Membership of a selector written out in [detail_selectors]. *)
Ltac detail_selector := unfold detail_selectors; repeat first [by left | right].

Lemma get_album_soup_nothing (soup : Tag) (url : string) :
  nothing_matches soup ->
  get_album_soup json_loads soup url = Ok (<["tags" := VList []]> {[ "url" := VStr url ]}).
Proof.
  intros Hn.
  unfold get_album_soup, get_album_body, album_html, json_ld_block, fallback_text,
    text_if_found, tralbum_tags.
  rewrite !(nothing_matches_select_one soup) by first [exact Hn | detail_selector].
  rewrite (Hn ".tralbum-tags a.tag") by detail_selector. reflexivity.
Qed.

Lemma get_track_soup_nothing (soup : Tag) (url : string) :
  nothing_matches soup ->
  get_track_soup json_loads soup url = Ok (<["tags" := VList []]> {[ "url" := VStr url ]}).
Proof.
  intros Hn.
  unfold get_track_soup, get_track_body, track_html, json_ld_block, text_if_found,
    tralbum_tags.
  rewrite !(nothing_matches_select_one soup) by first [exact Hn | detail_selector].
  rewrite (Hn ".tralbum-tags a.tag") by detail_selector. reflexivity.
Qed.

Lemma get_artist_soup_nothing (soup : Tag) (url : string) :
  nothing_matches soup ->
  get_artist_soup urljoin soup url
  = Ok (<["links" := VList []]> (<["discography" := VList []]> {[ "url" := VStr url ]})).
Proof.
  intros Hn. unfold get_artist_soup, discography, set_if_found.
  rewrite !(nothing_matches_select_one soup) by first [exact Hn | detail_selector].
  rewrite (Hn ".music-grid-item"), (Hn "#band-links li a") by detail_selector.
  reflexivity.
Qed.

End UrlField.

(** C9. Whatever the fetched document, a record returned by [get_album],
    [get_artist] or [get_track] binds [url] to the url it was called
    with. On a document in which none of the selectors of the three
    methods matches, the three return the record that has the url and
    the empty lists only. *)
Theorem url_field_unchanged {Tag : Type} {bs4 : Bs4 Tag}
    (json_loads : string -> result value) (urljoin : string -> string -> result string)
    (net : Network) (self : BandcampClient) (url : string) :
  (forall album, get_album json_loads net self url = Ok album ->
     album !! "url" = Some (VStr url))
  /\ (forall track, get_track json_loads net self url = Ok track ->
     track !! "url" = Some (VStr url))
  /\ (forall artist, get_artist urljoin net self url = Ok artist ->
     artist !! "url" = Some (VStr url))
  /\ (forall html, _fetch net self url = Ok html ->
     nothing_matches (BeautifulSoup html) ->
     get_album json_loads net self url
       = Ok (<["tags" := VList []]> {[ "url" := VStr url ]})
     /\ get_track json_loads net self url
       = Ok (<["tags" := VList []]> {[ "url" := VStr url ]})
     /\ get_artist urljoin net self url
       = Ok (<["links" := VList []]> (<["discography" := VList []]> {[ "url" := VStr url ]}))).
Proof.
  split; [|split; [|split]].
  - intros album. unfold get_album. destruct (_fetch net self url); [|done].
    apply get_album_soup_url.
  - intros track. unfold get_track. destruct (_fetch net self url); [|done].
    apply get_track_soup_url.
  - intros artist. unfold get_artist. destruct (_fetch net self url); [|done].
    apply get_artist_soup_url.
  - intros html Hf Hn. unfold get_album, get_track, get_artist. rewrite Hf. simpl.
    rewrite (get_album_soup_nothing _ _ _ Hn), (get_track_soup_nothing _ _ _ Hn),
      (get_artist_soup_nothing _ _ _ Hn). done.
Qed.

(** On the page [Pages.empty_html] no selector of the three methods
    matches. *)
Lemma empty_page_nothing_matches :
  nothing_matches (bs4 := Pages.bs4) (BeautifulSoup (Bs4 := Pages.bs4) Pages.empty_html).
Proof.
  intros css Hin. unfold detail_selectors in Hin. simpl in Hin.
  repeat (destruct Hin as [<-|Hin]; [vm_compute; reflexivity|]).
  done.
Qed.

Lemma url_field_unchanged_witness :
  let net := Dom.serve Pages.album_url Pages.empty_html in
  let bare : dict := <["tags" := VList []]> {[ "url" := VStr Pages.album_url ]} in
  let bare_artist : dict :=
    <["links" := VList []]> (<["discography" := VList []]> {[ "url" := VStr Pages.album_url ]}) in
  bare !! "url" = Some (VStr Pages.album_url)
  /\ bare_artist !! "url" = Some (VStr Pages.album_url)
  /\ get_album (bs4 := Pages.bs4) Pages.loads net default_client Pages.album_url = Ok bare
  /\ get_track (bs4 := Pages.bs4) Pages.loads net default_client Pages.album_url = Ok bare
  /\ get_artist (bs4 := Pages.bs4) Dom.urljoin net default_client Pages.album_url
     = Ok bare_artist.
Proof.
  intros net bare bare_artist.
  destruct (url_field_unchanged (bs4 := Pages.bs4) Pages.loads Dom.urljoin net
              default_client Pages.album_url) as (Halbum & Htrack & Hartist & Hnothing).
  assert (_fetch net default_client Pages.album_url = Ok Pages.empty_html) as Hfetch
    by reflexivity.
  destruct (Hnothing Pages.empty_html Hfetch empty_page_nothing_matches)
    as (Ha & Ht & Hr).
  split; [exact (Halbum bare Ha)|].
  split; [exact (Hartist bare_artist Hr)|].
  split; [exact Ha|]. split; [exact Ht | exact Hr].
Defined.

(** ** Listings *)

(** A listing loop keeps, in order, the entries that pass the title test. *)
Lemma listing_loop {A} (build : A -> dict) (items : list A) (acc : list dict) :
  foldl (fun entries item => append_if_title entries (build item)) acc items
  = (acc ++ List.filter has_title (build <$> items))%list.
Proof.
  revert acc. induction items as [|item items IH]; intros acc; simpl.
  - by rewrite app_nil_r.
  - rewrite IH. unfold append_if_title. fold (has_title (build item)).
    destruct (has_title (build item)); [|done].
    by rewrite <- app_assoc.
Qed.

Lemma has_title_text (entry : dict) (s : string) :
  entry !! "title" = Some (VStr s) -> has_title entry = nonempty s.
Proof. intros H. unfold has_title, get_none, get. by rewrite H. Qed.

Lemma has_title_absent (entry : dict) :
  entry !! "title" = None -> has_title entry = false.
Proof. intros H. unfold has_title, get_none, get. by rewrite H. Qed.

Lemma nonempty_true (s : string) : nonempty s = true -> s <> "".
Proof.
  unfold nonempty. intros H ->. done.
Qed.

(** Entries whose title, when present, is a text, and that passed the
    title test, are titled. *)
Lemma filter_titled (entries : list dict) :
  Forall (fun e => e !! "title" = None \/ exists s, e !! "title" = Some (VStr s)) entries ->
  Forall titled (List.filter has_title entries).
Proof.
  induction 1 as [|e l He _ IH]; simpl; [constructor|].
  destruct (has_title e) eqn:Ht; [|done].
  constructor; [|done].
  destruct He as [Hn|[s Hs]].
  - by rewrite (has_title_absent _ Hn) in Ht.
  - exists s. split; [done|]. apply nonempty_true. by rewrite <- (has_title_text _ _ Hs).
Qed.

(** A listing loop whose passes can raise. *)
Lemma fallible_loop_raised {A} (build : A -> result dict) (items : list A) (e : exn) :
  foldl (fun albums item =>
           rbind albums (fun albums =>
           rbind (build item) (fun album => Ok (append_if_title albums album))))
    (Raise e) items = Raise e.
Proof. induction items as [|item items IH]; [done|]. simpl. exact IH. Qed.

(** When the loop returns, every pass returned, and the loop kept, in
    order, the entries that pass the title test. *)
Lemma fallible_listing_loop {A} (build : A -> result dict) (items : list A)
    (acc entries : list dict) :
  foldl (fun albums item =>
           rbind albums (fun albums =>
           rbind (build item) (fun album => Ok (append_if_title albums album))))
    (Ok acc) items = Ok entries ->
  exists built,
    Forall2 (fun item entry => build item = Ok entry) items built
    /\ entries = (acc ++ List.filter has_title built)%list.
Proof.
  revert acc. induction items as [|item items IH]; intros acc; simpl.
  - intros [= <-]. exists []. split; [constructor|]. by rewrite app_nil_r.
  - destruct (build item) as [entry|e] eqn:Hb; simpl.
    + intros Hrest. destruct (IH _ Hrest) as (built & Hbuilt & ->).
      exists (entry :: built). split; [by constructor|].
      unfold append_if_title. simpl. fold (has_title entry).
      destruct (has_title entry); [|done]. by rewrite <- app_assoc.
    + by rewrite fallible_loop_raised.
Qed.

(** When every pass returns, so does the loop. *)
Lemma fallible_listing_loop_returns {A} (build : A -> result dict) (items : list A)
    (acc built : list dict) :
  Forall2 (fun item entry => build item = Ok entry) items built ->
  foldl (fun albums item =>
           rbind albums (fun albums =>
           rbind (build item) (fun album => Ok (append_if_title albums album))))
    (Ok acc) items = Ok (acc ++ List.filter has_title built)%list.
Proof.
  intros Hb. revert acc. induction Hb as [|item entry items built Hi _ IH]; intros acc; simpl.
  - by rewrite app_nil_r.
  - rewrite Hi. simpl. rewrite IH. unfold append_if_title. fold (has_title entry).
    destruct (has_title entry); [|done]. by rewrite <- app_assoc.
Qed.

(** When the loop raises, a pass raised the exception. *)
Lemma fallible_listing_loop_raises {A} (build : A -> result dict) (items : list A)
    (acc : list dict) (e : exn) :
  foldl (fun albums item =>
           rbind albums (fun albums =>
           rbind (build item) (fun album => Ok (append_if_title albums album))))
    (Ok acc) items = Raise e ->
  exists item, In item items /\ build item = Raise e.
Proof.
  revert acc. induction items as [|item items IH]; intros acc; simpl; [done|].
  destruct (build item) as [entry|e'] eqn:Hb; simpl.
  - intros Hrest. destruct (IH _ Hrest) as (bad & Hin & Hbad). exists bad. by split; [right|].
  - rewrite fallible_loop_raised. intros [= <-]. exists item. by split; [left|].
Qed.

Section Listings.
Context {Tag : Type} {bs4 : Bs4 Tag}.
Variable urljoin : string -> string -> result string.

(** The title binding of an entry built by a chain of conditional
    assignments: the later ones are to other keys. *)
Ltac title_binding :=
  repeat case_match; repeat (rewrite lookup_insert_ne by discriminate);
  first [apply lookup_insert_eq | apply lookup_empty].

Ltac entry_title css :=
  unfold block_title, set_if_found; cbv zeta;
  match goal with
  | |- context [select_one ?item css] =>
      destruct (select_one item css) as [t|];
      [ split; [apply has_title_text | right; exists (get_text t)]; title_binding
      | split; [apply has_title_absent | left]; title_binding ]
  end.

Lemma search_result_title (item : Tag) :
  has_title (search_result item) = nonempty (block_title ".heading a" item)
  /\ (search_result item !! "title" = None
      \/ exists s, search_result item !! "title" = Some (VStr s)).
Proof. unfold search_result. entry_title ".heading a". Qed.

Lemma discography_entry_title (url : string) (item : Tag) (entry : dict) :
  discography_entry urljoin url item = Ok entry ->
  has_title entry = nonempty (block_title ".title" item)
  /\ (entry !! "title" = None \/ exists s, entry !! "title" = Some (VStr s)).
Proof.
  unfold discography_entry. cbv zeta.
  destruct (select_one item "a") as [link|];
    [destruct (urljoin url (attr_or_empty link "href")) as [joined|e]; [|done]|];
    cbn [rbind]; intros [= <-]; entry_title ".title".
Qed.

Lemma tag_entry_title (item : Tag) :
  has_title (tag_entry item) = nonempty (block_title ".itemtext" item)
  /\ (tag_entry item !! "title" = None
      \/ exists s, tag_entry item !! "title" = Some (VStr s)).
Proof. unfold tag_entry. entry_title ".itemtext". Qed.

Lemma discover_entry_title (item : Tag) :
  has_title (discover_entry item) = nonempty (block_title ".heading" item)
  /\ (discover_entry item !! "title" = None
      \/ exists s, discover_entry item !! "title" = Some (VStr s)).
Proof. unfold discover_entry. entry_title ".heading". Qed.

(** What a listing loop over [items] returns. *)
Lemma listing_titled (build : Tag -> dict) (items : list Tag) :
  (forall item, build item !! "title" = None
                \/ exists s, build item !! "title" = Some (VStr s)) ->
  Forall titled (List.filter has_title (build <$> items)).
Proof.
  intros Hb. apply filter_titled. apply Forall_fmap, Forall_forall.
  intros item _. apply Hb.
Qed.

End Listings.

(** C3. The entries of [results], [discography] and the two [albums]
    lists are, in document order, the entries of the item blocks that
    pass the title test, and the test passes exactly when the block shows
    a non-empty title; so every listed entry has a non-empty title. For
    the discography this is said of a record that [get_artist] returns:
    every grid item then gave an entry. A tag page with two item blocks
    of which exactly one has a title lists one album. *)
Theorem listings_have_titles {Tag : Type} {bs4 : Bs4 Tag}
    (urljoin : string -> string -> result string) (soup : Tag)
    (url tag sort genre subgenre : string) (page : Z) :
  (search_soup soup page !! "results" = Some (VList (VDict <$> search_results soup))
   /\ search_results soup
      = List.filter has_title (search_result <$> select soup ".searchresult")
   /\ (forall item, has_title (search_result item) = nonempty (block_title ".heading a" item))
   /\ Forall titled (search_results soup))
  /\ ((forall artist,
         get_artist_soup urljoin soup url = Ok artist ->
         exists built,
           Forall2 (fun item entry => discography_entry urljoin url item = Ok entry)
             (select soup ".music-grid-item") built
           /\ discography urljoin soup url = Ok (List.filter has_title built)
           /\ artist !! "discography" = Some (VList (VDict <$> List.filter has_title built))
           /\ Forall titled (List.filter has_title built))
   /\ (forall item entry,
         discography_entry urljoin url item = Ok entry ->
         has_title entry = nonempty (block_title ".title" item)))
  /\ (get_tag_page_soup soup tag sort page !! "albums"
      = Some (VList (VDict <$> tag_albums soup))
   /\ tag_albums soup = List.filter has_title (tag_entry <$> select soup ".item_list .item")
   /\ (forall item, has_title (tag_entry item) = nonempty (block_title ".itemtext" item))
   /\ Forall titled (tag_albums soup))
  /\ (discover_soup soup genre subgenre sort !! "albums"
      = Some (VList (VDict <$> discover_albums soup))
   /\ discover_albums soup
      = List.filter has_title (discover_entry <$> select soup ".discover-item")
   /\ (forall item, has_title (discover_entry item) = nonempty (block_title ".heading" item))
   /\ Forall titled (discover_albums soup))
  /\ (forall a b,
        select soup ".item_list .item" = [a; b] ->
        nonempty (block_title ".itemtext" a) = negb (nonempty (block_title ".itemtext" b)) ->
        List.length (tag_albums soup) = 1%nat).
Proof.
  assert (search_results soup
          = List.filter has_title (search_result <$> select soup ".searchresult")) as Hs
    by exact (listing_loop search_result _ []).
  assert (tag_albums soup
          = List.filter has_title (tag_entry <$> select soup ".item_list .item")) as Ht
    by exact (listing_loop tag_entry _ []).
  assert (discover_albums soup
          = List.filter has_title (discover_entry <$> select soup ".discover-item")) as Hv
    by exact (listing_loop discover_entry _ []).
  split; [|split; [|split; [|split]]].
  - repeat split; try done.
    + intros item. apply search_result_title.
    + rewrite Hs. apply listing_titled. intros item. apply search_result_title.
  - split.
    + intros artist. unfold get_artist_soup. cbv zeta.
      destruct (discography urljoin soup url) as [albums|e] eqn:Hd; [|done].
      cbn [rbind]. intros [= <-].
      destruct (fallible_listing_loop (discography_entry urljoin url) _ [] albums Hd)
        as (built & Hbuilt & ->).
      exists built. cbn [app]. repeat split; try done.
      * rewrite lookup_insert_ne by done. apply lookup_insert_eq.
      * apply filter_titled. clear Hd.
        induction Hbuilt as [|item entry items built Hi _ IH]; constructor; [|exact IH].
        apply (discography_entry_title urljoin url item entry Hi).
    + intros item entry Hi. apply (discography_entry_title urljoin url item entry Hi).
  - repeat split; try done.
    + intros item. apply tag_entry_title.
    + rewrite Ht. apply listing_titled. intros item. apply tag_entry_title.
  - repeat split; try done.
    + intros item. apply discover_entry_title.
    + rewrite Hv. apply listing_titled. intros item. apply discover_entry_title.
  - intros a b Hab Hone. rewrite Ht, Hab. simpl.
    rewrite !(proj1 (tag_entry_title _)), Hone.
    by destruct (nonempty (block_title ".itemtext" b)).
Qed.

Lemma listings_have_titles_witness :
  let soup := BeautifulSoup (Bs4 := Pages.bs4) Pages.tag_html in
  List.length (select (Bs4 := Pages.bs4) soup ".item_list .item") = 2%nat
  /\ List.length (tag_albums (bs4 := Pages.bs4) soup) = 1%nat.
Proof.
  intros soup. split; [reflexivity|].
  destruct (listings_have_titles (bs4 := Pages.bs4) Dom.urljoin soup
              "" "ambient" "pop" "" "" 1) as (_ & _ & _ & _ & Htwo).
  eapply Htwo.
  - vm_compute. reflexivity.
  - vm_compute. reflexivity.
Defined.

(** ** The structured-data block *)

(** Lookups in a record built by assignments. *)
Ltac record_lookup :=
  unfold get_none, get, with_item, with_warning; simpl;
  repeat first
    [ rewrite lookup_insert_eq
    | rewrite lookup_insert_ne by discriminate
    | rewrite lookup_singleton_eq
    | rewrite lookup_singleton_ne by discriminate
    | rewrite lookup_empty ];
  simpl.

(** When [json.loads] raises [JSONDecodeError] on the text of the
    structured-data block of an album page, [get_album] returns a record,
    and its title and artist are the texts found by
    [#name-section .trackTitle] and [#name-section a] (absent when the
    selector finds nothing). *)
Lemma malformed_block_falls_back {Tag : Type} {bs4 : Bs4 Tag}
    (json_loads : string -> result value)
    (net : Network) (self : BandcampClient) (url html : string) (json_ld : Tag) (s : string) :
  _fetch net self url = Ok html ->
  select_one (BeautifulSoup html) JSON_LD_SELECTOR = Some json_ld ->
  tag_string json_ld = Some s ->
  json_loads s = Raise JSONDecodeError ->
  exists album,
    get_album json_loads net self url = Ok album
    /\ album !! "title" = selected_text (BeautifulSoup html) "#name-section .trackTitle"
    /\ album !! "artist" = selected_text (BeautifulSoup html) "#name-section a".
Proof.
  intros Hfetch Hsel Hstr Hjson.
  unfold get_album. rewrite Hfetch. simpl rbind.
  apply run_completes.
  unfold get_album_body, album_html, json_ld_block, fallback_text, text_if_found,
    selected_text.
  rewrite Hsel. autorewrite with wp. unfold loads. rewrite Hstr, Hjson.
  destruct (select_one (BeautifulSoup html) "#name-section .trackTitle"),
    (select_one (BeautifulSoup html) "#name-section a"),
    (select_one (BeautifulSoup html) ".tralbum-about"),
    (select_one (BeautifulSoup html) ".tralbum-credits").
  all: repeat (autorewrite with wp; record_lookup).
  all: done.
Qed.

Lemma malformed_block_falls_back_witness :
  exists album,
    get_album (bs4 := Pages.bs4) Pages.loads
      (Dom.serve Pages.album_url Pages.malformed_html) default_client Pages.album_url
    = Ok album
    /\ album !! "title" = Some (VStr "Dawn")
    /\ album !! "artist" = Some (VStr "Foo").
Proof.
  apply (malformed_block_falls_back (bs4 := Pages.bs4) Pages.loads
           (Dom.serve Pages.album_url Pages.malformed_html) default_client
           Pages.album_url Pages.malformed_html
           ([Dom.document [Pages.ld_node Pages.malformed_json; Pages.name_section]],
            Pages.ld_node Pages.malformed_json)
           Pages.malformed_json).
  - reflexivity.
  - vm_compute. reflexivity.
  - reflexivity.
  - reflexivity.
Defined.

(** C2, at the failing input. On an album page whose structured-data
    block is empty, the element has no text, [json.loads] raises
    [TypeError], and the [except] clause does not catch it: [get_album]
    raises and the tool answers with the error text, although the markup
    of the page names the title and the artist. On the page whose block
    is the text [{name: Dawn], which is not JSON either, the record is
    returned with the title and the artist of the markup. *)
Theorem empty_block_escapes :
  get_album (bs4 := Pages.bs4) Pages.loads
    (Dom.serve Pages.album_url Pages.empty_block_html) default_client Pages.album_url
  = Raise TypeError
  /\ Server.call_tool_get_album Pages.no_repr (bs4 := Pages.bs4) Pages.loads
       (Dom.serve Pages.album_url Pages.empty_block_html) default_client
       {[ "url" := VStr Pages.album_url ]}
     = Server.ErrorContent TypeError
  /\ selected_text (bs4 := Pages.bs4)
       (BeautifulSoup (Bs4 := Pages.bs4) Pages.empty_block_html) "#name-section .trackTitle"
     = Some (VStr "Dawn")
  /\ selected_text (bs4 := Pages.bs4)
       (BeautifulSoup (Bs4 := Pages.bs4) Pages.empty_block_html) "#name-section a"
     = Some (VStr "Foo")
  /\ get_album (bs4 := Pages.bs4) Pages.loads
       (Dom.serve Pages.album_url Pages.malformed_html) default_client Pages.album_url
     = Ok Pages.plain_album.
Proof. repeat split; vm_compute; reflexivity. Qed.

(** ** The numeric fields of an album *)

(** A loop with an invariant on the items already passed. *)
Lemma wp_for_each_in {A} (I : list A -> state -> Prop) (E : exn -> state -> Prop)
    (body : A -> M unit) (l done : list A) (st : state) :
  (forall passed x st', In x l -> I passed st' ->
     wp (body x) (fun _ => I (passed ++ [x])%list) E st') ->
  I done st ->
  wp (for_each l body) (fun _ => I (done ++ l)%list) E st.
Proof.
  revert done st.
  induction l as [|x l IH]; intros done st Hbody HI.
  - simpl. rewrite wp_ret. by rewrite app_nil_r.
  - simpl. rewrite wp_bind.
    eapply wp_mono; [| |apply (Hbody done x st); [by left|exact HI]]; [|auto].
    intros ? st' HI'. simpl.
    replace (done ++ x :: l)%list with ((done ++ [x]) ++ l)%list
      by (by rewrite <- app_assoc).
    apply IH; [|done]. intros passed y st'' Hy. apply Hbody. by right.
Qed.

Lemma wp_call_get (x : value) (k : string) (d : value)
    (Q : value -> state -> Prop) (E : exn -> state -> Prop) (st : state) :
  (forall o, x = VDict o -> Q (get o k d) st) ->
  (is_dict x = false -> E AttributeError st) ->
  wp (lift (call_get x k d)) Q E st.
Proof.
  intros HQ HE. rewrite wp_lift. destruct x; simpl; auto.
Qed.

Section NumericFields.
Variable data : dict.

#[local] Abbreviation escapes := (escapes data).
#[local] Abbreviation loop_invariant := (loop_invariant data).

Lemma element_not_well_formed (elements : list value) (x : value) :
  track_elements data = Ok elements -> In x elements ->
  well_formed_element x = false -> well_formed_album data = false.
Proof.
  unfold track_elements, well_formed_album, call_get. intros He Hin Hx.
  destruct (get data "track" (VDict ∅)) as [| | | | | |track];
    try by rewrite andb_false_r.
  simpl in He.
  destruct (get track "itemListElement" (VList [])) as [| | | | |l|];
    try by rewrite andb_false_r.
  simpl in He. injection He as <-.
  assert (forallb well_formed_element l = false) as ->.
  { apply not_true_is_false. intros Hall. rewrite forallb_forall in Hall.
    specialize (Hall x Hin). congruence. }
  by rewrite andb_false_r.
Qed.

Lemma album_track_listed (elements passed : list value) (x : value) (st : state) :
  track_elements data = Ok elements -> In x elements ->
  loop_invariant passed st ->
  wp (album_track x) (fun _ => loop_invariant (passed ++ [x])%list) escapes st.
Proof.
  intros He Hin (Hn & tracks & Ht & Hl).
  unfold album_track. rewrite wp_bind.
  apply wp_call_get.
  2:{ intros Hx. split; [done|]. apply (element_not_well_formed elements x He Hin).
      by destruct x. }
  intros t ->. rewrite wp_bind, wp_lift. simpl.
  assert (is_dict (get t "item" (VDict ∅)) = false -> escapes AttributeError st) as Hesc.
  { intros Hi. split; [done|]. by apply (element_not_well_formed elements _ He Hin). }
  do 3 (rewrite wp_bind; apply wp_call_get; [intros ? _|exact Hesc]).
  unfold wp, append_item. unfold bound in Ht. rewrite Ht.
  split.
  - unfold bound. simpl. by rewrite lookup_insert_ne.
  - eexists. split; [unfold bound; simpl; apply lookup_insert_eq|].
    apply Forall2_app; [done|]. constructor; [|constructor].
    eexists t, _. split; [done|]. split; [done|]. apply lookup_insert_eq.
Qed.

Lemma loop_invariant_with_item (passed : list value) (k : string) (v : value) (st : state) :
  k <> "num_tracks" -> k <> "tracks" ->
  loop_invariant passed st -> loop_invariant passed (with_item k v st).
Proof.
  intros H1 H2 (Hn & tracks & Ht & Hl). unfold loop_invariant, bound, with_item in *.
  simpl. rewrite !lookup_insert_ne by done. eauto.
Qed.

(** An optional nested object: [x = data.get(..., {}); if x: record[f1] =
    x.get(k1, d1); record[f2] = x.get(k2, d2)]. *)
Lemma optional_object_listed (x : value) (k1 k2 f1 f2 : string) (d1 d2 : value)
    (passed : list value) (st : state) :
  (dict_or_falsy x = false -> well_formed_album data = false) ->
  f1 <> "num_tracks" -> f1 <> "tracks" -> f2 <> "num_tracks" -> f2 <> "tracks" ->
  loop_invariant passed st ->
  wp (when (truthy x)
        (p ← lift (call_get x k1 d1); setitem f1 p;;
         c ← lift (call_get x k2 d2); setitem f2 c))
     (fun _ => loop_invariant passed) escapes st.
Proof.
  intros Hwf H1 H2 H3 H4 HI. rewrite wp_when.
  destruct (truthy x) eqn:Hx; [|done].
  assert (is_dict x = false -> forall st', escapes AttributeError st') as Hesc.
  { intros Hd st'. split; [done|]. apply Hwf. unfold dict_or_falsy. by rewrite Hd, Hx. }
  rewrite wp_bind. apply wp_call_get; [intros o _|by intros; apply Hesc].
  rewrite wp_bind, wp_setitem, wp_bind.
  apply wp_call_get; [intros o' _|by intros; apply Hesc].
  rewrite wp_setitem. by do 2 (apply loop_invariant_with_item; [done|done|]).
Qed.

Lemma album_json_ld_listed (st : state) :
  wp (album_json_ld data) (fun _ st' => tracks_listed data (record st')) escapes st.
Proof.
  unfold album_json_ld. cbv zeta.
  rewrite wp_bind, wp_setitem, wp_bind.
  apply wp_call_get.
  2:{ intros Hd. split; [done|]. unfold well_formed_album. by rewrite Hd. }
  intros artist _.
  do 5 rewrite wp_bind, wp_setitem. rewrite wp_bind.
  apply wp_call_get.
  2:{ intros Hd. split; [done|]. unfold well_formed_album.
      destruct (get data "track" (VDict ∅)); try done; by rewrite andb_false_r. }
  intros track Htrack.
  rewrite wp_bind, wp_setitem, wp_bind, wp_lift.
  destruct (iterate (get track "itemListElement" (VList []))) as [elements|e] eqn:Hit.
  2:{ assert (e = TypeError) as ->.
      { destruct (get track "itemListElement" (VList [])); simpl in Hit; congruence. }
      split; [done|]. unfold well_formed_album. rewrite Htrack.
      destruct (get track "itemListElement" (VList [])); simpl in Hit; try congruence;
        by rewrite andb_false_r. }
  assert (track_elements data = Ok elements) as He.
  { unfold track_elements. rewrite Htrack. exact Hit. }
  rewrite wp_bind.
  eapply wp_mono;
    [| |apply (wp_for_each_in loop_invariant escapes album_track elements [])]; [|auto| |].
  - intros ? st1 HI. simpl in HI. rewrite wp_bind.
    eapply wp_mono; [| |apply optional_object_listed; [| | | | |exact HI]]; try done.
    + intros ? st2 HI2. simpl.
      eapply wp_mono; [| |apply optional_object_listed; [| | | | |exact HI2]]; try done.
      * intros ? st3 (Hn & tracks & Ht & Hl). split; [exact Hn|]. by exists elements, tracks.
      * intros Hd. unfold well_formed_album. rewrite Hd. by rewrite andb_false_r.
    + intros Hd. unfold well_formed_album. rewrite Hd. by rewrite !andb_false_r.
  - intros passed x st' Hin HI. by apply (album_track_listed elements).
  - split.
    + unfold bound, with_item. simpl. rewrite lookup_insert_ne by done. apply lookup_insert_eq.
    + exists []. split; [|constructor]. unfold bound, with_item. simpl. apply lookup_insert_eq.
Qed.

End NumericFields.

Lemma wp_and {A} (m : M A) (Q1 Q2 : A -> state -> Prop) (E1 E2 : exn -> state -> Prop)
    (st : state) :
  wp m Q1 E1 st -> wp m Q2 E2 st ->
  wp m (fun a st' => Q1 a st' /\ Q2 a st') (fun e st' => E1 e st' /\ E2 e st') st.
Proof. unfold wp. by destruct (m st) as [[a|e] st']. Qed.

(** A body that never raises ends normally whatever is asked of its
    exceptions. *)
Lemma wp_never_raises {A} (m : M A) (Q : A -> state -> Prop) (E E' : exn -> state -> Prop)
    (st : state) :
  (exists a st', m st = (Ok a, st')) -> wp m Q E st -> wp m Q E' st.
Proof. intros (a & st' & Hm). unfold wp. by rewrite Hm. Qed.

Section AlbumRecord.
Context {Tag : Type} {bs4 : Bs4 Tag}.
Variable json_loads : string -> result value.

Lemma fallback_text_returns (soup : Tag) (k css : string) (st : state) :
  exists st', fallback_text soup k css st = (Ok tt, st').
Proof.
  unfold fallback_text, mbind, M_bind, lookup_record, when. simpl.
  destruct (negb _); [|by eexists].
  destruct (select_one soup css); by eexists.
Qed.

Lemma text_if_found_returns (soup : Tag) (k css : string) (st : state) :
  exists st', text_if_found soup k css st = (Ok tt, st').
Proof. unfold text_if_found. destruct (select_one soup css); by eexists. Qed.

Lemma album_html_returns (soup : Tag) (st : state) :
  exists a st', album_html soup st = (Ok a, st').
Proof.
  unfold album_html, mbind, M_bind.
  destruct (fallback_text_returns soup "title" "#name-section .trackTitle" st) as [st1 ->].
  destruct (fallback_text_returns soup "artist" "#name-section a" st1) as [st2 ->].
  simpl.
  destruct (text_if_found_returns soup "about" ".tralbum-about"
              (with_item "tags" (tralbum_tags soup) st2)) as [st3 H3].
  unfold with_item in H3. rewrite H3.
  destruct (text_if_found_returns soup "credits" ".tralbum-credits" st3) as [st4 ->].
  by eexists _, _.
Qed.

(** The statements after the block leave [num_tracks] and [tracks] as
    they are. *)
Lemma album_html_tracks_listed (soup : Tag) (data : dict) (E : exn -> state -> Prop)
    (st : state) :
  tracks_listed data (record st) ->
  wp (album_html soup) (fun _ st' => tracks_listed data (record st')) E st.
Proof.
  intros (Hn & elements & tracks & He & Ht & Hl).
  apply (wp_never_raises _ _ (fun _ st' => bound "num_tracks" (get data "numTracks" (VInt 0)) st'
                                           /\ bound "tracks" (VList tracks) st'));
    [apply album_html_returns|].
  eapply wp_mono; [| |apply wp_and; [by apply (keeps_album_html "num_tracks")
                                     |by apply (keeps_album_html "tracks")]]; [|auto].
  intros ? st' [Hn' Ht']. split; [exact Hn'|]. by exists elements, tracks.
Qed.

Lemma album_html_unbound (soup : Tag) (k : string) (st : state) :
  k <> "title" -> k <> "artist" -> k <> "tags" -> k <> "about" -> k <> "credits" ->
  record st !! k = None ->
  wp (album_html soup) (fun _ st' => record st' !! k = None) (fun _ _ => False) st.
Proof.
  intros H1 H2 H3 H4 H5 Hk.
  unfold album_html, fallback_text, text_if_found.
  destruct (select_one soup "#name-section .trackTitle"),
    (select_one soup "#name-section a"),
    (select_one soup ".tralbum-about"),
    (select_one soup ".tralbum-credits").
  all: repeat (autorewrite with wp; unfold with_item; simpl;
               repeat match goal with |- context [negb ?b] => destruct b; simpl end).
  all: by rewrite ?lookup_insert_ne by done.
Qed.

End AlbumRecord.

Section AlbumNumericFields.
Context {Tag : Type} {bs4 : Bs4 Tag}.
Variable json_loads : string -> result value.

(** With a block that gives the object [data], the body of [get_album]
    ends with the fields listed, or escapes on data that is not well
    formed. *)
Lemma get_album_body_listed (soup json_ld : Tag) (s : string) (data : dict) (st : state) :
  select_one soup JSON_LD_SELECTOR = Some json_ld ->
  tag_string json_ld = Some s ->
  json_loads s = Ok (VDict data) ->
  wp (get_album_body json_loads soup)
     (fun _ st' => tracks_listed data (record st'))
     (fun _ _ => well_formed_album data = false) st.
Proof.
  intros Hsel Hstr Hjson.
  unfold get_album_body, json_ld_block. rewrite Hsel.
  rewrite wp_bind, wp_try_except, wp_bind, wp_lift.
  unfold loads. rewrite Hstr, Hjson.
  eapply wp_mono; [| |apply (album_json_ld_listed data)].
  - intros ? st' Hl. by apply album_html_tracks_listed.
  - intros e st' [Hun Hwf]. simpl. by rewrite Hun.
Qed.

(** Without an object the block leaves the record as it was. *)
Lemma json_ld_block_skipped (soup : Tag) (body : dict -> M unit)
    (Q : unit -> state -> Prop) (E : exn -> state -> Prop) (st : state) :
  no_object json_loads soup ->
  (forall w, Q tt {| record := record st; warnings := w |}) ->
  wp (json_ld_block json_loads soup body) Q E st.
Proof.
  unfold no_object, json_ld_block. intros Hno HQ.
  destruct (select_one soup JSON_LD_SELECTOR) as [json_ld|].
  - rewrite wp_try_except, wp_bind, wp_lift.
    destruct (loads json_loads (tag_string json_ld)) as [v|e].
    + destruct v; try discriminate; rewrite wp_ret; destruct st; apply HQ.
    + simpl. rewrite Hno, wp_log_warning. apply HQ.
  - rewrite wp_ret. destruct st. apply HQ.
Qed.

(** An exception of [json.loads] that the [except] clause does not
    catch leaves the block. *)
Lemma json_ld_block_raises (soup json_ld : Tag) (body : dict -> M unit) (e : exn)
    (st : state) :
  select_one soup JSON_LD_SELECTOR = Some json_ld ->
  loads json_loads (tag_string json_ld) = Raise e ->
  json_or_key_error e = false ->
  wp (json_ld_block json_loads soup body) (fun _ _ => False) (fun e' _ => e' = e) st.
Proof.
  intros Hsel Hloads He. unfold json_ld_block. rewrite Hsel.
  rewrite wp_try_except, wp_bind, wp_lift, Hloads. simpl. by rewrite He.
Qed.

(** It leaves [get_album] and [get_track] too: no record is returned. *)
Lemma block_failure_escapes (soup json_ld : Tag) (url : string) (e : exn) :
  select_one soup JSON_LD_SELECTOR = Some json_ld ->
  loads json_loads (tag_string json_ld) = Raise e ->
  json_or_key_error e = false ->
  get_album_soup json_loads soup url = Raise e
  /\ get_track_soup json_loads soup url = Raise e.
Proof.
  intros Hsel Hloads He. split.
  - apply run_raises. unfold get_album_body. rewrite wp_bind.
    eapply wp_mono; [| |apply (json_ld_block_raises _ _ _ _ _ Hsel Hloads He)]; done.
  - apply run_raises. unfold get_track_body. rewrite wp_bind.
    eapply wp_mono; [| |apply (json_ld_block_raises _ _ _ _ _ Hsel Hloads He)]; done.
Qed.

(** A page that gives no object either has its block passed over or
    makes the two methods raise. *)
Lemma block_object_none (soup : Tag) (url : string) :
  block_object json_loads soup = None ->
  no_object json_loads soup
  \/ exists e, get_album_soup json_loads soup url = Raise e
               /\ get_track_soup json_loads soup url = Raise e.
Proof.
  unfold block_object, no_object.
  destruct (select_one soup JSON_LD_SELECTOR) as [json_ld|] eqn:Hsel; [|by left].
  destruct (loads json_loads (tag_string json_ld)) as [v|e] eqn:Hloads.
  - destruct v; try done; by left.
  - intros _. destruct (json_or_key_error e) eqn:He; [by left|].
    right. exists e. by apply (block_failure_escapes soup json_ld).
Qed.

Lemma get_album_body_omits (soup : Tag) (url : string) :
  no_object json_loads soup ->
  wp (get_album_body json_loads soup)
     (fun _ st' => record st' !! "num_tracks" = None /\ record st' !! "tracks" = None)
     (fun _ _ => False) {| record := {[ "url" := VStr url ]}; warnings := [] |}.
Proof.
  intros Hno. unfold get_album_body. rewrite wp_bind.
  apply json_ld_block_skipped; [exact Hno|]. intros w. simpl.
  eapply wp_mono;
    [| |apply wp_and; [apply (album_html_unbound soup "num_tracks")
                      |apply (album_html_unbound soup "tracks")]]; try done.
  by intros e st' [[] _].
Qed.

End AlbumNumericFields.

(** C6, as amended. When the structured-data block of an album page
    parses to an object, a record returned by [get_album] has
    [num_tracks], bound to the [numTracks] of the object or to 0 without
    one, and a [tracks] list with one entry for each track element, whose
    [position] is the one of the element or 0 without one. When the page
    gives no such object, a record returned by [get_album] has neither
    [num_tracks] nor [tracks]. Both kinds of record occur: the record is
    returned on well-formed data, and on a page whose block is absent or
    passed over. *)
Theorem album_numeric_fields {Tag : Type} {bs4 : Bs4 Tag}
    (json_loads : string -> result value)
    (net : Network) (self : BandcampClient) (url html : string) :
  _fetch net self url = Ok html ->
  (forall json_ld s data,
     select_one (BeautifulSoup html) JSON_LD_SELECTOR = Some json_ld ->
     tag_string json_ld = Some s ->
     json_loads s = Ok (VDict data) ->
     (forall album, get_album json_loads net self url = Ok album -> tracks_listed data album)
     /\ (well_formed_album data = true ->
         exists album, get_album json_loads net self url = Ok album
                       /\ tracks_listed data album))
  /\ (block_object json_loads (BeautifulSoup html) = None ->
      forall album, get_album json_loads net self url = Ok album ->
                    album !! "num_tracks" = None /\ album !! "tracks" = None)
  /\ (no_object json_loads (BeautifulSoup html) ->
      exists album, get_album json_loads net self url = Ok album
                    /\ album !! "num_tracks" = None /\ album !! "tracks" = None).
Proof.
  intros Hfetch. unfold get_album. rewrite Hfetch. simpl rbind.
  assert (no_object json_loads (BeautifulSoup html) ->
          exists album, get_album_soup json_loads (BeautifulSoup html) url = Ok album
                        /\ album !! "num_tracks" = None /\ album !! "tracks" = None)
    as Hskipped.
  { intros Hno. apply run_completes. by apply get_album_body_omits. }
  split; [|split].
  - intros json_ld s data Hsel Hstr Hjson.
    pose proof (get_album_body_listed json_loads _ _ _ _
                  {| record := {[ "url" := VStr url ]}; warnings := [] |}
                  Hsel Hstr Hjson) as Hwp.
    split.
    + intros album. apply (run_returns _ _ (tracks_listed data)).
      eapply wp_mono; [| |exact Hwp]; done.
    + intros Hwf. apply run_completes.
      eapply wp_mono; [| |exact Hwp]; [done|].
      intros e st' Hbad. simpl in Hbad. congruence.
  - intros Hnone album Halbum.
    destruct (block_object_none json_loads (BeautifulSoup html) url Hnone)
      as [Hno|(e & Hraise & _)].
    + destruct (Hskipped Hno) as (album' & Hsame & Hfields).
      rewrite Halbum in Hsame. by injection Hsame as <-.
    + rewrite Halbum in Hraise. discriminate.
  - exact Hskipped.
Qed.

(** On a page without a structured-data block the record of [get_album]
    has neither [num_tracks] nor [tracks]. *)
Lemma album_numeric_fields_counterexample :
  get_album (bs4 := Pages.bs4) Pages.loads
    (Dom.serve Pages.album_url Pages.plain_html) default_client Pages.album_url
  = Ok Pages.plain_album
  /\ Pages.plain_album !! "num_tracks" = None
  /\ Pages.plain_album !! "tracks" = None.
Proof. repeat split; vm_compute; reflexivity. Qed.

Lemma album_numeric_fields_witness :
  (exists album,
     get_album (bs4 := Pages.bs4) Pages.loads
       (Dom.serve Pages.album_url Pages.full_html) default_client Pages.album_url = Ok album
     /\ tracks_listed Pages.full_dict album)
  /\ (Pages.plain_album !! "num_tracks" = None /\ Pages.plain_album !! "tracks" = None)
  /\ (exists album,
     get_album (bs4 := Pages.bs4) Pages.loads
       (Dom.serve Pages.album_url Pages.malformed_html) default_client Pages.album_url
     = Ok album
     /\ album !! "num_tracks" = None /\ album !! "tracks" = None).
Proof.
  split; [|split].
  - destruct (album_numeric_fields (bs4 := Pages.bs4) Pages.loads
                (Dom.serve Pages.album_url Pages.full_html) default_client
                Pages.album_url Pages.full_html eq_refl) as [Hobject _].
    destruct (Hobject ([Dom.document [Pages.ld_node Pages.full_json]],
                       Pages.ld_node Pages.full_json)
                Pages.full_json Pages.full_dict) as [_ Hreturns].
    + vm_compute. reflexivity.
    + reflexivity.
    + vm_compute. reflexivity.
    + apply Hreturns. vm_compute. reflexivity.
  - destruct (album_numeric_fields (bs4 := Pages.bs4) Pages.loads
                (Dom.serve Pages.album_url Pages.plain_html) default_client
                Pages.album_url Pages.plain_html eq_refl) as (_ & Hnone & _).
    apply Hnone; vm_compute; reflexivity.
  - destruct (album_numeric_fields (bs4 := Pages.bs4) Pages.loads
                (Dom.serve Pages.album_url Pages.malformed_html) default_client
                Pages.album_url Pages.malformed_html eq_refl) as (_ & _ & Hskipped).
    apply Hskipped. vm_compute. reflexivity.
Defined.

(** ** Malformed nested objects *)

Section NestedObjects.
Context {Tag : Type} {bs4 : Bs4 Tag}.
Variable json_loads : string -> result value.

(** A [byArtist] that is not an object makes both methods raise
    [AttributeError], which their [except] clause does not catch. *)
Lemma by_artist_not_object (soup json_ld : Tag) (s url : string) (data : dict) :
  select_one soup JSON_LD_SELECTOR = Some json_ld ->
  tag_string json_ld = Some s ->
  json_loads s = Ok (VDict data) ->
  is_dict (get data "byArtist" (VDict ∅)) = false ->
  get_album_soup json_loads soup url = Raise AttributeError
  /\ get_track_soup json_loads soup url = Raise AttributeError.
Proof.
  intros Hsel Hstr Hjson Hartist.
  unfold get_album_soup, get_track_soup, run, get_album_body, get_track_body,
    json_ld_block.
  rewrite Hsel. unfold mbind, M_bind, try_except, lift, loads.
  rewrite Hstr, Hjson. unfold album_json_ld, track_json_ld, mbind, M_bind, lift.
  simpl. by destruct (get data "byArtist" (VDict ∅)).
Qed.

End NestedObjects.

(** C1, at the failing inputs. On an album page whose block is
    [{"name": "Dawn", "byArtist": "Foo"}], [get_album] raises
    [AttributeError] and the tool answers with the error text; on a track
    page whose block is [{"name": "One", "inAlbum": "Dawn"}], [get_track]
    raises [AttributeError]. No record is returned. *)
Theorem nested_object_failure_escapes :
  get_album (bs4 := Pages.bs4) Pages.loads
    (Dom.serve Pages.album_url Pages.bad_artist_html) default_client Pages.album_url
  = Raise AttributeError
  /\ get_track (bs4 := Pages.bs4) Pages.loads
       (Dom.serve Pages.track_url Pages.bad_in_album_html) default_client Pages.track_url
     = Raise AttributeError
  /\ Server.call_tool_get_album Pages.no_repr (bs4 := Pages.bs4) Pages.loads
       (Dom.serve Pages.album_url Pages.bad_artist_html) default_client
       {[ "url" := VStr Pages.album_url ]}
     = Server.ErrorContent AttributeError.
Proof. repeat split; vm_compute; reflexivity. Qed.

(** ** Long texts *)

Section LongTexts.
Variable repr : value -> string.

(** The four texts shown through [long_text]: at most [limit]
    characters, then the marker when the text was longer. *)
Lemma long_text_shown (record : dict) (k heading : string) (limit : nat) (s : string)
    (lines : list string) :
  record !! k = Some (VStr s) -> s <> "" ->
  Server.long_text repr record k heading limit lines
  = Ok (lines ++ [Server.newline +:+ heading +:+ ":" +:+ Server.newline
                  +:+ str_take limit s
                  +:+ (if (limit <? String.length s)%nat then "..." else "")])%list.
Proof.
  intros Hk Hs.
  unfold Server.long_text, Server.if_field, Server.given, Server.append, get_none, get.
  rewrite Hk. simpl.
  destruct (String.eqb_spec s ""); [done|]. simpl.
  do 6 f_equal.
  destruct (Nat.ltb_spec limit (String.length s)) as [Hlt|Hge].
  - by rewrite (proj2 (Z.ltb_lt _ _)) by lia.
  - by rewrite (proj2 (Z.ltb_ge _ _)) by lia.
Qed.

(** The description of a track: at most 500 characters, and nothing
    after them. *)
Lemma description_text_shown (track : dict) (s : string) (lines : list string) :
  track !! "description" = Some (VStr s) -> s <> "" ->
  Server.description_text repr track lines
  = Ok (lines ++ [Server.newline +:+ "Description:" +:+ Server.newline
                  +:+ str_take 500 s])%list.
Proof.
  intros Hk Hs.
  unfold Server.description_text, Server.if_field, Server.given, Server.append,
    get_none, get.
  rewrite Hk. simpl.
  by destruct (String.eqb_spec s "").
Qed.

End LongTexts.

(** C5, at the failing input. A description of 501 characters is shown
    as its first 500 characters with no marker after them, while lyrics of
    1001 characters are shown as the first 1000 and the marker, and a bio
    of 900 characters as the first 800 and the marker; the records keep
    the whole texts. *)
Theorem description_truncated_without_marker :
  Server.description_text Pages.no_repr Pages.long_description []
  = Ok [Server.newline +:+ "Description:" +:+ Server.newline +:+ Pages.fill 500 "x"]
  /\ Server.long_text Pages.no_repr Pages.long_lyrics "lyrics" "Lyrics" 1000 []
     = Ok [Server.newline +:+ "Lyrics:" +:+ Server.newline +:+ Pages.fill 1000 "x" +:+ "..."]
  /\ Server.long_text Pages.no_repr Pages.long_bio "bio" "Bio" 800 []
     = Ok [Server.newline +:+ "Bio:" +:+ Server.newline +:+ Pages.fill 800 "x" +:+ "..."]
  /\ Pages.long_description !! "description" = Some (VStr (Pages.fill 501 "x"))
  /\ Pages.long_bio !! "bio" = Some (VStr (Pages.fill 900 "x")).
Proof. repeat split; vm_compute; reflexivity. Qed.

(** * Further properties of the code *)

(** ** The tool list and the dispatch of [call_tool] *)

Section Dispatch.
Context {Tag : Type} {bs4 : Bs4 Tag}.
Variable repr : value -> string.
Variable title_case : string -> string.
Variable json_loads : string -> result value.
Variable urljoin : string -> string -> result string.
Variable net : Network.

#[local] Abbreviation call := (Tools.call_tool repr title_case json_loads urljoin net).

(** X1. A name is dispatched to the client exactly when [list_tools] lists
    it: before the client is initialised a listed tool answers with the
    error of the missing client, whatever the arguments, and a name that
    is not listed gets the text [Unknown tool: <name>], whatever the
    client. *)
Theorem listed_tools_are_dispatched (name : string) (arguments : dict) :
  (name ∈ tool_names -> call None name arguments = Server.ErrorContent AttributeError)
  /\ (name ∉ tool_names ->
      forall client, call client name arguments
                     = Server.TextContent ("Unknown tool: " +:+ name)).
Proof.
  split.
  - intros Hn. unfold tool_names in Hn. simpl in Hn.
    repeat (apply elem_of_cons in Hn as [->|Hn]; [reflexivity|]).
    by apply elem_of_nil in Hn.
  - intros Hn client. unfold Tools.call_tool.
    repeat match goal with
    | |- context [String.eqb name ?s] =>
        destruct (String.eqb_spec name s) as [->|_];
        [exfalso; apply Hn; vm_compute; set_solver|]
    end.
    reflexivity.
Qed.

(** X2. A tool called without a key its schema requires answers with the
    error of the missing key, whatever the other arguments and without
    a request to the network. *)
Theorem required_argument_missing (tool : Tools.Tool) (key : string)
    (self : BandcampClient) (arguments : dict) :
  tool ∈ Tools.list_tools -> key ∈ required_keys tool -> arguments !! key = None ->
  call (Some self) (Tools.name tool) arguments = Server.ErrorContent KeyError.
Proof.
  intros Ht Hk Ha. unfold Tools.list_tools in Ht.
  apply elem_of_cons in Ht as [->|Ht].
  { change (key ∈ ["query"]) in Hk. apply list_elem_of_singleton in Hk. subst key.
    unfold Tools.call_tool. simpl. unfold getitem. by rewrite Ha. }
  apply elem_of_cons in Ht as [->|Ht].
  { change (key ∈ ["url"]) in Hk. apply list_elem_of_singleton in Hk. subst key.
    unfold Tools.call_tool. simpl.
    unfold Server.call_tool_get_album, Server.url_argument, getitem. by rewrite Ha. }
  apply elem_of_cons in Ht as [->|Ht].
  { change (key ∈ ["url"]) in Hk. apply list_elem_of_singleton in Hk. subst key.
    unfold Tools.call_tool. simpl.
    unfold Server.call_tool_get_artist, Server.url_argument, getitem. by rewrite Ha. }
  apply elem_of_cons in Ht as [->|Ht].
  { change (key ∈ ["url"]) in Hk. apply list_elem_of_singleton in Hk. subst key.
    unfold Tools.call_tool. simpl.
    unfold Server.call_tool_get_track, Server.url_argument, getitem. by rewrite Ha. }
  apply elem_of_cons in Ht as [->|Ht].
  { change (key ∈ ["tag"]) in Hk. apply list_elem_of_singleton in Hk. subst key.
    unfold Tools.call_tool. simpl. unfold getitem. by rewrite Ha. }
  apply elem_of_cons in Ht as [->|Ht].
  { change (key ∈ []) in Hk. by apply elem_of_nil in Hk. }
  by apply elem_of_nil in Ht.
Qed.

End Dispatch.

(** ** Arguments that are valid against the schema *)

Lemma has_type_string (v : value) :
  has_type (VStr "string") v = true -> exists s, v = VStr s.
Proof. destruct v; try discriminate. by eexists. Qed.

Lemma has_type_integer (v : value) :
  has_type (VStr "integer") v = true -> exists z, v = VInt z.
Proof. destruct v; try discriminate. by eexists. Qed.

(** Membership in a list that computes to a list of literals. *)
Ltac in_literal_list :=
  apply list_elem_of_In; vm_compute; repeat (first [left; reflexivity | right]).

Lemma valid_string (tool : Tools.Tool) (arguments : dict) (key d : string) :
  valid_arguments tool arguments ->
  (key, VStr "string") ∈ declared_types tool ->
  exists s, get arguments key (VStr d) = VStr s.
Proof.
  intros [_ Htypes] Hk. unfold get.
  destruct (arguments !! key) as [v|] eqn:Hv; [|by eexists].
  apply has_type_string. by apply (Htypes key _ v Hk).
Qed.

Lemma valid_integer (tool : Tools.Tool) (arguments : dict) (key : string) (d : Z) :
  valid_arguments tool arguments ->
  (key, VStr "integer") ∈ declared_types tool ->
  exists z, get arguments key (VInt d) = VInt z.
Proof.
  intros [_ Htypes] Hk. unfold get.
  destruct (arguments !! key) as [v|] eqn:Hv; [|by eexists].
  apply has_type_integer. by apply (Htypes key _ v Hk).
Qed.

Lemma valid_required_string (tool : Tools.Tool) (arguments : dict) (key : string) :
  valid_arguments tool arguments ->
  key ∈ required_keys tool ->
  (key, VStr "string") ∈ declared_types tool ->
  exists s, arguments !! key = Some (VStr s).
Proof.
  intros [Hreq Htypes] Hr Hk.
  destruct (Hreq key Hr) as [v Hv].
  destruct (has_type_string v (Htypes key _ v Hk Hv)) as [s ->]. by exists s.
Qed.

(** On arguments of the annotated types the listing methods as
    [call_tool] calls them are the methods of the client. *)
Section Typed.
Context {Tag : Type} {bs4 : Bs4 Tag}.
Variable repr : value -> string.
Variable net : Network.
Variable self : BandcampClient.

Lemma search_any_typed (query item_type : string) (page : Z) :
  Tools.search_any repr net self (VStr query) (VStr item_type) (VInt page)
  = search net self query item_type page.
Proof. reflexivity. Qed.

Lemma get_tag_page_any_typed (tag sort : string) (page : Z) :
  Tools.get_tag_page_any repr net self (VStr tag) (VStr sort) (VInt page)
  = get_tag_page net self tag sort page.
Proof. reflexivity. Qed.

Lemma discover_any_typed (genre subgenre sort format : string) (location : Z) :
  Tools.discover_any repr net self (VStr genre) (VStr subgenre) (VStr sort) (VStr format)
    (VInt location)
  = discover net self genre subgenre sort format location.
Proof.
  unfold Tools.discover_any, discover, Tools.discover_url_any, discover_url,
    Tools.discover_params_any, discover_params, Tools.quoted_param, Tools.quote_plus_any,
    Tools.differs_from, nonempty.
  simpl.
  destruct (String.eqb genre ""), (String.eqb subgenre ""), (String.eqb sort ""),
    (String.eqb format "all"), (location =? 0); reflexivity.
Qed.

End Typed.

Lemma valid_call_of_valid_arguments (tool : Tools.Tool) (arguments : dict) :
  tool ∈ Tools.list_tools -> valid_arguments tool arguments ->
  valid_call arguments (Tools.name tool).
Proof.
  intros Ht Hv. unfold Tools.list_tools in Ht.
  repeat (apply elem_of_cons in Ht as [->|Ht]); [..|by apply elem_of_nil in Ht].
  - destruct (valid_required_string _ _ "query" Hv) as [q Hq]; [in_literal_list..|].
    destruct (valid_string _ _ "item_type" "all" Hv) as [t Ht]; [in_literal_list|].
    destruct (valid_integer _ _ "page" 1 Hv) as [p Hp]; [in_literal_list|].
    by apply (search_call _ q t p).
  - destruct (valid_required_string _ _ "url" Hv) as [u Hu]; [in_literal_list..|].
    by apply (album_call _ u).
  - destruct (valid_required_string _ _ "url" Hv) as [u Hu]; [in_literal_list..|].
    by apply (artist_call _ u).
  - destruct (valid_required_string _ _ "url" Hv) as [u Hu]; [in_literal_list..|].
    by apply (track_call _ u).
  - destruct (valid_required_string _ _ "tag" Hv) as [t Htag]; [in_literal_list..|].
    destruct (valid_string _ _ "sort" "pop" Hv) as [o Ho]; [in_literal_list|].
    destruct (valid_integer _ _ "page" 1 Hv) as [p Hp]; [in_literal_list|].
    by apply (tag_call _ t o p).
  - destruct (valid_string _ _ "genre" "" Hv) as [g Hg]; [in_literal_list|].
    destruct (valid_string _ _ "subgenre" "" Hv) as [sg Hsg]; [in_literal_list|].
    destruct (valid_string _ _ "sort" "top" Hv) as [o Ho]; [in_literal_list|].
    destruct (valid_string _ _ "format" "all" Hv) as [f Hf]; [in_literal_list|].
    by apply (discover_call _ g sg o f).
Qed.

Section ValidCalls.
Context {Tag : Type} {bs4 : Bs4 Tag}.
Variable repr : value -> string.
Variable title_case : string -> string.
Variable json_loads : string -> result value.
Variable urljoin : string -> string -> result string.
Variable net : Network.
Variable self : BandcampClient.

#[local] Abbreviation call := (Tools.call_tool repr title_case json_loads urljoin net).

Lemma call_search (arguments : dict) (query item_type : string) (page : Z) :
  arguments !! "query" = Some (VStr query) ->
  get arguments "item_type" (VStr "all") = VStr item_type ->
  get arguments "page" (VInt 1) = VInt page ->
  call (Some self) "bandcamp_search" arguments
  = Tools.respond_text (rbind (search net self query item_type page)
                          (Tools.search_text repr title_case)).
Proof.
  intros Hq Ht Hp. unfold Tools.call_tool. simpl. unfold getitem.
  by rewrite Hq, Ht, Hp.
Qed.

Lemma call_browse_tag (arguments : dict) (tag sort : string) (page : Z) :
  arguments !! "tag" = Some (VStr tag) ->
  get arguments "sort" (VStr "pop") = VStr sort ->
  get arguments "page" (VInt 1) = VInt page ->
  call (Some self) "bandcamp_browse_tag" arguments
  = Tools.respond_text (rbind (get_tag_page net self tag sort page)
                          (Tools.tag_text repr arguments)).
Proof.
  intros Hq Ht Hp. unfold Tools.call_tool. simpl. unfold getitem.
  by rewrite Hq, Ht, Hp.
Qed.

Lemma call_discover (arguments : dict) (genre subgenre sort format : string) :
  get arguments "genre" (VStr "") = VStr genre ->
  get arguments "subgenre" (VStr "") = VStr subgenre ->
  get arguments "sort" (VStr "top") = VStr sort ->
  get arguments "format" (VStr "all") = VStr format ->
  call (Some self) "bandcamp_discover" arguments
  = Tools.respond_text (rbind (discover net self genre subgenre sort format 0)
                          (Tools.discover_text repr)).
Proof.
  intros Hg Hs Ho Hf. unfold Tools.call_tool. simpl.
  by rewrite Hg, Hs, Ho, Hf, discover_any_typed.
Qed.

Lemma call_url (arguments : dict) (url : string) :
  arguments !! "url" = Some (VStr url) ->
  call (Some self) "bandcamp_get_album" arguments
  = Server.respond (rbind (get_album json_loads net self url)
                      (fun album => Server.format_album repr album []))
  /\ call (Some self) "bandcamp_get_artist" arguments
     = Server.respond (rbind (get_artist urljoin net self url)
                         (fun artist => Server.format_artist repr artist []))
  /\ call (Some self) "bandcamp_get_track" arguments
     = Server.respond (rbind (get_track json_loads net self url)
                         (fun track => Server.format_track repr track [])).
Proof.
  intros Hu. unfold Tools.call_tool. simpl.
  unfold Server.call_tool_get_album, Server.call_tool_get_artist,
    Server.call_tool_get_track, Server.url_argument, getitem.
  by rewrite Hu.
Qed.

(** X3. A failed request ends every tool: called with arguments that are
    valid against its schema, on a network where the request fails, a
    listed tool answers with the error of the request. *)
Theorem failed_request_is_reported (tool : Tools.Tool) (arguments : dict) :
  tool ∈ Tools.list_tools -> valid_arguments tool arguments -> unreachable net ->
  call (Some self) (Tools.name tool) arguments = Server.ErrorContent HTTPError.
Proof.
  intros Ht Hv Hnet.
  assert (forall url, _fetch net self url = Raise HTTPError) as Hfetch.
  { intros url. unfold _fetch. by rewrite Hnet. }
  destruct (valid_call_of_valid_arguments tool arguments Ht Hv)
    as [q t p Hq Hty Hp|u Hu|u Hu|u Hu|t o p Htag Ho Hp|g sg o f Hg Hsg Ho Hf].
  - rewrite (call_search _ _ _ _ Hq Hty Hp). unfold search. by rewrite Hfetch.
  - rewrite (proj1 (call_url _ _ Hu)). unfold get_album. by rewrite Hfetch.
  - rewrite (proj1 (proj2 (call_url _ _ Hu))). unfold get_artist. by rewrite Hfetch.
  - rewrite (proj2 (proj2 (call_url _ _ Hu))). unfold get_track. by rewrite Hfetch.
  - rewrite (call_browse_tag _ _ _ _ Htag Ho Hp). unfold get_tag_page. by rewrite Hfetch.
  - rewrite (call_discover _ _ _ _ _ Hg Hsg Ho Hf). unfold discover. by rewrite Hfetch.
Qed.

End ValidCalls.

(** ** Branches that cannot raise *)

Lemma succeeds_append (line : string) : succeeds (Server.append line).
Proof. intros lines. by exists [line]. Qed.

Lemma succeeds_skip : succeeds Server.skip.
Proof. intros lines. exists []. unfold Server.skip. by rewrite app_nil_r. Qed.

Lemma succeeds_andthen (a b : Server.Fmt) :
  succeeds a -> succeeds b -> succeeds (Server.andthen a b).
Proof.
  intros Ha Hb lines. unfold Server.andthen.
  destruct (Ha lines) as [m1 ->]. simpl.
  destruct (Hb (lines ++ m1)%list) as [m2 ->].
  exists (m1 ++ m2)%list. by rewrite app_assoc.
Qed.

Lemma succeeds_given {A} (r : result A) (k : A -> Server.Fmt) (a : A) :
  r = Ok a -> succeeds (k a) -> succeeds (Server.given r k).
Proof. intros -> Hk lines. apply Hk. Qed.

Lemma succeeds_if (c : bool) (a b : Server.Fmt) :
  succeeds a -> succeeds b -> succeeds (if c then a else b).
Proof. by destruct c. Qed.

Lemma succeeds_for_lines {A} (l : list A) (body : A -> Server.Fmt) :
  (forall x, x ∈ l -> succeeds (body x)) -> succeeds (Server.for_lines l body).
Proof.
  induction l as [|x l IH]; intros Hb; simpl.
  - apply succeeds_skip.
  - apply succeeds_andthen.
    + apply Hb. by left.
    + apply IH. intros y Hy. apply Hb. by right.
Qed.

Lemma succeeds_if_field (record : dict) (k : string) (body : value -> Server.Fmt) :
  (truthy (get_none record k) = true -> succeeds (body (get_none record k))) ->
  succeeds (Server.if_field record k body).
Proof.
  intros Hb. unfold Server.if_field.
  destruct (truthy (get_none record k)); [by apply Hb | apply succeeds_skip].
Qed.

Lemma all_str_texts (l : list string) : Server.all_str (VStr <$> l) = Ok l.
Proof.
  induction l as [|s l IH]; [done|].
  change (rbind (Server.all_str (VStr <$> l)) (fun r => Ok (s :: r)) = Ok (s :: l)).
  by rewrite IH.
Qed.

Lemma join_value_texts (sep : string) (l : list string) :
  Server.join_value sep (VList (VStr <$> l)) = Ok (join sep l).
Proof. unfold Server.join_value. simpl. by rewrite all_str_texts. Qed.

(** The steps of a branch, one rule each. *)
Ltac succeeds_step :=
  lazymatch goal with
  | |- succeeds (Server.andthen _ _) => apply succeeds_andthen
  | |- succeeds (Server.append _) => apply succeeds_append
  | |- succeeds Server.skip => apply succeeds_skip
  | |- succeeds (if _ then _ else _) => apply succeeds_if
  | |- succeeds (Server.given (call_get (VDict _) _ _) _) =>
      eapply succeeds_given; [reflexivity|]
  | |- succeeds (Server.given (iterate (VList _)) _) =>
      eapply succeeds_given; [reflexivity|]
  | |- succeeds (Server.given (len (VList _)) _) =>
      eapply succeeds_given; [reflexivity|]
  | |- succeeds (Server.given (slice_to _ (VList _)) _) =>
      eapply succeeds_given; [reflexivity|]
  | |- succeeds (Server.given (slice_to _ (VStr _)) _) =>
      eapply succeeds_given; [reflexivity|]
  | |- succeeds (Server.given (len (VStr _)) _) =>
      eapply succeeds_given; [reflexivity|]
  end.

Section Branches.
Context {Tag : Type} {bs4 : Bs4 Tag}.
Variable repr : value -> string.
Variable title_case : string -> string.

(** The lines of an album of a tag page or of the discovery page can be
    made of any entry, the lines of a release or of a link likewise. *)
Lemma tag_album_lines_succeeds (entry : dict) :
  succeeds (Tools.tag_album_lines repr (VDict entry)).
Proof. unfold Tools.tag_album_lines. repeat succeeds_step. Qed.

Lemma discover_album_lines_succeeds (entry : dict) :
  succeeds (Tools.discover_album_lines repr (VDict entry)).
Proof. unfold Tools.discover_album_lines. repeat succeeds_step. Qed.

Lemma release_lines_succeeds (entry : dict) :
  succeeds (Server.release_lines repr (VDict entry)).
Proof. unfold Server.release_lines. repeat succeeds_step. Qed.

Lemma link_line_succeeds (entry : dict) :
  succeeds (Server.link_line repr (VDict entry)).
Proof. unfold Server.link_line. repeat succeeds_step. Qed.

(** The lines of a search result need a text as type and texts as tags. *)
Lemma search_item_lines_succeeds (entry : dict) (type : string) (tags : list string) :
  entry !! "type" = Some (VStr type) ->
  entry !! "tags" = Some (VList (VStr <$> tags)) ->
  succeeds (Tools.search_item_lines repr title_case (VDict entry)).
Proof.
  intros Htype Htags. unfold Tools.search_item_lines.
  eapply succeeds_given; [reflexivity|].
  unfold get at 1. rewrite Htype.
  eapply succeeds_given; [reflexivity|].
  repeat succeeds_step.
  unfold get. rewrite Htags.
  eapply succeeds_given; [reflexivity|]. rewrite <- fmap_take.
  eapply succeeds_given; [apply join_value_texts|]. apply succeeds_append.
Qed.

Lemma search_result_type_and_tags (item : Tag) :
  exists type tags,
    search_result item !! "type" = Some (VStr type)
    /\ search_result item !! "tags" = Some (VList (VStr <$> tags)).
Proof.
  exists (match select_one item ".itemtype" with
          | Some result_type => lower (get_text result_type)
          | None => "unknown"
          end), (get_text <$> select item ".tag").
  unfold search_result, set_if_found. cbv zeta.
  split.
  - destruct (select_one item ".heading a"), (select_one item ".subhead"),
      (select_one item ".art img"), (select_one item ".released"),
      (select_one item ".genre");
      repeat (rewrite lookup_insert_ne by discriminate); apply lookup_insert_eq.
  - destruct (select_one item ".released"), (select_one item ".genre");
      repeat (rewrite lookup_insert_ne by discriminate); apply lookup_insert_eq.
Qed.

Lemma listed_entry_built {A} (build : A -> dict) (items : list A) (entry : dict) :
  entry ∈ List.filter has_title (build <$> items) -> exists item, entry = build item.
Proof.
  intros Hin. apply list_elem_of_In, filter_In in Hin as [Hin _].
  apply list_elem_of_In, list_elem_of_fmap in Hin as (item & -> & _). by exists item.
Qed.

End Branches.

Section ListingTexts.
Context {Tag : Type} {bs4 : Bs4 Tag}.
Variable repr : value -> string.
Variable title_case : string -> string.
Variable urljoin : string -> string -> result string.

Lemma truthy_entries (entries : list dict) :
  truthy (VList (VDict <$> entries)) = match entries with [] => false | _ => true end.
Proof. by destruct entries. Qed.

(** The text of a search: the fixed text without results, a text
    otherwise. *)
Lemma search_text_of_page (soup : Tag) (page : Z) :
  exists text,
    Tools.search_text repr title_case (search_soup soup page) = Ok text
    /\ (search_results soup = [] -> text = "No results found.").
Proof.
  unfold Tools.search_text, search_soup. cbv zeta.
  unfold get at 1 2 3. rewrite lookup_insert_eq.
  rewrite lookup_insert_ne by done. rewrite lookup_insert_eq.
  rewrite truthy_entries.
  destruct (search_results soup) as [|e l] eqn:Hr; [by eexists|].
  simpl negb. cbv iota. simpl len. simpl call_get. cbn [rbind].
  rewrite <- Hr.
  edestruct (succeeds_given (iterate (VList (VDict <$> search_results soup)))
               (fun l => Server.for_lines l (Tools.search_item_lines repr title_case)))
    as [more Hmore]; [reflexivity| |].
  - apply succeeds_for_lines. intros x Hx.
    apply list_elem_of_fmap in Hx as (entry & -> & Hentry).
    unfold search_results in Hentry.
    rewrite (listing_loop search_result _ []) in Hentry.
    destruct (listed_entry_built _ _ _ Hentry) as [item ->].
    destruct (search_result_type_and_tags item) as (type & tags & Htype & Htags).
    by apply (search_item_lines_succeeds repr title_case _ type tags).
  - rewrite Hmore. simpl. eexists. split; [reflexivity|]. by rewrite Hr.
Qed.

Lemma tag_text_of_page (arguments : dict) (soup : Tag) (tag sort : string) (page : Z) :
  arguments !! "tag" = Some (VStr tag) ->
  exists text,
    Tools.tag_text repr arguments (get_tag_page_soup soup tag sort page) = Ok text
    /\ (tag_albums soup = [] -> text = "No albums found for tag '" +:+ tag +:+ "'.").
Proof.
  intros Htag.
  assert (get_tag_page_soup soup tag sort page !! "albums"
          = Some (VList (VDict <$> tag_albums soup))) as Ha.
  { unfold get_tag_page_soup. repeat (rewrite lookup_insert_ne by done).
    apply lookup_insert_eq. }
  assert (get_tag_page_soup soup tag sort page !! "tag" = Some (VStr tag)) as Ht
    by apply lookup_insert_eq.
  assert (get_tag_page_soup soup tag sort page !! "sort" = Some (VStr sort)) as Hs.
  { unfold get_tag_page_soup. rewrite lookup_insert_ne by done. apply lookup_insert_eq. }
  assert (get_tag_page_soup soup tag sort page !! "page" = Some (VInt page)) as Hp.
  { unfold get_tag_page_soup. repeat (rewrite lookup_insert_ne by done).
    apply lookup_insert_eq. }
  unfold Tools.tag_text, getitem, get. rewrite Ha, Ht, Hs, Hp, Htag, truthy_entries.
  destruct (tag_albums soup) as [|e l] eqn:Hr; [by eexists|].
  simpl negb. cbv iota. cbn [rbind]. simpl len. cbn [rbind].
  edestruct (succeeds_given (iterate (VList (VDict <$> (e :: l))))
               (fun l => Server.for_lines l (Tools.tag_album_lines repr)))
    as [more Hmore]; [reflexivity| |].
  - apply succeeds_for_lines. intros x Hx.
    apply list_elem_of_fmap in Hx as (entry & -> & _).
    apply tag_album_lines_succeeds.
  - rewrite Hmore. simpl. eexists. by split.
Qed.

Lemma discover_text_of_page (soup : Tag) (genre subgenre sort : string) :
  exists text,
    Tools.discover_text repr (discover_soup soup genre subgenre sort) = Ok text
    /\ (discover_albums soup = [] -> text = "No albums found in discovery.").
Proof.
  assert (discover_soup soup genre subgenre sort !! "albums"
          = Some (VList (VDict <$> discover_albums soup))) as Ha.
  { unfold discover_soup. repeat (rewrite lookup_insert_ne by done).
    apply lookup_insert_eq. }
  assert (discover_soup soup genre subgenre sort !! "sort" = Some (VStr sort)) as Hs.
  { unfold discover_soup. repeat (rewrite lookup_insert_ne by done).
    apply lookup_insert_eq. }
  unfold Tools.discover_text, getitem, get. rewrite Ha, Hs, truthy_entries.
  destruct (discover_albums soup) as [|e l] eqn:Hr; [by eexists|].
  simpl negb. cbv iota. cbn [rbind]. simpl len. cbn [rbind].
  edestruct (succeeds_given (iterate (VList (VDict <$> (e :: l))))
               (fun l => Server.for_lines l (Tools.discover_album_lines repr)))
    as [more Hmore]; [reflexivity| |].
  - apply succeeds_for_lines. intros x Hx.
    apply list_elem_of_fmap in Hx as (entry & -> & _).
    apply discover_album_lines_succeeds.
  - rewrite Hmore. simpl. eexists. by split.
Qed.

Lemma long_text_of_text (record : dict) (k heading : string) (limit : nat) :
  (forall v, record !! k = Some v -> exists s, v = VStr s) ->
  succeeds (Server.long_text repr record k heading limit).
Proof.
  intros Hk. unfold Server.long_text. apply succeeds_if_field. intros Ht.
  unfold get_none, get in *.
  destruct (record !! k) as [v|] eqn:Hv; [|done].
  destruct (Hk v eq_refl) as [s ->].
  repeat succeeds_step.
Qed.

(** The artist record is made of texts found in markup: its lines can
    always be made. *)
Lemma format_artist_of_page (soup : Tag) (url : string) (artist : dict) :
  get_artist_soup urljoin soup url = Ok artist ->
  succeeds (Server.format_artist repr artist).
Proof.
  unfold get_artist_soup. cbv zeta.
  destruct (discography urljoin soup url) as [releases|e]; [|done].
  cbn [rbind]. intros [= <-].
  match goal with
  | |- succeeds (Server.format_artist repr ?r) => set (record := r)
  end.
  assert (record !! "discography" = Some (VList (VDict <$> releases))) as Hd.
  { subst record. rewrite lookup_insert_ne by done. apply lookup_insert_eq. }
  assert (exists links, record !! "links" = Some (VList (VDict <$> links))) as [links Hl].
  { eexists. subst record. apply lookup_insert_eq. }
  assert (forall v, record !! "bio" = Some v -> exists s, v = VStr s) as Hb.
  { intros v. subst record. unfold set_if_found.
    do 2 (rewrite lookup_insert_ne by done).
    destruct (select_one soup ".bio-text").
    - rewrite lookup_insert_eq. intros [= <-]. by eexists.
    - destruct (select_one soup "#band-name-location .location"),
        (select_one soup "#band-name-location .title");
        repeat (rewrite lookup_insert_ne by done);
        rewrite lookup_singleton_ne by done; done. }
  clearbody record.
  unfold Server.format_artist.
  repeat apply succeeds_andthen; try apply succeeds_append.
  - apply succeeds_if_field. intros _. apply succeeds_append.
  - by apply long_text_of_text.
  - apply succeeds_if_field. intros _. unfold get_none, get. rewrite Hd.
    repeat succeeds_step.
    apply succeeds_for_lines. intros x Hx.
    apply (subseteq_take 20), list_elem_of_fmap in Hx as (entry & -> & _).
    apply release_lines_succeeds.
  - apply succeeds_if_field. intros _. unfold get_none, get. rewrite Hl.
    repeat succeeds_step.
    apply succeeds_for_lines. intros x Hx.
    apply list_elem_of_fmap in Hx as (entry & -> & _).
    apply link_line_succeeds.
Qed.

End ListingTexts.

Lemma text_argument_present (arguments : dict) (key d s : string) :
  arguments !! key = Some (VStr s) -> text_argument arguments key d = s.
Proof. intros H. unfold text_argument, get. by rewrite H. Qed.

Lemma text_argument_get (arguments : dict) (key d s : string) :
  get arguments key (VStr d) = VStr s -> text_argument arguments key d = s.
Proof. intros H. unfold text_argument. by rewrite H. Qed.

Lemma integer_argument_get (arguments : dict) (key : string) (d z : Z) :
  get arguments key (VInt d) = VInt z -> integer_argument arguments key d = z.
Proof. intros H. unfold integer_argument. by rewrite H. Qed.

Section MarkupTools.
Context {Tag : Type} {bs4 : Bs4 Tag}.
Variable repr : value -> string.
Variable title_case : string -> string.
Variable json_loads : string -> result value.
Variable urljoin : string -> string -> result string.
Variable net : Network.
Variable self : BandcampClient.

#[local] Abbreviation call := (Tools.call_tool repr title_case json_loads urljoin net).

(** X4. The search, tag and discovery tools cannot fail after the
    request: called with arguments that are valid against the schema, on
    a network that answers, they answer with a text, whatever the page.
    The artist tool answers with a text when the loop over the grid
    items ends, and with the error of [urljoin] when [urljoin] raises on
    the link of a grid item. *)
Theorem markup_tools_answer_with_text (tool : Tools.Tool) (arguments : dict) :
  tool ∈ Tools.list_tools -> Tools.name tool ∈ markup_tools ->
  valid_arguments tool arguments -> reachable net ->
  (Tools.name tool <> "bandcamp_get_artist" ->
   exists text, call (Some self) (Tools.name tool) arguments = Server.TextContent text)
  /\ (Tools.name tool = "bandcamp_get_artist" ->
      exists html,
        _fetch net self (text_argument arguments "url" "") = Ok html
        /\ match discography urljoin (BeautifulSoup html) (text_argument arguments "url" "")
           with
           | Ok _ =>
               exists text,
                 call (Some self) (Tools.name tool) arguments = Server.TextContent text
           | Raise e =>
               call (Some self) (Tools.name tool) arguments = Server.ErrorContent e
               /\ exists item,
                    In item (select (BeautifulSoup html) ".music-grid-item")
                    /\ discography_entry urljoin (text_argument arguments "url" "") item
                       = Raise e
           end).
Proof.
  intros Ht Hm Hv Hnet.
  assert (forall url, exists html, _fetch net self url = Ok html) as Hfetch.
  { intros url. unfold _fetch. destruct (Hnet (headers self) url) as [html ->]. by eexists. }
  destruct (valid_call_of_valid_arguments tool arguments Ht Hv)
    as [q t p Hq Hty Hp|u Hu|u Hu|u Hu|t o p Htag Ho Hp|g sg o f Hg Hsg Ho Hf].
  - split; [intros _|done].
    rewrite (call_search _ _ _ _ _ _ _ _ _ _ Hq Hty Hp). unfold search.
    destruct (Hfetch (search_url q t p)) as [html ->]. simpl rbind.
    destruct (search_text_of_page repr title_case (BeautifulSoup html) p) as (text & -> & _).
    by eexists.
  - exfalso. unfold markup_tools in Hm. simpl in Hm.
    repeat (apply elem_of_cons in Hm as [Hm|Hm]; [discriminate|]).
    by apply elem_of_nil in Hm.
  - split; [done|intros _].
    rewrite (proj1 (proj2 (call_url _ _ _ _ _ _ _ _ Hu))).
    rewrite (text_argument_present _ _ _ _ Hu). unfold get_artist.
    destruct (Hfetch u) as [html Hhtml]. exists html. split; [exact Hhtml|].
    rewrite Hhtml. simpl rbind.
    destruct (discography urljoin (BeautifulSoup html) u) as [releases|e] eqn:Hd.
    + destruct (get_artist_soup urljoin (BeautifulSoup html) u) as [artist|e] eqn:Ha.
      * simpl rbind.
        destruct (format_artist_of_page repr urljoin (BeautifulSoup html) u artist Ha [])
          as [more ->].
        by eexists.
      * unfold get_artist_soup in Ha. by rewrite Hd in Ha.
    + split.
      * unfold get_artist_soup. by rewrite Hd.
      * exact (fallible_listing_loop_raises _ _ _ _ Hd).
  - exfalso. unfold markup_tools in Hm. simpl in Hm.
    repeat (apply elem_of_cons in Hm as [Hm|Hm]; [discriminate|]).
    by apply elem_of_nil in Hm.
  - split; [intros _|done].
    rewrite (call_browse_tag _ _ _ _ _ _ _ _ _ _ Htag Ho Hp). unfold get_tag_page.
    destruct (Hfetch (tag_url t o p)) as [html ->]. simpl rbind.
    destruct (tag_text_of_page repr arguments (BeautifulSoup html) t o p Htag)
      as (text & -> & _).
    by eexists.
  - split; [intros _|done].
    rewrite (call_discover _ _ _ _ _ _ _ _ _ _ _ Hg Hsg Ho Hf). unfold discover.
    destruct (Hfetch (discover_url g sg o f 0)) as [html ->]. simpl rbind.
    destruct (discover_text_of_page repr (BeautifulSoup html) g sg o) as (text & -> & _).
    by eexists.
Qed.

(** X5. A listing without entries is answered with a fixed text: a search
    page, tag page or discovery page on which no block has a title gives
    [No results found.], [No albums found for tag '<tag>'.] and
    [No albums found in discovery.] *)
Theorem empty_listing_texts (tool : Tools.Tool) (arguments : dict) (html : string) :
  tool ∈ Tools.list_tools -> valid_arguments tool arguments -> serves net html ->
  (Tools.name tool = "bandcamp_search" -> search_results (BeautifulSoup html) = [] ->
     call (Some self) (Tools.name tool) arguments = Server.TextContent "No results found.")
  /\ (Tools.name tool = "bandcamp_browse_tag" -> tag_albums (BeautifulSoup html) = [] ->
      exists tag, arguments !! "tag" = Some (VStr tag)
        /\ call (Some self) (Tools.name tool) arguments
           = Server.TextContent ("No albums found for tag '" +:+ tag +:+ "'."))
  /\ (Tools.name tool = "bandcamp_discover" -> discover_albums (BeautifulSoup html) = [] ->
      call (Some self) (Tools.name tool) arguments
      = Server.TextContent "No albums found in discovery.").
Proof.
  intros Ht Hv Hnet.
  assert (forall url, _fetch net self url = Ok html) as Hfetch.
  { intros url. unfold _fetch. by rewrite Hnet. }
  destruct (valid_call_of_valid_arguments tool arguments Ht Hv)
    as [q t p Hq Hty Hp|u Hu|u Hu|u Hu|t o p Htag Ho Hp|g sg o f Hg Hsg Ho Hf];
    (split; [|split]); try discriminate.
  - intros _ Hnone. rewrite (call_search _ _ _ _ _ _ _ _ _ _ Hq Hty Hp).
    unfold search. rewrite Hfetch. simpl rbind.
    destruct (search_text_of_page repr title_case (BeautifulSoup html) p)
      as (text & -> & Htext).
    by rewrite (Htext Hnone).
  - intros _ Hnone. exists t. split; [done|].
    rewrite (call_browse_tag _ _ _ _ _ _ _ _ _ _ Htag Ho Hp).
    unfold get_tag_page. rewrite Hfetch. simpl rbind.
    destruct (tag_text_of_page repr arguments (BeautifulSoup html) t o p Htag)
      as (text & -> & Htext).
    by rewrite (Htext Hnone).
  - intros _ Hnone. rewrite (call_discover _ _ _ _ _ _ _ _ _ _ _ Hg Hsg Ho Hf).
    unfold discover. rewrite Hfetch. simpl rbind.
    destruct (discover_text_of_page repr (BeautifulSoup html) g sg o)
      as (text & -> & Htext).
    by rewrite (Htext Hnone).
Qed.

End MarkupTools.

(** Validity of literal arguments against the schema of a given tool. *)
Ltac valid_arguments_literal :=
  split;
  [ intros key Hk;
    match type of Hk with _ ∈ ?l =>
      let l' := eval vm_compute in l in change (key ∈ l') in Hk end;
    repeat (apply elem_of_cons in Hk as [->|Hk]; [by eexists|]);
    by apply elem_of_nil in Hk
  | intros key ty v Hk;
    match type of Hk with _ ∈ ?l =>
      let l' := eval vm_compute in l in change ((key, ty) ∈ l') in Hk end;
    repeat (apply elem_of_cons in Hk as [[= -> ->]|Hk];
            [first [by intros [= <-] | by intros [=]]|]);
    by apply elem_of_nil in Hk ].

(** Membership of a tool in the tool list. *)
Ltac listed_tool := unfold Tools.list_tools; repeat (first [by left | right]).

Lemma listed_tools_are_dispatched_witness :
  MorePages.tool MorePages.down None "bandcamp_search" ∅
  = Server.ErrorContent AttributeError
  /\ MorePages.tool MorePages.down (Tools.init_bandcamp_client None) "bandcamp_buy" ∅
     = Server.TextContent "Unknown tool: bandcamp_buy".
Proof.
  split.
  - apply (listed_tools_are_dispatched (bs4 := MorePages.bs4)). listed_tool.
  - apply (listed_tools_are_dispatched (bs4 := MorePages.bs4)).
    unfold tool_names. simpl. intros Hin.
    repeat (apply elem_of_cons in Hin as [Hin|Hin]; [discriminate|]).
    by apply elem_of_nil in Hin.
Defined.

Lemma required_argument_missing_witness :
  MorePages.tool (Pages.always MorePages.search_html) (Some default_client)
    "bandcamp_search" {[ "page" := VInt 2 ]}
  = Server.ErrorContent KeyError.
Proof.
  apply (required_argument_missing (bs4 := MorePages.bs4) _ _ _ _ _
           Tools.search_tool "query").
  - listed_tool.
  - vm_compute. by left.
  - reflexivity.
Defined.

Lemma failed_request_is_reported_witness :
  MorePages.tool MorePages.down (Some default_client)
    "bandcamp_get_album" {[ "url" := VStr Pages.album_url ]}
  = Server.ErrorContent HTTPError.
Proof.
  apply (failed_request_is_reported (bs4 := MorePages.bs4) _ _ _ _ _ _
           Tools.get_album_tool).
  - listed_tool.
  - valid_arguments_literal.
  - done.
Defined.

Lemma markup_tools_answer_with_text_witness :
  (exists text,
     MorePages.tool (Pages.always MorePages.search_html) (Some default_client)
       "bandcamp_search" {[ "query" := VStr "dawn" ]}
     = Server.TextContent text)
  /\ (exists text,
        MorePages.tool (Pages.always MorePages.artist_html) (Some default_client)
          "bandcamp_get_artist" {[ "url" := VStr MorePages.artist_url ]}
        = Server.TextContent text)
  /\ MorePages.tool (Pages.always MorePages.bad_link_html) (Some default_client)
       "bandcamp_get_artist" {[ "url" := VStr MorePages.artist_url ]}
     = Server.ErrorContent ValueError.
Proof.
  split; [|split].
  - apply (markup_tools_answer_with_text (bs4 := MorePages.bs4) _ _ _ _ _ _
             Tools.search_tool).
    + listed_tool.
    + unfold markup_tools. by left.
    + valid_arguments_literal.
    + intros headers url. by eexists.
    + discriminate.
  - destruct (markup_tools_answer_with_text (bs4 := MorePages.bs4) Pages.no_repr
                MorePages.ascii_title MorePages.loads Dom.urljoin
                (Pages.always MorePages.artist_html) default_client
                Tools.get_artist_tool {[ "url" := VStr MorePages.artist_url ]})
      as [_ Hartist].
    + listed_tool.
    + unfold markup_tools. right. by left.
    + valid_arguments_literal.
    + intros headers url. by eexists.
    + destruct (Hartist eq_refl) as (html & Hhtml & Hcase).
      injection Hhtml as <-.
      assert (discography (bs4 := MorePages.bs4) Dom.urljoin
                (BeautifulSoup (Bs4 := MorePages.bs4) MorePages.artist_html)
                (text_argument {[ "url" := VStr MorePages.artist_url ]} "url" "")
              = Ok [MorePages.dawn_release]) as Hd by (vm_compute; reflexivity).
      rewrite Hd in Hcase. exact Hcase.
  - destruct (markup_tools_answer_with_text (bs4 := MorePages.bs4) Pages.no_repr
                MorePages.ascii_title MorePages.loads Dom.urljoin
                (Pages.always MorePages.bad_link_html) default_client
                Tools.get_artist_tool {[ "url" := VStr MorePages.artist_url ]})
      as [_ Hartist].
    + listed_tool.
    + unfold markup_tools. right. by left.
    + valid_arguments_literal.
    + intros headers url. by eexists.
    + destruct (Hartist eq_refl) as (html & Hhtml & Hcase).
      injection Hhtml as <-.
      assert (discography (bs4 := MorePages.bs4) Dom.urljoin
                (BeautifulSoup (Bs4 := MorePages.bs4) MorePages.bad_link_html)
                (text_argument {[ "url" := VStr MorePages.artist_url ]} "url" "")
              = Raise ValueError) as Hd by (vm_compute; reflexivity).
      rewrite Hd in Hcase. exact (proj1 Hcase).
Defined.

Lemma empty_listing_texts_witness :
  MorePages.tool (Pages.always Pages.empty_html) (Some default_client)
    "bandcamp_search" {[ "query" := VStr "dawn" ]}
  = Server.TextContent "No results found."
  /\ (exists tag,
        ({[ "tag" := VStr "ambient" ]} : dict) !! "tag" = Some (VStr tag)
        /\ MorePages.tool (Pages.always Pages.empty_html) (Some default_client)
             "bandcamp_browse_tag" {[ "tag" := VStr "ambient" ]}
           = Server.TextContent ("No albums found for tag '" +:+ tag +:+ "'."))
  /\ MorePages.tool (Pages.always Pages.empty_html) (Some default_client)
       "bandcamp_discover" ∅
     = Server.TextContent "No albums found in discovery.".
Proof.
  split; [|split].
  - apply (empty_listing_texts (bs4 := MorePages.bs4) _ _ _ _ _ _
             Tools.search_tool _ Pages.empty_html);
      [listed_tool | valid_arguments_literal | done | reflexivity | reflexivity].
  - apply (empty_listing_texts (bs4 := MorePages.bs4) _ _ _ _ _ _
             Tools.browse_tag_tool _ Pages.empty_html);
      [listed_tool | valid_arguments_literal | done | reflexivity | reflexivity].
  - apply (empty_listing_texts (bs4 := MorePages.bs4) _ _ _ _ _ _
             Tools.discover_tool _ Pages.empty_html);
      [listed_tool | valid_arguments_literal | done | reflexivity | reflexivity].
Defined.

(** ** The request of a tool *)

Section Requests.
Context {Tag : Type} {bs4 : Bs4 Tag}.
Variable repr : value -> string.
Variable title_case : string -> string.
Variable json_loads : string -> result value.
Variable urljoin : string -> string -> result string.
Variable self : BandcampClient.

#[local] Abbreviation call_on net :=
  (Tools.call_tool repr title_case json_loads urljoin net (Some self)).

(** X6. A tool makes one request only, to an address fixed by its arguments:
    for arguments that are valid against the schema, two networks that
    answer this one request alike get the same answer from the tool. In
    particular the artist tool requests no page of the discography, and
    the discovery tool never sends a location. *)
Theorem tool_answer_depends_on_one_request (tool : Tools.Tool) (arguments : dict)
    (net1 net2 : Network) :
  tool ∈ Tools.list_tools -> valid_arguments tool arguments ->
  net1 (headers self) (requested_url (Tools.name tool) arguments)
  = net2 (headers self) (requested_url (Tools.name tool) arguments) ->
  call_on net1 (Tools.name tool) arguments = call_on net2 (Tools.name tool) arguments.
Proof.
  intros Ht Hv.
  destruct (valid_call_of_valid_arguments tool arguments Ht Hv)
    as [q t p Hq Hty Hp|u Hu|u Hu|u Hu|t o p Htag Ho Hp|g sg o f Hg Hsg Ho Hf];
    unfold requested_url; simpl.
  - rewrite (text_argument_present _ _ _ _ Hq), (text_argument_get _ _ _ _ Hty),
      (integer_argument_get _ _ _ _ Hp).
    intros Hnet. rewrite !(call_search _ _ _ _ _ _ _ _ _ _ Hq Hty Hp).
    unfold search, _fetch. by rewrite Hnet.
  - rewrite (text_argument_present _ _ _ _ Hu). intros Hnet.
    rewrite !(proj1 (call_url _ _ _ _ _ _ _ _ Hu)).
    unfold get_album, _fetch. by rewrite Hnet.
  - rewrite (text_argument_present _ _ _ _ Hu). intros Hnet.
    rewrite !(proj1 (proj2 (call_url _ _ _ _ _ _ _ _ Hu))).
    unfold get_artist, _fetch. by rewrite Hnet.
  - rewrite (text_argument_present _ _ _ _ Hu). intros Hnet.
    rewrite !(proj2 (proj2 (call_url _ _ _ _ _ _ _ _ Hu))).
    unfold get_track, _fetch. by rewrite Hnet.
  - rewrite (text_argument_present _ _ _ _ Htag), (text_argument_get _ _ _ _ Ho),
      (integer_argument_get _ _ _ _ Hp).
    intros Hnet. rewrite !(call_browse_tag _ _ _ _ _ _ _ _ _ _ Htag Ho Hp).
    unfold get_tag_page, _fetch. by rewrite Hnet.
  - rewrite (text_argument_get _ _ _ _ Hg), (text_argument_get _ _ _ _ Hsg),
      (text_argument_get _ _ _ _ Ho), (text_argument_get _ _ _ _ Hf).
    intros Hnet. rewrite !(call_discover _ _ _ _ _ _ _ _ _ _ _ Hg Hsg Ho Hf).
    unfold discover, _fetch. by rewrite Hnet.
Qed.

End Requests.

Lemma tool_answer_depends_on_one_request_witness :
  requested_url "bandcamp_discover" {[ "genre" := VStr "ambient" ]}
  = "https://bandcamp.com/discover?g=ambient&sort=top"
  /\ MorePages.tool (Pages.always MorePages.discover_html) (Some default_client)
       "bandcamp_discover" {[ "genre" := VStr "ambient" ]}
     = MorePages.tool
         (Dom.serve "https://bandcamp.com/discover?g=ambient&sort=top" MorePages.discover_html)
         (Some default_client) "bandcamp_discover" {[ "genre" := VStr "ambient" ]}.
Proof.
  split; [reflexivity|].
  apply (tool_answer_depends_on_one_request (bs4 := MorePages.bs4) _ _ _ _ _
           Tools.discover_tool).
  - listed_tool.
  - valid_arguments_literal.
  - reflexivity.
Defined.

(** ** The records of the markup pages *)

Lemma foldl_snoc_map {A B} (f : A -> B) (l : list A) (acc : list B) :
  foldl (fun acc x => (acc ++ [f x])%list) acc l = (acc ++ (f <$> l))%list.
Proof.
  revert acc. induction l as [|x l IH]; intros acc; simpl.
  - by rewrite app_nil_r.
  - rewrite IH. by rewrite <- app_assoc.
Qed.

Lemma filter_length_bound {A} (p : A -> bool) (l : list A) :
  (List.length (List.filter p l) <= List.length l)%nat.
Proof.
  induction l as [|x l IH]; simpl; [lia|]. destruct (p x); simpl; lia.
Qed.

Lemma lower_char_idempotent (c : ascii) : lower_char (lower_char c) = lower_char c.
Proof. destruct c as [[] [] [] [] [] [] [] []]; reflexivity. Qed.

Lemma lower_idempotent (s : string) : lower (lower s) = lower s.
Proof.
  induction s as [|c s IH]; [done|]. simpl. by rewrite lower_char_idempotent, IH.
Qed.

Section MarkupRecords.
Context {Tag : Type} {bs4 : Bs4 Tag}.
Variable urljoin : string -> string -> result string.

(** X7. A record that [get_artist] returns has [name], [location] and
    [bio] exactly when the page has the element, with its text; its
    links are the anchors of the link list, one entry each and in
    order, none dropped; its discography has at most one entry for each
    grid item. *)
Theorem artist_record (soup : Tag) (url : string) (artist : dict) :
  get_artist_soup urljoin soup url = Ok artist ->
  artist !! "name" = selected_text soup "#band-name-location .title"
  /\ artist !! "location" = selected_text soup "#band-name-location .location"
  /\ artist !! "bio" = selected_text soup ".bio-text"
  /\ artist !! "links"
     = Some (VList (VDict <$> (band_link <$> select soup "#band-links li a")))
  /\ exists releases,
       discography urljoin soup url = Ok releases
       /\ artist !! "discography" = Some (VList (VDict <$> releases))
       /\ (List.length releases <= List.length (select soup ".music-grid-item"))%nat.
Proof.
  unfold get_artist_soup, set_if_found, selected_text. cbv zeta.
  destruct (discography urljoin soup url) as [releases|e] eqn:Hd; [|done].
  cbn [rbind]. intros [= <-].
  split; [|split; [|split; [|split]]].
  - do 2 (rewrite lookup_insert_ne by done).
    destruct (select_one soup "#band-name-location .title"),
      (select_one soup "#band-name-location .location"), (select_one soup ".bio-text");
      simpl; repeat (rewrite lookup_insert_ne by done);
      first [apply lookup_insert_eq | by rewrite lookup_singleton_ne].
  - do 2 (rewrite lookup_insert_ne by done).
    destruct (select_one soup "#band-name-location .title"),
      (select_one soup "#band-name-location .location"), (select_one soup ".bio-text");
      simpl; repeat (rewrite lookup_insert_ne by done);
      first [apply lookup_insert_eq | by rewrite lookup_singleton_ne].
  - do 2 (rewrite lookup_insert_ne by done).
    destruct (select_one soup "#band-name-location .title"),
      (select_one soup "#band-name-location .location"), (select_one soup ".bio-text");
      simpl; repeat (rewrite lookup_insert_ne by done);
      first [apply lookup_insert_eq | by rewrite lookup_singleton_ne].
  - rewrite lookup_insert_eq. by rewrite (foldl_snoc_map band_link _ []).
  - exists releases. split; [done|]. split.
    + rewrite lookup_insert_ne by done. apply lookup_insert_eq.
    + destruct (fallible_listing_loop (discography_entry urljoin url) _ [] releases Hd)
        as (built & Hbuilt & ->).
      cbn [app]. etrans; [apply filter_length_bound|].
      by rewrite (Forall2_length _ _ _ Hbuilt).
Qed.

(** X8. The search record counts what it returns: [items] is the number of
    entries of [results], which is at most the number of result blocks of
    the page, and [page] is the page asked for. Every entry has a type in
    lower case and a list of texts as tags. *)
Theorem search_record (soup : Tag) (page : Z) :
  search_soup soup page !! "pagination"
  = Some (VDict (<["page" := VInt page]>
                  (<["items" := VInt (Z.of_nat (List.length (search_results soup)))]> ∅)))
  /\ search_soup soup page !! "results" = Some (VList (VDict <$> search_results soup))
  /\ (List.length (search_results soup) <= List.length (select soup ".searchresult"))%nat
  /\ (forall entry, entry ∈ search_results soup ->
        exists type tags,
          entry !! "type" = Some (VStr type) /\ lower type = type
          /\ entry !! "tags" = Some (VList (VStr <$> tags))).
Proof.
  split; [|split; [|split]].
  - unfold search_soup. cbv zeta. rewrite lookup_insert_ne by done. apply lookup_insert_eq.
  - apply lookup_insert_eq.
  - unfold search_results. rewrite (listing_loop search_result _ []). simpl.
    etrans; [apply filter_length_bound|]. by rewrite length_fmap.
  - intros entry Hin. unfold search_results in Hin.
    rewrite (listing_loop search_result _ []) in Hin.
    destruct (listed_entry_built _ _ _ Hin) as [item ->].
    exists (match select_one item ".itemtype" with
            | Some result_type => lower (get_text result_type)
            | None => "unknown"
            end), (get_text <$> select item ".tag").
    split; [|split].
    + unfold search_result, set_if_found. cbv zeta.
      destruct (select_one item ".heading a"), (select_one item ".subhead"),
        (select_one item ".art img"), (select_one item ".released"),
        (select_one item ".genre");
        repeat (rewrite lookup_insert_ne by discriminate); apply lookup_insert_eq.
    + destruct (select_one item ".itemtype"); [apply lower_idempotent | done].
    + unfold search_result, set_if_found. cbv zeta.
      destruct (select_one item ".released"), (select_one item ".genre");
        repeat (rewrite lookup_insert_ne by discriminate); apply lookup_insert_eq.
Qed.

End MarkupRecords.

(** ** The prefixes of a search result *)

Lemma prefix_append (a s : string) : String.prefix a (a +:+ s) = true.
Proof.
  induction a as [|c a IH]; [by destruct s|].
  simpl. destruct (ascii_dec c c); [exact IH | done].
Qed.

Lemma replace_go_skip (old new a s : string) :
  replace_go old new (String.length a) (a +:+ s) = replace_go old new O s.
Proof. induction a as [|c a IH]; [done|]. exact IH. Qed.

(** An occurrence at the start is replaced, and the search goes on
    behind it. *)
Lemma replace_at_start (c : ascii) (old' new s : string) :
  replace (String c old') new (String c old' +:+ s) = new +:+ replace (String c old') new s.
Proof.
  unfold replace.
  change (String c old' +:+ s) with (String c (old' +:+ s)).
  cbn [replace_go].
  change (String c (old' +:+ s)) with (String c old' +:+ s).
  rewrite prefix_append.
  replace (String.length (String c old') - 1)%nat with (String.length old')
    by (simpl; lia).
  by rewrite replace_go_skip.
Qed.

(** A text without an occurrence is left as it is. *)
Lemma replace_without_occurrence (old new s : string) :
  contains old s = false -> replace old new s = s.
Proof.
  unfold replace. induction s as [|c s IH]; [done|].
  cbn [contains replace_go]. intros [Hp Hc]%orb_false_elim.
  rewrite Hp. by rewrite IH.
Qed.

Section Prefixes.
Context {Tag : Type} {bs4 : Bs4 Tag}.

(** X9. The release line and the genre line of a search result lose their
    label: a text [released <date>] is stored as [<date>] and a text
    [genre: <name>] as [<name>], when the rest has no further occurrence
    of the label; without the element the field is omitted. *)
Theorem search_result_labels_stripped (item : Tag) :
  (forall e d, select_one item ".released" = Some e ->
     get_text e = "released " +:+ d -> contains "released " d = false ->
     search_result item !! "released" = Some (VStr d))
  /\ (forall e d, select_one item ".genre" = Some e ->
     get_text e = "genre: " +:+ d -> contains "genre: " d = false ->
     search_result item !! "genre" = Some (VStr d))
  /\ (select_one item ".released" = None -> search_result item !! "released" = None)
  /\ (select_one item ".genre" = None -> search_result item !! "genre" = None).
Proof.
  unfold search_result, set_if_found. cbv zeta.
  split; [|split; [|split]].
  - intros e d -> Hd Hfree.
    destruct (select_one item ".genre"); repeat (rewrite lookup_insert_ne by discriminate);
      rewrite lookup_insert_eq, Hd, replace_at_start,
        (replace_without_occurrence _ _ _ Hfree); done.
  - intros e d -> Hd Hfree.
    rewrite lookup_insert_eq, Hd, replace_at_start,
      (replace_without_occurrence _ _ _ Hfree). done.
  - intros ->.
    destruct (select_one item ".genre"), (select_one item ".heading a"),
      (select_one item ".subhead"), (select_one item ".art img");
      repeat (rewrite lookup_insert_ne by discriminate); apply lookup_empty.
  - intros ->.
    destruct (select_one item ".released"), (select_one item ".heading a"),
      (select_one item ".subhead"), (select_one item ".art img");
      repeat (rewrite lookup_insert_ne by discriminate); apply lookup_empty.
Qed.

End Prefixes.

Lemma search_result_labels_stripped_witness :
  search_result (bs4 := MorePages.bs4) MorePages.first_result !! "released"
  = Some (VStr "March 3, 2020")
  /\ search_result (bs4 := MorePages.bs4) MorePages.first_result !! "genre"
     = Some (VStr "ambient").
Proof.
  destruct (search_result_labels_stripped (bs4 := MorePages.bs4) MorePages.first_result)
    as (Hreleased & Hgenre & _ & _).
  split.
  - eapply Hreleased; [vm_compute; reflexivity | reflexivity | reflexivity].
  - eapply Hgenre; [vm_compute; reflexivity | reflexivity | reflexivity].
Defined.

Lemma search_record_witness :
  exists type tags,
    MorePages.dawn_result !! "type" = Some (VStr type) /\ lower type = type
    /\ MorePages.dawn_result !! "tags" = Some (VList (VStr <$> tags)).
Proof.
  destruct (search_record (bs4 := MorePages.bs4)
              (BeautifulSoup (Bs4 := MorePages.bs4) MorePages.search_html) 1)
    as (_ & _ & _ & Hentries).
  apply Hentries.
  assert (search_results (bs4 := MorePages.bs4)
            (BeautifulSoup (Bs4 := MorePages.bs4) MorePages.search_html)
          = [MorePages.dawn_result]) as -> by (vm_compute; reflexivity).
  by left.
Defined.

Lemma artist_record_witness :
  exists artist,
    get_artist_soup (bs4 := MorePages.bs4) Dom.urljoin
      (BeautifulSoup (Bs4 := MorePages.bs4) MorePages.artist_html) MorePages.artist_url
    = Ok artist
    /\ artist !! "name" = Some (VStr "Foo")
    /\ artist !! "location" = Some (VStr "Berlin, Germany")
    /\ artist !! "discography" = Some (VList [VDict MorePages.dawn_release]).
Proof.
  destruct (get_artist_soup (bs4 := MorePages.bs4) Dom.urljoin
              (BeautifulSoup (Bs4 := MorePages.bs4) MorePages.artist_html)
              MorePages.artist_url) as [artist|e] eqn:Ha; [|vm_compute in Ha; discriminate].
  destruct (artist_record (bs4 := MorePages.bs4) Dom.urljoin _ _ artist Ha)
    as (Hn & Hl & _ & _ & releases & Hd & Hr & _).
  exists artist. split; [reflexivity|].
  rewrite Hn, Hl, Hr.
  assert (releases = [MorePages.dawn_release]) as ->.
  { vm_compute in Hd. by injection Hd as <-. }
  repeat split; vm_compute; reflexivity.
Defined.

(** ** Encoding and decoding of a query *)

Lemma utf8_decode_char (c : ascii) (rest : list N) :
  utf8_decode (utf8 c ++ rest) = String c (utf8_decode rest).
Proof. destruct c as [[] [] [] [] [] [] [] []]; reflexivity. Qed.

Lemma utf8_decode_bytes (s : string) : utf8_decode (utf8_bytes s) = s.
Proof.
  induction s as [|c s IH]; [done|]. simpl. by rewrite utf8_decode_char, IH.
Qed.

Lemma append_length (a b : string) :
  String.length (a +:+ b) = (String.length a + String.length b)%nat.
Proof. induction a as [|c a IH]; [done|]. simpl. by rewrite IH. Qed.

Lemma append_cancel_r (a b c : string) : a +:+ c = b +:+ c -> a = b.
Proof.
  revert b. induction a as [|x a IH]; intros [|y b] H.
  - done.
  - apply (f_equal String.length) in H. rewrite !append_length in H. simpl in H. lia.
  - apply (f_equal String.length) in H. rewrite !append_length in H. simpl in H. lia.
  - injection H as -> H. f_equal. by apply IH.
Qed.

Lemma append_cancel_l (a b c : string) : c +:+ a = c +:+ b -> a = b.
Proof. induction c as [|x c IH]; [done|]. intros [= H]. by apply IH. Qed.

(** X10. [quote_plus] loses nothing: the encoded text decodes to the text, so
    two texts with the same encoding are the same, and so are two queries
    with the same search address and two tags with the same tag address. *)
Theorem quote_plus_round_trip (s : string) :
  unquote_plus (quote_plus s) = s
  /\ (forall s', quote_plus s = quote_plus s' -> s = s')
  /\ (forall s' item_type page,
        search_url s item_type page = search_url s' item_type page -> s = s')
  /\ (forall s' sort page, tag_url s sort page = tag_url s' sort page -> s = s').
Proof.
  assert (forall t, unquote_plus (quote_plus t) = t) as Hround.
  { intros t. unfold unquote_plus. by rewrite unquote_quote_plus, utf8_decode_bytes. }
  assert (forall t t', quote_plus t = quote_plus t' -> t = t') as Hinj.
  { intros t t' H. by rewrite <- (Hround t), H, Hround. }
  split; [apply Hround|]. split; [apply Hinj|]. split.
  - intros s' item_type page. unfold search_url. cbv zeta.
    destruct (nonempty (default "" (type_map !! item_type))); intros H.
    + rewrite !append_assoc in H.
      do 2 apply append_cancel_l in H. apply append_cancel_r in H. by apply Hinj.
    + do 2 apply append_cancel_l in H. apply append_cancel_r in H. by apply Hinj.
  - intros s' sort page. unfold tag_url. intros H.
    do 2 apply append_cancel_l in H. apply append_cancel_r in H. by apply Hinj.
Qed.

Lemma quote_plus_round_trip_witness :
  quote_plus "dub & bass" = "dub+%26+bass"
  /\ unquote_plus "dub+%26+bass" = "dub & bass"
  /\ "dub & bass" = unquote_plus "dub+%26+bass"
  /\ "dub & bass" = unquote_plus (quote_plus "dub & bass").
Proof.
  destruct (quote_plus_round_trip "dub & bass") as (Hround & Hinj & Hsearch & Htag).
  split; [reflexivity|]. split; [exact Hround|]. split.
  - apply Hinj. reflexivity.
  - assert ("dub & bass" = unquote_plus "dub+%26+bass") as H1
      by (apply (Hsearch _ "album" 2); reflexivity).
    assert ("dub & bass" = unquote_plus "dub+%26+bass") as H2
      by (apply (Htag _ "pop" 1); reflexivity).
    exact H1.
Defined.

(** ** The fields of an album and of a track *)

Section HtmlPart.
Context {Tag : Type} {bs4 : Bs4 Tag}.

(** A fallback statement: the key gets the found text unless it holds a
    true value; the other keys are left alone. *)
Lemma fallback_text_effect (soup : Tag) (k css : string) (st : state) :
  wp (fallback_text soup k css)
     (fun _ st' =>
        record st' !! k = fallback_binding (record st !! k) (selected_text soup css)
        /\ (forall k', k' <> k -> record st' !! k' = record st !! k'))
     (fun _ _ => False) st.
Proof.
  unfold fallback_text, selected_text, fallback_binding.
  rewrite wp_bind, wp_lookup_record, wp_when. unfold get_none, get.
  assert (Hset : forall elem : Tag,
             wp (setitem k (VStr (get_text elem)))
               (fun _ st' =>
                  record st' !! k = Some (VStr (get_text elem))
                  /\ (forall k', k' <> k -> record st' !! k' = record st !! k'))
               (fun _ _ => False) st).
  { intros elem. rewrite wp_setitem. unfold with_item. cbn [record].
    split; [apply lookup_insert_eq|]. intros k' Hk'. by rewrite lookup_insert_ne. }
  destruct (record st !! k) as [v|] eqn:Hk; cbn [default from_option id truthy negb];
    [destruct (truthy v); cbn [negb]; [done|] |];
    (destruct (select_one soup css) as [elem|]; cbn [fmap option_fmap option_map];
     [apply Hset | by rewrite wp_ret]).
Qed.

(** A conditional assignment of a found text. *)
Lemma text_if_found_effect (soup : Tag) (k css : string) (st : state) :
  wp (text_if_found soup k css)
     (fun _ st' =>
        record st' !! k = found_binding (record st !! k) (selected_text soup css)
        /\ (forall k', k' <> k -> record st' !! k' = record st !! k'))
     (fun _ _ => False) st.
Proof.
  unfold text_if_found, selected_text, found_binding.
  destruct (select_one soup css) as [elem|]; cbn [fmap option_fmap option_map].
  - rewrite wp_setitem. unfold with_item. cbn [record]. split; [apply lookup_insert_eq|].
    intros k' Hk'. by rewrite lookup_insert_ne.
  - by rewrite wp_ret.
Qed.

(** What the statements after the block of [get_album] do to the
    record: [title] and [artist] get the found text unless they hold a
    true value, [tags] is set, [about] and [credits] get the found text,
    and every other key is left alone. They cannot raise. *)
Lemma album_html_effect (soup : Tag) (st : state) :
  wp (album_html soup)
     (fun _ st' =>
        record st' !! "title"
        = fallback_binding (record st !! "title")
            (selected_text soup "#name-section .trackTitle")
        /\ record st' !! "artist"
           = fallback_binding (record st !! "artist") (selected_text soup "#name-section a")
        /\ record st' !! "tags" = Some (tralbum_tags soup)
        /\ record st' !! "about"
           = found_binding (record st !! "about") (selected_text soup ".tralbum-about")
        /\ record st' !! "credits"
           = found_binding (record st !! "credits") (selected_text soup ".tralbum-credits")
        /\ (forall k, ~ In k album_html_keys -> record st' !! k = record st !! k))
     (fun _ _ => False) st.
Proof.
  unfold album_html. rewrite wp_bind.
  eapply wp_mono; [| |apply fallback_text_effect]; [|done].
  intros ? st1 [Ht1 Hf1]. simpl. rewrite wp_bind.
  eapply wp_mono; [| |apply fallback_text_effect]; [|done].
  intros ? st2 [Ha2 Hf2]. simpl. rewrite wp_bind, wp_setitem, wp_bind.
  eapply wp_mono; [| |apply text_if_found_effect]; [|done].
  intros ? st3 [Hb3 Hf3]. simpl.
  eapply wp_mono; [| |apply text_if_found_effect]; [|done].
  intros ? st4 [Hc4 Hf4]. simpl.
  unfold with_item in *. simpl in *.
  repeat split.
  - rewrite Hf4, Hf3 by done. rewrite lookup_insert_ne by done.
    by rewrite Hf2, Ht1.
  - rewrite Hf4, Hf3 by done. rewrite lookup_insert_ne by done.
    by rewrite Ha2, Hf1.
  - rewrite Hf4, Hf3 by done. apply lookup_insert_eq.
  - rewrite Hf4 by done. rewrite Hb3. rewrite lookup_insert_ne by done.
    by rewrite Hf2, Hf1.
  - rewrite Hc4, Hf3 by done. rewrite lookup_insert_ne by done.
    by rewrite Hf2, Hf1.
  - intros k Hk. unfold album_html_keys in Hk.
    assert (Hne : forall k', In k' ["title"; "artist"; "tags"; "about"; "credits"] -> k <> k')
      by (intros k' Hin ->; by apply Hk).
    rewrite Hf4, Hf3 by (apply Hne; simpl; tauto).
    rewrite lookup_insert_ne by (apply not_eq_sym, Hne; simpl; tauto).
    rewrite Hf2, Hf1 by (apply Hne; simpl; tauto). done.
Qed.

(** What the statements after the block of [get_track] do. *)
Lemma track_html_effect (soup : Tag) (st : state) :
  wp (track_html soup)
     (fun _ st' =>
        record st' !! "tags" = Some (tralbum_tags soup)
        /\ record st' !! "lyrics"
           = found_binding (record st !! "lyrics") (selected_text soup ".lyricsText")
        /\ (forall k, ~ In k track_html_keys -> record st' !! k = record st !! k))
     (fun _ _ => False) st.
Proof.
  unfold track_html. rewrite wp_bind, wp_setitem.
  eapply wp_mono; [| |apply text_if_found_effect]; [|done].
  intros ? st1 [Hl Hf]. unfold with_item in *. simpl in *.
  repeat split.
  - rewrite Hf by done. apply lookup_insert_eq.
  - rewrite Hl. by rewrite lookup_insert_ne.
  - intros k Hk. unfold track_html_keys in Hk.
    assert (Hne : forall k', In k' ["tags"; "lyrics"] -> k <> k')
      by (intros k' Hin ->; by apply Hk).
    rewrite Hf by (apply Hne; simpl; tauto).
    by rewrite lookup_insert_ne by (apply not_eq_sym, Hne; simpl; tauto).
Qed.

End HtmlPart.

(** ** The structured-data part *)

Lemma truthy_object (x : value) :
  dict_or_falsy x = true -> truthy x = true -> exists o, x = VDict o.
Proof.
  unfold dict_or_falsy. intros H Ht. rewrite Ht in H.
  destruct x; try discriminate. by eexists.
Qed.

(** An optional nested object: both fields are taken from it when it is
    true, and nothing is assigned when it is not. *)
Lemma optional_object_effect (x : value) (k1 k2 f1 f2 : string) (d1 d2 : value)
    (st : state) :
  dict_or_falsy x = true -> f1 <> f2 ->
  wp (when (truthy x)
        (p ← lift (call_get x k1 d1); setitem f1 p;;
         c ← lift (call_get x k2 d2); setitem f2 c))
     (fun _ st' =>
        record st' !! f1 = optional_field (record st !! f1) x k1 d1
        /\ record st' !! f2 = optional_field (record st !! f2) x k2 d2
        /\ (forall k, k <> f1 -> k <> f2 -> record st' !! k = record st !! k))
     (fun _ _ => False) st.
Proof.
  intros Hx Hf. rewrite wp_when. unfold optional_field.
  destruct (truthy x) eqn:Ht; [|done].
  destruct (truthy_object x Hx Ht) as [o ->].
  autorewrite with wp. simpl. autorewrite with wp. simpl. autorewrite with wp.
  unfold with_item. simpl. repeat split.
  - rewrite lookup_insert_ne by done. apply lookup_insert_eq.
  - apply lookup_insert_eq.
  - intros k H1 H2. by rewrite !lookup_insert_ne.
Qed.

Lemma track_json_ld_effect (data : dict) (st : state) :
  well_formed_track data = true ->
  wp (track_json_ld data)
     (fun _ st' =>
        record st' !! "title" = Some (get data "name" (VStr ""))
        /\ record st' !! "artist"
           = object_field (get data "byArtist" (VDict ∅)) "name" (VStr "")
        /\ record st' !! "duration" = Some (get data "duration" (VStr ""))
        /\ record st' !! "description" = Some (get data "description" (VStr ""))
        /\ record st' !! "release_date" = Some (get data "datePublished" (VStr ""))
        /\ record st' !! "image" = Some (get data "image" (VStr ""))
        /\ record st' !! "album"
           = optional_field (record st !! "album") (get data "inAlbum" (VDict ∅))
               "name" (VStr "")
        /\ record st' !! "album_url"
           = optional_field (record st !! "album_url") (get data "inAlbum" (VDict ∅))
               "@id" (VStr "")
        /\ record st' !! "price"
           = optional_field (record st !! "price") (get data "offers" (VDict ∅))
               "price" (VStr "")
        /\ record st' !! "currency"
           = optional_field (record st !! "currency") (get data "offers" (VDict ∅))
               "priceCurrency" (VStr "")
        /\ (forall k, ~ In k track_json_ld_keys -> record st' !! k = record st !! k))
     (fun _ _ => False) st.
Proof.
  unfold well_formed_track. intros Hwf.
  apply andb_prop in Hwf as [Hwf Hoffers]. apply andb_prop in Hwf as [Hartist Halbum].
  unfold track_json_ld. cbv zeta.
  destruct (get data "byArtist" (VDict ∅)) as [| | | | | |by_artist]; try discriminate.
  rewrite wp_bind, wp_setitem, wp_bind, wp_lift. cbn [call_get].
  do 5 rewrite wp_bind, wp_setitem. rewrite wp_bind.
  eapply wp_mono; [| |apply optional_object_effect; [exact Halbum|done]]; [|done].
  intros ? st1 (Ha & Hu & Hf1). cbv beta.
  eapply wp_mono; [| |apply optional_object_effect; [exact Hoffers|done]]; [|done].
  intros ? st2 (Hp & Hc & Hf2). cbv beta.
  unfold with_item in *. cbn [record] in *.
  repeat split.
  1-6: rewrite Hf2, Hf1 by done; rewrite ?lookup_insert_ne by done; apply lookup_insert_eq.
  - rewrite Hf2 by done. rewrite Ha. by rewrite !lookup_insert_ne.
  - rewrite Hf2 by done. rewrite Hu. by rewrite !lookup_insert_ne.
  - rewrite Hp. rewrite Hf1 by done. by rewrite !lookup_insert_ne.
  - rewrite Hc. rewrite Hf1 by done. by rewrite !lookup_insert_ne.
  - intros k Hk. unfold track_json_ld_keys in Hk.
    assert (Hne : forall k', In k' ["title"; "artist"; "duration"; "description";
                                    "release_date"; "image"; "album"; "album_url";
                                    "price"; "currency"] -> k <> k')
      by (intros k' Hin ->; by apply Hk).
    rewrite Hf2, Hf1 by (apply Hne; simpl; tauto).
    by rewrite !lookup_insert_ne by (apply not_eq_sym, Hne; simpl; tauto).
Qed.

Lemma optional_object_escapes (x : value) (k1 k2 f1 f2 : string) (d1 d2 : value)
    (st : state) :
  dict_or_falsy x = false ->
  wp (when (truthy x)
        (p ← lift (call_get x k1 d1); setitem f1 p;;
         c ← lift (call_get x k2 d2); setitem f2 c))
     (fun _ _ => False) (fun e _ => e = AttributeError) st.
Proof.
  unfold dict_or_falsy. intros Hx. apply orb_false_elim in Hx as [Hd Ht].
  apply negb_false_iff in Ht. rewrite wp_when, Ht, wp_bind, wp_lift.
  by destruct x.
Qed.

(** On an object that is not well formed the structured-data part of
    [get_track] ends with [AttributeError]. *)
Lemma track_json_ld_escapes (data : dict) (st : state) :
  well_formed_track data = false ->
  wp (track_json_ld data) (fun _ _ => False) (fun e _ => e = AttributeError) st.
Proof.
  unfold well_formed_track, track_json_ld. cbv zeta. intros Hwf.
  rewrite wp_bind, wp_setitem, wp_bind, wp_lift.
  destruct (get data "byArtist" (VDict ∅)) as [| | | | | |by_artist]; try done.
  cbn [call_get is_dict andb] in *.
  do 5 rewrite wp_bind, wp_setitem. rewrite wp_bind.
  destruct (dict_or_falsy (get data "inAlbum" (VDict ∅))) eqn:Halbum.
  - cbn [andb] in Hwf.
    eapply wp_mono; [| |apply optional_object_effect; [exact Halbum|done]]; [|done].
    intros ? st1 _. cbv beta. by apply optional_object_escapes.
  - eapply wp_mono; [| |by apply optional_object_escapes]; done.
Qed.

(** *** The track loop of an album *)

Lemma keeps_lookup_append_item (k k' : string) (o : option value) (x : value) :
  k' <> k -> keeps (fun st => record st !! k = o) (append_item k' x).
Proof.
  intros Hne st HI. unfold wp, append_item.
  destruct (record st !! k') as [[]|] eqn:Hk; try done.
  simpl. by rewrite lookup_insert_ne.
Qed.

Lemma album_track_keeps_lookup (k : string) (o : option value) (x : value) :
  k <> "tracks" -> keeps (fun st => record st !! k = o) (album_track x).
Proof.
  intros Hk. unfold album_track.
  repeat (apply keeps_bind; [apply keeps_lift|intros ?]).
  by apply keeps_lookup_append_item.
Qed.

(** The loop over the tracks assigns [tracks] only. *)
Lemma track_loop_frame (elements : list value) (st : state) :
  wp (for_each elements album_track)
     (fun _ st' => forall k, k <> "tracks" -> record st' !! k = record st !! k)
     (fun _ _ => True) st.
Proof.
  unfold wp. destruct (for_each elements album_track st) as [[[]|e] st'] eqn:Hrun; [|done].
  intros k Hk.
  pose proof (keeps_for_each (fun s => record s !! k = record st !! k) elements album_track
                (fun x => album_track_keeps_lookup k _ x Hk) st eq_refl) as H.
  unfold wp in H. by rewrite Hrun in H.
Qed.

Lemma album_json_ld_fields (data : dict) (st : state) :
  well_formed_album data = true ->
  wp (album_json_ld data)
     (fun _ st' =>
        record st' !! "title" = Some (get data "name" (VStr ""))
        /\ record st' !! "artist"
           = object_field (get data "byArtist" (VDict ∅)) "name" (VStr "")
        /\ record st' !! "description" = Some (get data "description" (VStr ""))
        /\ record st' !! "release_date" = Some (get data "datePublished" (VStr ""))
        /\ record st' !! "image" = Some (get data "image" (VStr ""))
        /\ record st' !! "price"
           = optional_field (record st !! "price") (get data "offers" (VDict ∅))
               "price" (VStr "")
        /\ record st' !! "currency"
           = optional_field (record st !! "currency") (get data "offers" (VDict ∅))
               "priceCurrency" (VStr "")
        /\ record st' !! "label"
           = optional_field (record st !! "label") (get data "publisher" (VDict ∅))
               "name" (VStr "")
        /\ record st' !! "label_url"
           = optional_field (record st !! "label_url") (get data "publisher" (VDict ∅))
               "@id" (VStr "")
        /\ (forall k, ~ In k album_json_ld_keys -> record st' !! k = record st !! k))
     (fun _ _ => True) st.
Proof.
  unfold well_formed_album. intros Hwf.
  apply andb_prop in Hwf as [Hwf Hpublisher]. apply andb_prop in Hwf as [Hwf Hoffers].
  apply andb_prop in Hwf as [Hartist Htrack].
  unfold album_json_ld. cbv zeta.
  destruct (get data "byArtist" (VDict ∅)) as [| | | | | |by_artist]; try discriminate.
  rewrite wp_bind, wp_setitem, wp_bind, wp_lift. cbn [call_get].
  do 5 rewrite wp_bind, wp_setitem. rewrite wp_bind, wp_lift.
  destruct (get data "track" (VDict ∅)) as [| | | | | |track]; try discriminate.
  cbn [call_get]. rewrite wp_bind, wp_setitem, wp_bind, wp_lift.
  destruct (iterate (get track "itemListElement" (VList []))) as [elements|e]; [|done].
  rewrite wp_bind.
  eapply wp_mono; [| |apply track_loop_frame]; [|done].
  intros ? st0 Hf0. cbv beta. rewrite wp_bind.
  eapply wp_mono; [| |apply optional_object_effect; [exact Hoffers|done]]; [|done].
  intros ? st1 (Hp & Hc & Hf1). cbv beta.
  eapply wp_mono; [| |apply optional_object_effect; [exact Hpublisher|done]]; [|done].
  intros ? st2 (Hl & Hu & Hf2). cbv beta.
  unfold with_item in *. cbn [record] in *.
  repeat split.
  1-5: rewrite Hf2, Hf1, Hf0 by done; rewrite ?lookup_insert_ne by done;
       apply lookup_insert_eq.
  - rewrite Hf2 by done. rewrite Hp, Hf0 by done. by rewrite !lookup_insert_ne.
  - rewrite Hf2 by done. rewrite Hc, Hf0 by done. by rewrite !lookup_insert_ne.
  - rewrite Hl. rewrite Hf1, Hf0 by done. by rewrite !lookup_insert_ne.
  - rewrite Hu. rewrite Hf1, Hf0 by done. by rewrite !lookup_insert_ne.
  - intros k Hk. unfold album_json_ld_keys in Hk.
    assert (Hne : forall k', In k' ["title"; "artist"; "description"; "release_date";
                                    "image"; "num_tracks"; "tracks"; "price"; "currency";
                                    "label"; "label_url"] -> k <> k')
      by (intros k' Hin ->; by apply Hk).
    rewrite Hf2, Hf1, Hf0 by (apply Hne; simpl; tauto).
    by rewrite !lookup_insert_ne by (apply not_eq_sym, Hne; simpl; tauto).
Qed.

Lemma not_in_cons {A} (x y : A) (l : list A) : ~ In x (y :: l) -> x <> y /\ ~ In x l.
Proof. simpl. intros H. split; [intros ->|]; tauto. Qed.

Section PageRecords.
Context {Tag : Type} {bs4 : Bs4 Tag}.
Variable json_loads : string -> result value.

(** With a block that gives the object [data], the block runs the body
    on it, under the [except] clause. *)
Lemma json_ld_block_object (soup json_ld : Tag) (s : string) (data : dict)
    (body : dict -> M unit) (Q : unit -> state -> Prop) (E : exn -> state -> Prop)
    (st : state) :
  select_one soup JSON_LD_SELECTOR = Some json_ld ->
  tag_string json_ld = Some s ->
  json_loads s = Ok (VDict data) ->
  wp (body data) Q
     (fun e st' => if json_or_key_error e then wp (log_warning e) Q E st' else E e st') st ->
  wp (json_ld_block json_loads soup body) Q E st.
Proof.
  intros Hsel Hstr Hjson Hbody. unfold json_ld_block. rewrite Hsel.
  rewrite wp_try_except, wp_bind, wp_lift. unfold loads. by rewrite Hstr, Hjson.
Qed.

(** The record of a track page whose structured data is a well-formed
    object. *)
Lemma get_track_soup_of_object (soup : Tag) (url : string) (json_ld : Tag) (s : string)
    (data : dict) :
  select_one soup JSON_LD_SELECTOR = Some json_ld ->
  tag_string json_ld = Some s ->
  json_loads s = Ok (VDict data) ->
  well_formed_track data = true ->
  exists track,
    get_track_soup json_loads soup url = Ok track
    /\ track !! "url" = Some (VStr url)
    /\ track !! "title" = Some (get data "name" (VStr ""))
    /\ track !! "artist" = object_field (get data "byArtist" (VDict ∅)) "name" (VStr "")
    /\ track !! "duration" = Some (get data "duration" (VStr ""))
    /\ track !! "description" = Some (get data "description" (VStr ""))
    /\ track !! "release_date" = Some (get data "datePublished" (VStr ""))
    /\ track !! "image" = Some (get data "image" (VStr ""))
    /\ track !! "album"
       = optional_field None (get data "inAlbum" (VDict ∅)) "name" (VStr "")
    /\ track !! "album_url"
       = optional_field None (get data "inAlbum" (VDict ∅)) "@id" (VStr "")
    /\ track !! "price"
       = optional_field None (get data "offers" (VDict ∅)) "price" (VStr "")
    /\ track !! "currency"
       = optional_field None (get data "offers" (VDict ∅)) "priceCurrency" (VStr "")
    /\ track !! "tags" = Some (tralbum_tags soup)
    /\ track !! "lyrics" = selected_text soup ".lyricsText"
    /\ (forall k, ~ In k track_keys -> track !! k = None).
Proof.
  intros Hsel Hstr Hjson Hwf.
  unfold get_track_soup.
  apply run_completes. unfold get_track_body. rewrite wp_bind.
  eapply json_ld_block_object; [exact Hsel|exact Hstr|exact Hjson|].
  eapply wp_mono; [| |apply (track_json_ld_effect data _ Hwf)]; [|done].
  intros ? st1 (Ht & Ha & Hd & Hde & Hr & Hi & Hal & Hau & Hp & Hc & Hf1). cbv beta.
  eapply wp_mono; [| |apply track_html_effect]; [|done].
  intros ? st2 (Htags & Hlyrics & Hf2). cbv beta.
  cbn [record] in *.
  rewrite !lookup_singleton_ne in * by done.
  repeat split.
  - rewrite Hf2, Hf1 by (simpl; intuition discriminate). apply lookup_singleton_eq.
  - by rewrite Hf2 by (simpl; intuition discriminate).
  - by rewrite Hf2 by (simpl; intuition discriminate).
  - by rewrite Hf2 by (simpl; intuition discriminate).
  - by rewrite Hf2 by (simpl; intuition discriminate).
  - by rewrite Hf2 by (simpl; intuition discriminate).
  - by rewrite Hf2 by (simpl; intuition discriminate).
  - by rewrite Hf2 by (simpl; intuition discriminate).
  - by rewrite Hf2 by (simpl; intuition discriminate).
  - by rewrite Hf2 by (simpl; intuition discriminate).
  - by rewrite Hf2 by (simpl; intuition discriminate).
  - exact Htags.
  - rewrite Hlyrics, Hf1 by (simpl; intuition discriminate).
    rewrite lookup_singleton_ne by done. unfold found_binding.
    by destruct (selected_text _ _).
  - intros k Hk. unfold track_keys in Hk.
    apply not_in_cons in Hk as [Hurl Hk].
    rewrite Hf2, Hf1 by (intros Hin; apply Hk, in_or_app; tauto).
    by rewrite lookup_singleton_ne.
Qed.

(** The failure on a track page whose object is not well formed. *)
Lemma get_track_soup_escapes (soup : Tag) (url : string) (json_ld : Tag) (s : string)
    (data : dict) :
  select_one soup JSON_LD_SELECTOR = Some json_ld ->
  tag_string json_ld = Some s ->
  json_loads s = Ok (VDict data) ->
  well_formed_track data = false ->
  get_track_soup json_loads soup url = Raise AttributeError.
Proof.
  intros Hsel Hstr Hjson Hwf.
  unfold get_track_soup.
  apply run_raises. unfold get_track_body. rewrite wp_bind.
  eapply json_ld_block_object; [exact Hsel|exact Hstr|exact Hjson|].
  eapply wp_mono; [| |apply (track_json_ld_escapes data _ Hwf)]; [done|].
  by intros e st' ->.
Qed.

(** The record of a track page without a structured-data object. *)
Lemma get_track_soup_without_object (soup : Tag) (url : string) :
  no_object json_loads soup ->
  exists track,
    get_track_soup json_loads soup url = Ok track
    /\ track !! "url" = Some (VStr url)
    /\ track !! "tags" = Some (tralbum_tags soup)
    /\ track !! "lyrics" = selected_text soup ".lyricsText"
    /\ (forall k, ~ In k ["url"; "tags"; "lyrics"] -> track !! k = None).
Proof.
  intros Hno.
  unfold get_track_soup.
  apply run_completes. unfold get_track_body. rewrite wp_bind.
  apply json_ld_block_skipped; [exact Hno|]. intros w.
  eapply wp_mono; [| |apply track_html_effect]; [|done].
  intros ? st2 (Htags & Hlyrics & Hf2). cbv beta. cbn [record] in *.
  repeat split.
  - rewrite Hf2 by (simpl; intuition discriminate). apply lookup_singleton_eq.
  - exact Htags.
  - rewrite Hlyrics. rewrite lookup_singleton_ne by done. unfold found_binding.
    by destruct (selected_text _ _).
  - intros k Hk. apply not_in_cons in Hk as [Hurl Hk].
    rewrite Hf2 by exact Hk. by rewrite lookup_singleton_ne.
Qed.

(** The structured-data part of [get_album] on a well-formed object:
    it cannot raise, and it leaves the fields of the object. *)
Lemma album_json_ld_effect (data : dict) (st : state) :
  well_formed_album data = true ->
  wp (album_json_ld data)
     (fun _ st' =>
        record st' !! "title" = Some (get data "name" (VStr ""))
        /\ record st' !! "artist"
           = object_field (get data "byArtist" (VDict ∅)) "name" (VStr "")
        /\ record st' !! "description" = Some (get data "description" (VStr ""))
        /\ record st' !! "release_date" = Some (get data "datePublished" (VStr ""))
        /\ record st' !! "image" = Some (get data "image" (VStr ""))
        /\ record st' !! "price"
           = optional_field (record st !! "price") (get data "offers" (VDict ∅))
               "price" (VStr "")
        /\ record st' !! "currency"
           = optional_field (record st !! "currency") (get data "offers" (VDict ∅))
               "priceCurrency" (VStr "")
        /\ record st' !! "label"
           = optional_field (record st !! "label") (get data "publisher" (VDict ∅))
               "name" (VStr "")
        /\ record st' !! "label_url"
           = optional_field (record st !! "label_url") (get data "publisher" (VDict ∅))
               "@id" (VStr "")
        /\ (forall k, ~ In k album_json_ld_keys -> record st' !! k = record st !! k))
     (fun _ _ => False) st.
Proof.
  intros Hwf.
  eapply wp_mono;
    [| |apply wp_and; [apply (album_json_ld_listed data)
                      |apply (album_json_ld_fields data st Hwf)]].
  - by intros ? st' [_ H].
  - intros e st' [[_ Hno] _]. congruence.
Qed.

(** The record of an album page whose structured data is a well-formed
    object. *)
Lemma get_album_soup_of_object (soup : Tag) (url : string) (json_ld : Tag) (s : string)
    (data : dict) :
  select_one soup JSON_LD_SELECTOR = Some json_ld ->
  tag_string json_ld = Some s ->
  json_loads s = Ok (VDict data) ->
  well_formed_album data = true ->
  exists album,
    get_album_soup json_loads soup url = Ok album
    /\ album !! "title"
       = fallback_binding (Some (get data "name" (VStr "")))
           (selected_text soup "#name-section .trackTitle")
    /\ album !! "artist"
       = fallback_binding (object_field (get data "byArtist" (VDict ∅)) "name" (VStr ""))
           (selected_text soup "#name-section a")
    /\ album !! "description" = Some (get data "description" (VStr ""))
    /\ album !! "release_date" = Some (get data "datePublished" (VStr ""))
    /\ album !! "image" = Some (get data "image" (VStr ""))
    /\ album !! "price"
       = optional_field None (get data "offers" (VDict ∅)) "price" (VStr "")
    /\ album !! "currency"
       = optional_field None (get data "offers" (VDict ∅)) "priceCurrency" (VStr "")
    /\ album !! "label"
       = optional_field None (get data "publisher" (VDict ∅)) "name" (VStr "")
    /\ album !! "label_url"
       = optional_field None (get data "publisher" (VDict ∅)) "@id" (VStr "")
    /\ album !! "tags" = Some (tralbum_tags soup)
    /\ album !! "about" = selected_text soup ".tralbum-about"
    /\ album !! "credits" = selected_text soup ".tralbum-credits"
    /\ (forall k, ~ In k album_keys -> album !! k = None).
Proof.
  intros Hsel Hstr Hjson Hwf.
  unfold get_album_soup.
  apply run_completes. unfold get_album_body. rewrite wp_bind.
  eapply json_ld_block_object; [exact Hsel|exact Hstr|exact Hjson|].
  eapply wp_mono; [| |apply (album_json_ld_effect data _ Hwf)]; [|done].
  intros ? st1 (Ht & Ha & Hde & Hr & Hi & Hp & Hc & Hl & Hu & Hf1). cbv beta.
  eapply wp_mono; [| |apply album_html_effect]; [|done].
  intros ? st2 (Htitle & Hartist & Htags & Habout & Hcredits & Hf2). cbv beta.
  cbn [record] in *.
  rewrite !lookup_singleton_ne in * by done.
  repeat split.
  - by rewrite Htitle, Ht.
  - by rewrite Hartist, Ha.
  - by rewrite Hf2 by (simpl; intuition discriminate).
  - by rewrite Hf2 by (simpl; intuition discriminate).
  - by rewrite Hf2 by (simpl; intuition discriminate).
  - by rewrite Hf2 by (simpl; intuition discriminate).
  - by rewrite Hf2 by (simpl; intuition discriminate).
  - by rewrite Hf2 by (simpl; intuition discriminate).
  - by rewrite Hf2 by (simpl; intuition discriminate).
  - exact Htags.
  - rewrite Habout, Hf1 by (simpl; intuition discriminate).
    rewrite lookup_singleton_ne by done. unfold found_binding.
    by destruct (selected_text soup ".tralbum-about").
  - rewrite Hcredits, Hf1 by (simpl; intuition discriminate).
    rewrite lookup_singleton_ne by done. unfold found_binding.
    by destruct (selected_text soup ".tralbum-credits").
  - intros k Hk. unfold album_keys in Hk.
    apply not_in_cons in Hk as [Hurl Hk].
    rewrite Hf2, Hf1.
    + by rewrite lookup_singleton_ne.
    + intros Hin. apply Hk, in_or_app. tauto.
    + intros Hin. apply Hk, in_or_app. unfold album_html_keys in Hin.
      unfold album_json_ld_keys. simpl in *. tauto.
Qed.

(** The record of an album page without a structured-data object. *)
Lemma get_album_soup_without_object (soup : Tag) (url : string) :
  no_object json_loads soup ->
  exists album,
    get_album_soup json_loads soup url = Ok album
    /\ album !! "url" = Some (VStr url)
    /\ album !! "title" = selected_text soup "#name-section .trackTitle"
    /\ album !! "artist" = selected_text soup "#name-section a"
    /\ album !! "tags" = Some (tralbum_tags soup)
    /\ album !! "about" = selected_text soup ".tralbum-about"
    /\ album !! "credits" = selected_text soup ".tralbum-credits"
    /\ (forall k, ~ In k ("url" :: album_html_keys) -> album !! k = None).
Proof.
  intros Hno.
  unfold get_album_soup.
  apply run_completes. unfold get_album_body. rewrite wp_bind.
  apply json_ld_block_skipped; [exact Hno|]. intros w.
  eapply wp_mono; [| |apply album_html_effect]; [|done].
  intros ? st2 (Htitle & Hartist & Htags & Habout & Hcredits & Hf2). cbv beta.
  cbn [record] in *.
  rewrite !lookup_singleton_ne in * by done.
  unfold fallback_binding, found_binding in *. cbn [default from_option id truthy] in *.
  repeat split.
  - rewrite Hf2 by (simpl; intuition discriminate). apply lookup_singleton_eq.
  - rewrite Htitle.
    by destruct (selected_text soup "#name-section .trackTitle").
  - rewrite Hartist. by destruct (selected_text soup "#name-section a").
  - exact Htags.
  - rewrite Habout. by destruct (selected_text soup ".tralbum-about").
  - rewrite Hcredits. by destruct (selected_text soup ".tralbum-credits").
  - intros k Hk. apply not_in_cons in Hk as [Hurl Hk].
    rewrite Hf2 by exact Hk. by rewrite lookup_singleton_ne.
Qed.

End PageRecords.

Section Records.
Context {Tag : Type} {bs4 : Bs4 Tag}.
Variable json_loads : string -> result value.
Variables (net : Network) (self : BandcampClient).

#[local] Abbreviation get_album := (get_album json_loads net self).
#[local] Abbreviation get_track := (get_track json_loads net self).

(** X11. A track page whose structured data is a well-formed object gives
    a record: its title, duration, description, release date and image
    are those of the object or the empty text, with no fallback on the
    markup; its artist is the name of [byArtist]; album, price and
    currency are present exactly when [inAlbum] and [offers] are true;
    tags are the texts of the tag links, lyrics the text of the lyrics
    element when there is one; and there is no other key. *)
Theorem track_record_of_object (url html : string) (json_ld : Tag) (s : string)
    (data : dict) :
  _fetch net self url = Ok html ->
  select_one (BeautifulSoup html) JSON_LD_SELECTOR = Some json_ld ->
  tag_string json_ld = Some s ->
  json_loads s = Ok (VDict data) ->
  well_formed_track data = true ->
  exists track,
    get_track url = Ok track
    /\ track !! "url" = Some (VStr url)
    /\ track !! "title" = Some (get data "name" (VStr ""))
    /\ track !! "artist" = object_field (get data "byArtist" (VDict ∅)) "name" (VStr "")
    /\ track !! "duration" = Some (get data "duration" (VStr ""))
    /\ track !! "description" = Some (get data "description" (VStr ""))
    /\ track !! "release_date" = Some (get data "datePublished" (VStr ""))
    /\ track !! "image" = Some (get data "image" (VStr ""))
    /\ track !! "album"
       = optional_field None (get data "inAlbum" (VDict ∅)) "name" (VStr "")
    /\ track !! "album_url"
       = optional_field None (get data "inAlbum" (VDict ∅)) "@id" (VStr "")
    /\ track !! "price"
       = optional_field None (get data "offers" (VDict ∅)) "price" (VStr "")
    /\ track !! "currency"
       = optional_field None (get data "offers" (VDict ∅)) "priceCurrency" (VStr "")
    /\ track !! "tags" = Some (tralbum_tags (BeautifulSoup html))
    /\ track !! "lyrics" = selected_text (BeautifulSoup html) ".lyricsText"
    /\ (forall k, ~ In k track_keys -> track !! k = None).
Proof.
  intros Hfetch Hsel Hstr Hjson Hwf.
  unfold Client.get_track. rewrite Hfetch. simpl rbind.
  exact (get_track_soup_of_object json_loads (BeautifulSoup html) url json_ld s data
          Hsel Hstr Hjson Hwf).
Qed.

(** X12. A track page whose structured data is an object that is not well
    formed, with a [byArtist] that is not an object or a true [inAlbum]
    or [offers] that is not an object, makes [get_track] raise
    [AttributeError]: the [except] clause does not catch it. *)
Theorem track_object_escapes (url html : string) (json_ld : Tag) (s : string)
    (data : dict) :
  _fetch net self url = Ok html ->
  select_one (BeautifulSoup html) JSON_LD_SELECTOR = Some json_ld ->
  tag_string json_ld = Some s ->
  json_loads s = Ok (VDict data) ->
  well_formed_track data = false ->
  get_track url = Raise AttributeError.
Proof.
  intros Hfetch Hsel Hstr Hjson Hwf.
  unfold Client.get_track. rewrite Hfetch. simpl rbind.
  exact (get_track_soup_escapes json_loads (BeautifulSoup html) url json_ld s data
          Hsel Hstr Hjson Hwf).
Qed.

(** X13. A track page whose structured-data block is absent or passed
    over ([json.loads] raises on its text an exception that the
    [except] clause catches, or the text is JSON but not an object)
    gives a record with the address, the tags and, when the page has a
    lyrics element, the lyrics, and with nothing else: no title and no
    artist are taken from the markup. A block on which [json.loads]
    raises an exception that the clause does not catch, as [TypeError]
    on a block without text, makes [get_track] raise that exception. *)
Theorem track_without_object (url html : string) :
  _fetch net self url = Ok html ->
  (no_object json_loads (BeautifulSoup html) ->
   exists track,
     get_track url = Ok track
     /\ track !! "url" = Some (VStr url)
     /\ track !! "tags" = Some (tralbum_tags (BeautifulSoup html))
     /\ track !! "lyrics" = selected_text (BeautifulSoup html) ".lyricsText"
     /\ (forall k, ~ In k ["url"; "tags"; "lyrics"] -> track !! k = None))
  /\ (forall json_ld e,
        select_one (BeautifulSoup html) JSON_LD_SELECTOR = Some json_ld ->
        loads json_loads (tag_string json_ld) = Raise e ->
        json_or_key_error e = false ->
        get_track url = Raise e).
Proof.
  intros Hfetch.
  unfold Client.get_track. rewrite Hfetch. simpl rbind. split.
  - exact (get_track_soup_without_object json_loads (BeautifulSoup html) url).
  - intros json_ld e Hsel Hloads He.
    exact (proj2 (block_failure_escapes json_loads _ json_ld url e Hsel Hloads He)).
Qed.

(** X14. An album page whose structured data is a well-formed object
    gives a record whose title and artist are those of the object when
    they are true and the texts of the heading and of its link
    otherwise; description, release date and image are those of the
    object or the empty text; price and currency, and label and its
    address, are present exactly when [offers] and [publisher] are true;
    tags, about and credits come from the markup. *)
Theorem album_record_of_object (url html : string) (json_ld : Tag) (s : string)
    (data : dict) :
  _fetch net self url = Ok html ->
  select_one (BeautifulSoup html) JSON_LD_SELECTOR = Some json_ld ->
  tag_string json_ld = Some s ->
  json_loads s = Ok (VDict data) ->
  well_formed_album data = true ->
  exists album,
    get_album url = Ok album
    /\ album !! "title"
       = fallback_binding (Some (get data "name" (VStr "")))
           (selected_text (BeautifulSoup html) "#name-section .trackTitle")
    /\ album !! "artist"
       = fallback_binding (object_field (get data "byArtist" (VDict ∅)) "name" (VStr ""))
           (selected_text (BeautifulSoup html) "#name-section a")
    /\ album !! "description" = Some (get data "description" (VStr ""))
    /\ album !! "release_date" = Some (get data "datePublished" (VStr ""))
    /\ album !! "image" = Some (get data "image" (VStr ""))
    /\ album !! "price"
       = optional_field None (get data "offers" (VDict ∅)) "price" (VStr "")
    /\ album !! "currency"
       = optional_field None (get data "offers" (VDict ∅)) "priceCurrency" (VStr "")
    /\ album !! "label"
       = optional_field None (get data "publisher" (VDict ∅)) "name" (VStr "")
    /\ album !! "label_url"
       = optional_field None (get data "publisher" (VDict ∅)) "@id" (VStr "")
    /\ album !! "tags" = Some (tralbum_tags (BeautifulSoup html))
    /\ album !! "about" = selected_text (BeautifulSoup html) ".tralbum-about"
    /\ album !! "credits" = selected_text (BeautifulSoup html) ".tralbum-credits"
    /\ (forall k, ~ In k album_keys -> album !! k = None).
Proof.
  intros Hfetch Hsel Hstr Hjson Hwf.
  unfold Client.get_album. rewrite Hfetch. simpl rbind.
  exact (get_album_soup_of_object json_loads (BeautifulSoup html) url json_ld s data
          Hsel Hstr Hjson Hwf).
Qed.

(** X15. An album page whose structured-data block is absent or passed
    over ([json.loads] raises on its text an exception that the
    [except] clause catches, or the text is JSON but not an object)
    gives a record made from the markup alone: the address, the title
    and the artist where the heading and its link are found, the tags,
    and about and credits where their elements are found; it has no
    other key. A block on which [json.loads] raises an exception that
    the clause does not catch, as [TypeError] on a block without text,
    makes [get_album] raise that exception. *)
Theorem album_without_object (url html : string) :
  _fetch net self url = Ok html ->
  (no_object json_loads (BeautifulSoup html) ->
   exists album,
     get_album url = Ok album
     /\ album !! "url" = Some (VStr url)
     /\ album !! "title" = selected_text (BeautifulSoup html) "#name-section .trackTitle"
     /\ album !! "artist" = selected_text (BeautifulSoup html) "#name-section a"
     /\ album !! "tags" = Some (tralbum_tags (BeautifulSoup html))
     /\ album !! "about" = selected_text (BeautifulSoup html) ".tralbum-about"
     /\ album !! "credits" = selected_text (BeautifulSoup html) ".tralbum-credits"
     /\ (forall k, ~ In k ("url" :: album_html_keys) -> album !! k = None))
  /\ (forall json_ld e,
        select_one (BeautifulSoup html) JSON_LD_SELECTOR = Some json_ld ->
        loads json_loads (tag_string json_ld) = Raise e ->
        json_or_key_error e = false ->
        get_album url = Raise e).
Proof.
  intros Hfetch.
  unfold Client.get_album. rewrite Hfetch. simpl rbind. split.
  - exact (get_album_soup_without_object json_loads (BeautifulSoup html) url).
  - intros json_ld e Hsel Hloads He.
    exact (proj1 (block_failure_escapes json_loads _ json_ld url e Hsel Hloads He)).
Qed.

End Records.

Lemma track_record_of_object_witness :
  exists track,
    get_track (bs4 := MorePages.bs4) MorePages.loads
      (Dom.serve Pages.track_url MorePages.track_html) default_client Pages.track_url
    = Ok track
    /\ track !! "title" = Some (VStr "One")
    /\ track !! "artist" = Some (VStr "Foo")
    /\ track !! "album" = Some (VStr "Dawn")
    /\ track !! "price" = Some (VInt 1)
    /\ track !! "lyrics" = Some (VStr "la la la")
    /\ track !! "about" = None.
Proof.
  destruct (track_record_of_object (bs4 := MorePages.bs4) MorePages.loads
              (Dom.serve Pages.track_url MorePages.track_html) default_client
              Pages.track_url MorePages.track_html
              ([Dom.document MorePages.track_nodes], Pages.ld_node MorePages.track_json)
              MorePages.track_json MorePages.track_dict)
    as (track & Hr & _ & Ht & Ha & _ & _ & _ & _ & Hal & _ & Hp & _ & _ & Hl & Hnone).
  - reflexivity.
  - vm_compute. reflexivity.
  - reflexivity.
  - vm_compute. reflexivity.
  - vm_compute. reflexivity.
  - exists track. split; [exact Hr|].
    rewrite Ht, Ha, Hal, Hp, Hl. repeat split; try (vm_compute; reflexivity).
    apply Hnone. vm_compute. intuition discriminate.
Defined.

Lemma track_object_escapes_witness :
  get_track (bs4 := Pages.bs4) Pages.loads
    (Dom.serve Pages.track_url Pages.bad_in_album_html) default_client Pages.track_url
  = Raise AttributeError.
Proof.
  apply (track_object_escapes (bs4 := Pages.bs4) Pages.loads
           (Dom.serve Pages.track_url Pages.bad_in_album_html) default_client
           Pages.track_url Pages.bad_in_album_html
           ([Dom.document [Pages.ld_node Pages.bad_in_album_json]],
            Pages.ld_node Pages.bad_in_album_json)
           Pages.bad_in_album_json
           (list_to_map [("name", VStr "One"); ("inAlbum", VStr "Dawn")])).
  - reflexivity.
  - vm_compute. reflexivity.
  - reflexivity.
  - vm_compute. reflexivity.
  - vm_compute. reflexivity.
Defined.

Lemma track_without_object_witness :
  (exists track,
     get_track (bs4 := MorePages.bs4) MorePages.loads
       (Dom.serve Pages.track_url MorePages.bare_track_html) default_client Pages.track_url
     = Ok track
     /\ track !! "url" = Some (VStr Pages.track_url)
     /\ track !! "title" = None
     /\ track !! "artist" = None
     /\ track !! "lyrics" = None)
  /\ get_track (bs4 := Pages.bs4) Pages.loads
       (Dom.serve Pages.track_url Pages.empty_block_html) default_client Pages.track_url
     = Raise TypeError.
Proof.
  split.
  - destruct (track_without_object (bs4 := MorePages.bs4) MorePages.loads
                (Dom.serve Pages.track_url MorePages.bare_track_html) default_client
                Pages.track_url MorePages.bare_track_html eq_refl) as [Hskipped _].
    destruct Hskipped as (track & Hr & Hurl & _ & Hl & Hnone); [vm_compute; exact I|].
    exists track. split; [exact Hr|]. split; [exact Hurl|].
    rewrite Hl. repeat split; try (vm_compute; reflexivity).
    + apply Hnone. vm_compute. intuition discriminate.
    + apply Hnone. vm_compute. intuition discriminate.
  - destruct (track_without_object (bs4 := Pages.bs4) Pages.loads
                (Dom.serve Pages.track_url Pages.empty_block_html) default_client
                Pages.track_url Pages.empty_block_html eq_refl) as [_ Hraises].
    apply (Hraises ([Dom.document [Pages.empty_block_node; Pages.name_section]],
                    Pages.empty_block_node)).
    + vm_compute. reflexivity.
    + reflexivity.
    + reflexivity.
Defined.

Lemma album_record_of_object_witness :
  exists album,
    get_album (bs4 := MorePages.bs4) MorePages.loads
      (Dom.serve Pages.album_url MorePages.priced_html) default_client Pages.album_url
    = Ok album
    /\ album !! "title" = Some (VStr "Dawn")
    /\ album !! "artist" = Some (VStr "Foo")
    /\ album !! "price" = Some (VInt 7)
    /\ album !! "label" = Some (VStr "Foo Records")
    /\ album !! "about" = Some (VStr "Recorded at dawn.")
    /\ album !! "credits" = None.
Proof.
  destruct (album_record_of_object (bs4 := MorePages.bs4) MorePages.loads
              (Dom.serve Pages.album_url MorePages.priced_html) default_client
              Pages.album_url MorePages.priced_html
              ([Dom.document MorePages.priced_nodes], Pages.ld_node MorePages.priced_json)
              MorePages.priced_json MorePages.priced_dict)
    as (album & Hr & Ht & Ha & _ & _ & _ & Hp & _ & Hl & _ & _ & Hab & Hc & _).
  - reflexivity.
  - vm_compute. reflexivity.
  - reflexivity.
  - vm_compute. reflexivity.
  - vm_compute. reflexivity.
  - exists album. split; [exact Hr|].
    rewrite Ht, Ha, Hp, Hl, Hab, Hc. repeat split; vm_compute; reflexivity.
Defined.

Lemma album_without_object_witness :
  (exists album,
     get_album (bs4 := Pages.bs4) Pages.loads
       (Dom.serve Pages.album_url Pages.malformed_html) default_client Pages.album_url
     = Ok album
     /\ album !! "title" = Some (VStr "Dawn")
     /\ album !! "artist" = Some (VStr "Foo")
     /\ album !! "tags" = Some (VList [])
     /\ album !! "description" = None
     /\ album !! "price" = None)
  /\ get_album (bs4 := Pages.bs4) Pages.loads
       (Dom.serve Pages.album_url Pages.empty_block_html) default_client Pages.album_url
     = Raise TypeError.
Proof.
  split.
  - destruct (album_without_object (bs4 := Pages.bs4) Pages.loads
                (Dom.serve Pages.album_url Pages.malformed_html) default_client
                Pages.album_url Pages.malformed_html eq_refl) as [Hskipped _].
    destruct Hskipped as (album & Hr & _ & Ht & Ha & Htags & _ & _ & Hnone);
      [vm_compute; reflexivity|].
    exists album. split; [exact Hr|].
    rewrite Ht, Ha, Htags. repeat split; try (vm_compute; reflexivity).
    + apply Hnone. vm_compute. intuition discriminate.
    + apply Hnone. vm_compute. intuition discriminate.
  - destruct (album_without_object (bs4 := Pages.bs4) Pages.loads
                (Dom.serve Pages.album_url Pages.empty_block_html) default_client
                Pages.album_url Pages.empty_block_html eq_refl) as [_ Hraises].
    apply (Hraises ([Dom.document [Pages.empty_block_node; Pages.name_section]],
                    Pages.empty_block_node)).
    + vm_compute. reflexivity.
    + reflexivity.
    + reflexivity.
Defined.

(** ** The album tool and the track tool *)

Lemma starts_appends (l1 l2 : string) :
  starts (Server.andthen (Server.append l1) (Server.append l2)) [l1; l2].
Proof.
  intros lines. exists []. unfold Server.andthen, Server.append. simpl.
  by rewrite <- app_assoc.
Qed.

Lemma starts_andthen (a b : Server.Fmt) (first : list string) :
  starts a first -> succeeds b -> starts (Server.andthen a b) first.
Proof.
  intros Ha Hb lines. unfold Server.andthen.
  destruct (Ha lines) as [m1 ->]. simpl.
  destruct (Hb (lines ++ first ++ m1)%list) as [m2 ->].
  exists (m1 ++ m2)%list. by rewrite <- !app_assoc.
Qed.

Lemma starts_succeeds (f : Server.Fmt) (first : list string) : starts f first -> succeeds f.
Proof. intros Hf lines. destruct (Hf lines) as [more ->]. by eexists. Qed.

(** The text made of lines that begin with [l1] and [l2]. *)
Lemma join_two_lines (l1 l2 : string) (more : list string) :
  exists rest, join Server.newline (l1 :: l2 :: more)
               = l1 +:+ Server.newline +:+ l2 +:+ rest.
Proof.
  destruct more as [|l3 more].
  - exists "". simpl. by rewrite append_empty_r.
  - by eexists.
Qed.

(** The statements of a branch after its first two lines. *)
Ltac starts_chain :=
  repeat lazymatch goal with
         | |- starts (Server.andthen (Server.andthen _ _) _) _ => apply starts_andthen
         end;
  [apply starts_appends|..].

(** *** The track list of an album *)

Lemma album_track_entry (passed : list value) (x : value) (st : state) :
  entries_invariant passed st ->
  wp (album_track x) (fun _ => entries_invariant (passed ++ [x])%list) (fun _ _ => True) st.
Proof.
  intros (entries & Ht & He). unfold album_track.
  rewrite wp_bind. apply wp_call_get; [|done]. intros t ->.
  rewrite wp_bind, wp_lift. cbn [call_get].
  destruct (get t "item" (VDict ∅)) as [| | | | | |item] eqn:Hitem;
    try (by rewrite wp_bind, wp_lift).
  do 3 (rewrite wp_bind, wp_lift; cbn [call_get]).
  unfold wp, append_item. rewrite Ht.
  eexists (entries ++ [_])%list. split.
  - cbn [record]. rewrite lookup_insert_eq. by rewrite fmap_app.
  - apply Forall2_app; [done|]. constructor; [|constructor].
    cbn [track_entry]. by rewrite Hitem.
Qed.

Lemma keeps_optional_object (k : string) (v x : value) (k1 k2 f1 f2 : string)
    (d1 d2 : value) :
  f1 <> k -> f2 <> k ->
  keeps (bound k v)
    (when (truthy x)
       (p ← lift (call_get x k1 d1); setitem f1 p;;
        c ← lift (call_get x k2 d2); setitem f2 c)).
Proof.
  intros H1 H2. apply keeps_when.
  apply keeps_bind; [apply keeps_lift|intros ?].
  apply keeps_bind; [by apply keeps_setitem|intros ?].
  apply keeps_bind; [apply keeps_lift|intros ?].
  by apply keeps_setitem.
Qed.

(** The structured-data part of [get_album] leaves in [tracks] the
    entries of the elements of [itemListElement]. *)
Lemma album_json_ld_tracks (data : dict) (st : state) :
  wp (album_json_ld data)
     (fun _ st' =>
        exists elements entries,
          track_elements data = Ok elements
          /\ record st' !! "tracks" = Some (VList (VDict <$> entries))
          /\ entries_of elements entries)
     (fun _ _ => True) st.
Proof.
  unfold album_json_ld. cbv zeta.
  rewrite wp_bind, wp_setitem, wp_bind.
  apply wp_call_get; [|done]. intros by_artist _.
  do 5 rewrite wp_bind, wp_setitem. rewrite wp_bind.
  apply wp_call_get; [|done]. intros track Htrack.
  rewrite wp_bind, wp_setitem, wp_bind, wp_lift.
  destruct (iterate (get track "itemListElement" (VList []))) as [elements|e] eqn:Hit;
    [|done].
  assert (track_elements data = Ok elements) as He.
  { unfold track_elements. rewrite Htrack. exact Hit. }
  rewrite wp_bind.
  eapply wp_mono;
    [| |apply (wp_for_each_in entries_invariant (fun _ _ => True) album_track elements [])];
    [|done| |].
  - intros ? st1 (entries & Ht & Hentries). cbv beta. rewrite wp_bind.
    eapply wp_mono;
      [| |apply (keeps_optional_object "tracks" (VList (VDict <$> entries)));
          [done|done|exact Ht]]; [|done].
    intros ? st2 Ht2. cbv beta.
    eapply wp_mono;
      [| |apply (keeps_optional_object "tracks" (VList (VDict <$> entries)));
          [done|done|exact Ht2]]; [|done].
    intros ? st3 Ht3. by exists elements, entries.
  - intros passed x st' _ HI. by apply album_track_entry.
  - exists []. split; [|constructor]. unfold with_item. cbn [record].
    apply lookup_insert_eq.
Qed.

Section RecordTexts.
Variable repr : value -> string.

Lemma price_line_succeeds (record : dict) : succeeds (Server.price_line repr record).
Proof.
  unfold Server.price_line. apply succeeds_if_field. intros _. apply succeeds_append.
Qed.

Lemma tags_line_succeeds (record : dict) (tags : list string) :
  record !! "tags" = Some (VList (VStr <$> tags)) ->
  succeeds (Server.tags_line record).
Proof.
  intros Ht. unfold Server.tags_line. apply succeeds_if_field. intros _.
  unfold get_none, get. rewrite Ht.
  eapply succeeds_given; [apply join_value_texts|]. apply succeeds_append.
Qed.

Lemma description_text_succeeds (track : dict) :
  (forall v, track !! "description" = Some v -> negb (truthy v) || sliceable v = true) ->
  succeeds (Server.description_text repr track).
Proof.
  intros Hd. unfold Server.description_text. apply succeeds_if_field. intros Ht.
  unfold get_none, get in *.
  destruct (track !! "description") as [v|] eqn:Hv; [|done].
  specialize (Hd v eq_refl). rewrite Ht in Hd.
  destruct v; try discriminate; repeat succeeds_step.
Qed.

Lemma description_text_raises (track : dict) (v : value) (lines : list string) :
  track !! "description" = Some v -> negb (truthy v) || sliceable v = false ->
  Server.description_text repr track lines = Raise TypeError.
Proof.
  intros Hv Hd. apply orb_false_elim in Hd as [Ht Hs]. apply negb_false_iff in Ht.
  unfold Server.description_text, Server.if_field, get_none, get. rewrite Hv, Ht.
  by destruct v.
Qed.

(** The lines of a track whose tags are texts and whose lyrics and
    description are texts where present. *)
Lemma format_track_starts (track : dict) (tags : list string) :
  track !! "tags" = Some (VList (VStr <$> tags)) ->
  (forall v, track !! "lyrics" = Some v -> exists s, v = VStr s) ->
  (forall v, track !! "description" = Some v -> negb (truthy v) || sliceable v = true) ->
  starts (Server.format_track repr track)
    ["Track: " +:+ Server.format repr (get track "title" (VStr "Unknown"));
     "Artist: " +:+ Server.format repr (get track "artist" (VStr "Unknown"))].
Proof.
  intros Ht Hl Hd. unfold Server.format_track.
  starts_chain.
  - apply succeeds_if_field. intros _. apply succeeds_append.
  - apply succeeds_if_field. intros _. apply succeeds_append.
  - apply succeeds_if_field. intros _. apply succeeds_append.
  - apply price_line_succeeds.
  - by apply (tags_line_succeeds _ tags).
  - by apply long_text_of_text.
  - by apply description_text_succeeds.
  - apply succeeds_append.
Qed.

(** A description that is true and cannot be sliced ends the branch of
    the track tool, after the lines before it are made. *)
Lemma format_track_raises (track : dict) (tags : list string) (v : value)
    (lines : list string) :
  track !! "tags" = Some (VList (VStr <$> tags)) ->
  (forall v, track !! "lyrics" = Some v -> exists s, v = VStr s) ->
  track !! "description" = Some v -> negb (truthy v) || sliceable v = false ->
  Server.format_track repr track lines = Raise TypeError.
Proof.
  intros Ht Hl Hv Hd. unfold Server.format_track.
  unfold Server.andthen at 1 2.
  match goal with
  | |- rbind (rbind (?f lines) _) _ = _ =>
      assert (succeeds f) as Hf
  end.
  { apply (starts_succeeds _
             ["Track: " +:+ Server.format repr (get track "title" (VStr "Unknown"));
              "Artist: " +:+ Server.format repr (get track "artist" (VStr "Unknown"))]).
    starts_chain.
    - apply succeeds_if_field. intros _. apply succeeds_append.
    - apply succeeds_if_field. intros _. apply succeeds_append.
    - apply succeeds_if_field. intros _. apply succeeds_append.
    - apply price_line_succeeds.
    - by apply (tags_line_succeeds _ tags).
    - by apply long_text_of_text. }
  destruct (Hf lines) as [more ->]. cbn [rbind].
  by rewrite (description_text_raises track v _ Hv Hd).
Qed.

(** The lines of an album without a track list, whose tags are texts
    and whose about and credits are texts where present. *)
Lemma format_album_without_tracks (album : dict) (tags : list string) :
  album !! "tags" = Some (VList (VStr <$> tags)) ->
  album !! "tracks" = None ->
  (forall v, album !! "about" = Some v -> exists s, v = VStr s) ->
  (forall v, album !! "credits" = Some v -> exists s, v = VStr s) ->
  starts (Server.format_album repr album)
    ["Album: " +:+ Server.format repr (get album "title" (VStr "Unknown"));
     "Artist: " +:+ Server.format repr (get album "artist" (VStr "Unknown"))].
Proof.
  intros Ht Hn Ha Hc. unfold Server.format_album.
  starts_chain.
  - apply succeeds_if_field. intros _. apply succeeds_append.
  - apply succeeds_if_field. intros _. apply succeeds_append.
  - apply price_line_succeeds.
  - by apply (tags_line_succeeds _ tags).
  - apply succeeds_if_field. unfold get_none, get. by rewrite Hn.
  - by apply long_text_of_text.
  - by apply long_text_of_text.
  - apply succeeds_append.
Qed.

Lemma track_line_succeeds (entry : dict) :
  shown_duration entry = true -> succeeds (Server.track_line repr (VDict entry)).
Proof.
  unfold shown_duration. cbv zeta. intros Hd. unfold Server.track_line.
  do 3 (eapply succeeds_given; [reflexivity|]).
  destruct (truthy (get entry "duration" (VStr ""))) eqn:Ht.
  - destruct (get entry "duration" (VStr "")) as [| | | |d| |]; try discriminate.
    eapply succeeds_given; [reflexivity|]. apply succeeds_append.
  - eapply succeeds_given; [reflexivity|]. apply succeeds_append.
Qed.

Lemma track_line_raises (entry : dict) (lines : list string) :
  shown_duration entry = false ->
  Server.track_line repr (VDict entry) lines = Raise AttributeError.
Proof.
  unfold shown_duration. cbv zeta. intros Hd.
  apply orb_false_elim in Hd as [Ht Hs]. apply negb_false_iff in Ht.
  unfold Server.track_line, Server.given. cbn [call_get rbind]. rewrite Ht.
  by destruct (get entry "duration" (VStr "")).
Qed.

(** A loop in which every pass runs or raises [e], and some pass raises
    it, raises [e]. *)
Lemma for_lines_raises {A} (l : list A) (body : A -> Server.Fmt) (e : exn) :
  (forall x, x ∈ l -> succeeds (body x) \/ (forall lines, body x lines = Raise e)) ->
  (exists x, x ∈ l /\ forall lines, body x lines = Raise e) ->
  forall lines, Server.for_lines l body lines = Raise e.
Proof.
  induction l as [|x l IH]; intros Hall (y & Hy & Hraise) lines.
  - by apply elem_of_nil in Hy.
  - cbn [Server.for_lines]. unfold Server.andthen.
    destruct (Hall x) as [Hx|Hx]; [by left| |by rewrite Hx].
    destruct (Hx lines) as [more Hmore]. rewrite Hmore. cbn [rbind].
    apply IH.
    + intros z Hz. apply Hall. by right.
    + exists y. split; [|exact Hraise].
      apply elem_of_cons in Hy as [->|Hy]; [|exact Hy].
      rewrite Hraise in Hmore. discriminate.
Qed.

(** The lines of an album whose tags are texts, whose track list is
    made of entries with texts as durations, and whose about and
    credits are texts where present. *)
Lemma format_album_starts (album : dict) (tags : list string) (entries : list dict) :
  album !! "tags" = Some (VList (VStr <$> tags)) ->
  album !! "tracks" = Some (VList (VDict <$> entries)) ->
  Forall (fun entry => shown_duration entry = true) entries ->
  (forall v, album !! "about" = Some v -> exists s, v = VStr s) ->
  (forall v, album !! "credits" = Some v -> exists s, v = VStr s) ->
  starts (Server.format_album repr album)
    ["Album: " +:+ Server.format repr (get album "title" (VStr "Unknown"));
     "Artist: " +:+ Server.format repr (get album "artist" (VStr "Unknown"))].
Proof.
  intros Ht Hn Hd Ha Hc. unfold Server.format_album.
  starts_chain.
  - apply succeeds_if_field. intros _. apply succeeds_append.
  - apply succeeds_if_field. intros _. apply succeeds_append.
  - apply price_line_succeeds.
  - by apply (tags_line_succeeds _ tags).
  - apply succeeds_if_field. intros _. unfold get_none, get. rewrite Hn.
    apply succeeds_andthen; repeat succeeds_step.
    apply succeeds_for_lines. intros x Hx.
    apply list_elem_of_fmap in Hx as (entry & -> & Hin).
    apply track_line_succeeds. rewrite Forall_forall in Hd. by apply Hd.
  - by apply long_text_of_text.
  - by apply long_text_of_text.
  - apply succeeds_append.
Qed.

(** A duration that is true and is not a text ends the branch of the
    album tool, after the lines before the track list are made. *)
Lemma format_album_raises (album : dict) (tags : list string) (entries : list dict)
    (lines : list string) :
  album !! "tags" = Some (VList (VStr <$> tags)) ->
  album !! "tracks" = Some (VList (VDict <$> entries)) ->
  (exists entry, entry ∈ entries /\ shown_duration entry = false) ->
  Server.format_album repr album lines = Raise AttributeError.
Proof.
  intros Ht Hn Hbad. unfold Server.format_album.
  unfold Server.andthen at 1 2 3 4.
  match goal with
  | |- rbind (rbind (rbind (rbind (?f lines) _) _) _) _ = _ =>
      assert (succeeds f) as Hf
  end.
  { apply (starts_succeeds _
             ["Album: " +:+ Server.format repr (get album "title" (VStr "Unknown"));
              "Artist: " +:+ Server.format repr (get album "artist" (VStr "Unknown"))]).
    starts_chain.
    - apply succeeds_if_field. intros _. apply succeeds_append.
    - apply succeeds_if_field. intros _. apply succeeds_append.
    - apply price_line_succeeds.
    - by apply (tags_line_succeeds _ tags). }
  destruct (Hf lines) as [more ->]. cbn [rbind].
  unfold Server.if_field, get_none, get. rewrite Hn.
  assert (truthy (VList (VDict <$> entries)) = true) as ->.
  { destruct Hbad as (entry & Hin & _). destruct entries; [|done].
    by apply elem_of_nil in Hin. }
  unfold Server.andthen, Server.given. cbn [len iterate rbind Server.append].
  rewrite (for_lines_raises (VDict <$> entries) (Server.track_line repr) AttributeError);
    [done| |].
  - intros x Hx. apply list_elem_of_fmap in Hx as (entry & -> & _).
    destruct (shown_duration entry) eqn:Hd.
    + left. by apply track_line_succeeds.
    + right. intros l. by apply track_line_raises.
  - destruct Hbad as (entry & Hin & Hd). exists (VDict entry). split.
    + apply list_elem_of_fmap. by exists entry.
    + intros l. by apply track_line_raises.
Qed.

End RecordTexts.

Lemma text_durations_entries (elements : list value) (entries : list dict) :
  entries_of elements entries ->
  forallb text_duration elements = true ->
  Forall (fun entry => shown_duration entry = true) entries.
Proof.
  unfold entries_of. induction 1 as [|x entry elements entries Hx _ IH]; [constructor|].
  cbn [forallb]. intros [Hd Hall]%andb_prop. constructor; [|by apply IH].
  unfold text_duration in Hd. by rewrite Hx in Hd.
Qed.

Lemma text_durations_bad_entry (elements : list value) (entries : list dict) :
  entries_of elements entries ->
  forallb text_duration elements = false ->
  exists entry, entry ∈ entries /\ shown_duration entry = false.
Proof.
  unfold entries_of. induction 1 as [|x entry elements entries Hx _ IH]; [done|].
  cbn [forallb]. intros Hall. apply andb_false_iff in Hall as [Hd|Hall].
  - exists entry. split; [by left|]. unfold text_duration in Hd. by rewrite Hx in Hd.
  - destruct (IH Hall) as (bad & Hin & Hbad). exists bad. split; [by right|done].
Qed.

Lemma selected_text_is_text {Tag : Type} {bs4 : Bs4 Tag} (soup : Tag) (css : string)
    (o : option value) (v : value) :
  o = selected_text soup css -> o = Some v -> exists s, v = VStr s.
Proof.
  unfold selected_text. intros -> Hv.
  destruct (select_one soup css); simpl in Hv; [|done].
  injection Hv as <-. by eexists.
Qed.

Section PageTrackList.
Context {Tag : Type} {bs4 : Bs4 Tag}.
Variable json_loads : string -> result value.

(** The track list of an album page whose structured data is a
    well-formed object. *)
Lemma get_album_soup_track_list (soup : Tag) (url : string) (json_ld : Tag) (s : string) (data : dict) :
  select_one soup JSON_LD_SELECTOR = Some json_ld ->
  tag_string json_ld = Some s ->
  json_loads s = Ok (VDict data) ->
  well_formed_album data = true ->
  exists album elements entries,
    get_album_soup json_loads soup url = Ok album
    /\ track_elements data = Ok elements
    /\ album !! "tracks" = Some (VList (VDict <$> entries))
    /\ entries_of elements entries.
Proof.
  intros Hsel Hstr Hjson Hwf.
  unfold get_album_soup.
  destruct (run_completes {[ "url" := VStr url ]} (get_album_body json_loads soup)
              (fun album => exists elements entries,
                 track_elements data = Ok elements
                 /\ album !! "tracks" = Some (VList (VDict <$> entries))
                 /\ entries_of elements entries))
    as (album & Hrun & elements & entries & He & Ht & Hentries).
  2:{ by exists album, elements, entries. }
  unfold get_album_body. rewrite wp_bind.
  eapply json_ld_block_object; [exact Hsel|exact Hstr|exact Hjson|].
  eapply wp_mono;
    [| |apply wp_and; [apply (album_json_ld_effect data _ Hwf)
                      |apply (album_json_ld_tracks data)]].
  - intros ? st1 [_ (elements & entries & He & Ht & Hentries)]. cbv beta.
    eapply wp_mono; [| |apply album_html_effect]; [|done].
    intros ? st2 (_ & _ & _ & _ & _ & Hf). cbv beta.
    exists elements, entries. split; [exact He|]. split; [|exact Hentries].
    rewrite Hf; [exact Ht|]. unfold album_html_keys. simpl. intuition discriminate.
  - by intros e st' [[] _].
Qed.

End PageTrackList.

Section TrackList.
Context {Tag : Type} {bs4 : Bs4 Tag}.
Variable json_loads : string -> result value.
Variables (net : Network) (self : BandcampClient).

(** X16. The track list of an album record is that of the structured
    data: on a page whose structured data is a well-formed object,
    [tracks] has one entry for each element of [itemListElement], in
    order, with the position of the element, or 0, and the name, the
    duration and the address of its item, or the empty text. *)
Theorem album_track_list (url html : string) (json_ld : Tag) (s : string) (data : dict) :
  _fetch net self url = Ok html ->
  select_one (BeautifulSoup html) JSON_LD_SELECTOR = Some json_ld ->
  tag_string json_ld = Some s ->
  json_loads s = Ok (VDict data) ->
  well_formed_album data = true ->
  exists album elements entries,
    get_album json_loads net self url = Ok album
    /\ track_elements data = Ok elements
    /\ album !! "tracks" = Some (VList (VDict <$> entries))
    /\ entries_of elements entries.
Proof.
  intros Hfetch Hsel Hstr Hjson Hwf.
  unfold get_album. rewrite Hfetch. simpl rbind.
  exact (get_album_soup_track_list json_loads (BeautifulSoup html) url json_ld s data
          Hsel Hstr Hjson Hwf).
Qed.


End TrackList.

Section RecordTools.
Context {Tag : Type} {bs4 : Bs4 Tag}.
Variable repr : value -> string.
Variable title_case : string -> string.
Variable json_loads : string -> result value.
Variable urljoin : string -> string -> result string.
Variable net : Network.
Variable self : BandcampClient.

#[local] Abbreviation call := (Tools.call_tool repr title_case json_loads urljoin net).

(** X17. On a page whose structured-data block is absent or passed over
    ([json.loads] raises on its text an exception that the [except]
    clause catches, or the text is JSON but not an object) the album
    tool and the track tool answer with a text. The album is headed by
    the title and the artist found in the markup, [Unknown] where the
    heading or its link is missing; the track is always headed
    [Track: Unknown] and [Artist: Unknown], whatever the markup. On a
    page with a block on which [json.loads] raises an exception that the
    clause does not catch, as [TypeError] on a block without text, both
    tools answer with the error text of that exception. *)
Theorem page_without_object_is_answered (arguments : dict) (url html : string) :
  arguments !! "url" = Some (VStr url) ->
  _fetch net self url = Ok html ->
  (no_object json_loads (BeautifulSoup html) ->
   (exists rest,
      call (Some self) "bandcamp_get_album" arguments
      = Server.TextContent
          ("Album: "
           +:+ Server.format repr
                 (default (VStr "Unknown")
                    (selected_text (BeautifulSoup html) "#name-section .trackTitle"))
           +:+ Server.newline +:+ "Artist: "
           +:+ Server.format repr
                 (default (VStr "Unknown")
                    (selected_text (BeautifulSoup html) "#name-section a"))
           +:+ rest))
   /\ (exists rest,
         call (Some self) "bandcamp_get_track" arguments
         = Server.TextContent
             ("Track: Unknown" +:+ Server.newline +:+ "Artist: Unknown" +:+ rest)))
  /\ (forall json_ld e,
        select_one (BeautifulSoup html) JSON_LD_SELECTOR = Some json_ld ->
        loads json_loads (tag_string json_ld) = Raise e ->
        json_or_key_error e = false ->
        call (Some self) "bandcamp_get_album" arguments = Server.ErrorContent e
        /\ call (Some self) "bandcamp_get_track" arguments = Server.ErrorContent e).
Proof.
  intros Hu Hfetch.
  destruct (call_url repr title_case json_loads urljoin net self arguments url Hu)
    as (Halbum & _ & Htrack).
  split; [intros Hno|].
  2:{ intros json_ld e Hsel Hloads He.
      destruct (block_failure_escapes json_loads _ json_ld url e Hsel Hloads He)
        as [Ha Ht].
      rewrite Halbum, Htrack. unfold get_album, get_track.
      rewrite Hfetch. simpl rbind. by rewrite Ha, Ht. }
  split.
  - rewrite Halbum. unfold get_album. rewrite Hfetch. simpl rbind.
    destruct (get_album_soup_without_object json_loads (BeautifulSoup html) url Hno)
      as (album & -> & _ & Hti & Har & Htags & Hab & Hcr & Hnone).
    simpl rbind.
    destruct (format_album_without_tracks repr album
                (get_text <$> select (BeautifulSoup html) ".tralbum-tags a.tag")
                Htags) with (lines := @nil string) as [more ->].
    + apply Hnone. unfold album_html_keys. simpl. intuition discriminate.
    + intros v. apply (selected_text_is_text _ _ _ v Hab).
    + intros v. apply (selected_text_is_text _ _ _ v Hcr).
    + unfold Server.respond. cbn [app].
      destruct (join_two_lines
                         ("Album: " +:+ Server.format repr (get album "title" (VStr "Unknown")))
                         ("Artist: " +:+ Server.format repr (get album "artist" (VStr "Unknown")))
                         more) as [rest Hrest].
      exists rest. rewrite Hrest.
      unfold get. rewrite Hti, Har.
      reflexivity.
  - rewrite Htrack. unfold get_track. rewrite Hfetch. simpl rbind.
    destruct (get_track_soup_without_object json_loads (BeautifulSoup html) url Hno)
      as (track & -> & _ & Htags & Hl & Hnone).
    simpl rbind.
    destruct (format_track_starts repr track
                (get_text <$> select (BeautifulSoup html) ".tralbum-tags a.tag")
                Htags) with (lines := @nil string) as [more ->].
    + intros v. apply (selected_text_is_text _ _ _ v Hl).
    + intros v. rewrite Hnone by (simpl; intuition discriminate). done.
    + unfold Server.respond. cbn [app].
      destruct (join_two_lines
                         ("Track: " +:+ Server.format repr (get track "title" (VStr "Unknown")))
                         ("Artist: " +:+ Server.format repr (get track "artist" (VStr "Unknown")))
                         more) as [rest Hrest].
      exists rest. rewrite Hrest.
      unfold get. rewrite !Hnone by (simpl; intuition discriminate).
      reflexivity.
Qed.

(** X18. On a track page whose structured data is a well-formed object
    the track tool answers with a text exactly when the description of
    the object can be shown. The text is headed by the name of the
    object and the name of its [byArtist], each the empty text when the
    object lacks it: the markup is not consulted for them. A
    description that is true and is neither a text nor a list makes the
    tool answer with the error [TypeError]. *)
Theorem track_object_is_answered (arguments : dict) (url html : string) (json_ld : Tag)
    (s : string) (data : dict) :
  arguments !! "url" = Some (VStr url) ->
  _fetch net self url = Ok html ->
  select_one (BeautifulSoup html) JSON_LD_SELECTOR = Some json_ld ->
  tag_string json_ld = Some s ->
  json_loads s = Ok (VDict data) ->
  well_formed_track data = true ->
  (shown_description data = true ->
   exists rest,
     call (Some self) "bandcamp_get_track" arguments
     = Server.TextContent
         ("Track: " +:+ Server.format repr (get data "name" (VStr ""))
          +:+ Server.newline +:+ "Artist: "
          +:+ Server.format repr
                (default (VStr "Unknown")
                   (object_field (get data "byArtist" (VDict ∅)) "name" (VStr "")))
          +:+ rest))
  /\ (shown_description data = false ->
      call (Some self) "bandcamp_get_track" arguments = Server.ErrorContent TypeError).
Proof.
  intros Hu Hfetch Hsel Hstr Hjson Hwf.
  destruct (call_url repr title_case json_loads urljoin net self arguments url Hu)
    as (_ & _ & ->).
  unfold get_track. rewrite Hfetch. simpl rbind.
  destruct (get_track_soup_of_object json_loads (BeautifulSoup html) url json_ld s data
              Hsel Hstr Hjson Hwf)
    as (track & -> & _ & Ht & Ha & _ & Hd & _ & _ & _ & _ & _ & _ & Htags & Hl & _).
  simpl rbind. unfold shown_description. cbv zeta. split; intros Hdesc.
  - destruct (format_track_starts repr track
                (get_text <$> select (BeautifulSoup html) ".tralbum-tags a.tag")
                Htags) with (lines := @nil string) as [more ->].
    + intros v. apply (selected_text_is_text _ _ _ v Hl).
    + intros v. rewrite Hd. by intros [= <-].
    + unfold Server.respond. cbn [app].
      destruct (join_two_lines
                  ("Track: " +:+ Server.format repr (get track "title" (VStr "Unknown")))
                  ("Artist: " +:+ Server.format repr (get track "artist" (VStr "Unknown")))
                  more) as [rest Hrest].
      exists rest. rewrite Hrest. unfold get at 1 2. rewrite Ht, Ha. reflexivity.
  - rewrite (format_track_raises repr track
               (get_text <$> select (BeautifulSoup html) ".tralbum-tags a.tag")
               (get data "description" (VStr "")) [] Htags); [done| |exact Hd|exact Hdesc].
    intros v. apply (selected_text_is_text _ _ _ v Hl).
Qed.

(** X19. On an album page whose structured data is a well-formed object
    the album tool answers with a text exactly when every duration of
    the track list can be shown. The text is headed by the title and
    the artist of the record. A duration that is true and is not a text
    makes the tool answer with the error [AttributeError]. *)
Theorem album_object_is_answered (arguments : dict) (url html : string) (json_ld : Tag)
    (s : string) (data : dict) :
  arguments !! "url" = Some (VStr url) ->
  _fetch net self url = Ok html ->
  select_one (BeautifulSoup html) JSON_LD_SELECTOR = Some json_ld ->
  tag_string json_ld = Some s ->
  json_loads s = Ok (VDict data) ->
  well_formed_album data = true ->
  (text_durations data = true ->
   exists rest,
     call (Some self) "bandcamp_get_album" arguments
     = Server.TextContent
         ("Album: "
          +:+ Server.format repr
                (default (VStr "Unknown")
                   (fallback_binding (Some (get data "name" (VStr "")))
                      (selected_text (BeautifulSoup html) "#name-section .trackTitle")))
          +:+ Server.newline +:+ "Artist: "
          +:+ Server.format repr
                (default (VStr "Unknown")
                   (fallback_binding
                      (object_field (get data "byArtist" (VDict ∅)) "name" (VStr ""))
                      (selected_text (BeautifulSoup html) "#name-section a")))
          +:+ rest))
  /\ (text_durations data = false ->
      call (Some self) "bandcamp_get_album" arguments = Server.ErrorContent AttributeError).
Proof.
  intros Hu Hfetch Hsel Hstr Hjson Hwf.
  destruct (call_url repr title_case json_loads urljoin net self arguments url Hu)
    as (-> & _ & _).
  unfold get_album. rewrite Hfetch. simpl rbind.
  destruct (get_album_soup_of_object json_loads (BeautifulSoup html) url json_ld s data
              Hsel Hstr Hjson Hwf)
    as (album & Hrun & Ht & Ha & _ & _ & _ & _ & _ & _ & _ & Htags & Hab & Hcr & _).
  destruct (get_album_soup_track_list json_loads (BeautifulSoup html) url json_ld s data
              Hsel Hstr Hjson Hwf)
    as (album' & elements & entries & Hrun' & He & Htr & Hentries).
  rewrite Hrun in Hrun'. injection Hrun' as <-.
  rewrite Hrun. simpl rbind.
  unfold text_durations. rewrite He. split; intros Hdur.
  - destruct (format_album_starts repr album
                (get_text <$> select (BeautifulSoup html) ".tralbum-tags a.tag") entries
                Htags Htr (text_durations_entries elements entries Hentries Hdur))
      with (lines := @nil string) as [more ->].
    + intros v. apply (selected_text_is_text _ _ _ v Hab).
    + intros v. apply (selected_text_is_text _ _ _ v Hcr).
    + unfold Server.respond. cbn [app].
      destruct (join_two_lines
                  ("Album: " +:+ Server.format repr (get album "title" (VStr "Unknown")))
                  ("Artist: " +:+ Server.format repr (get album "artist" (VStr "Unknown")))
                  more) as [rest Hrest].
      exists rest. rewrite Hrest. unfold get at 1 2. rewrite Ht, Ha. reflexivity.
  - by rewrite (format_album_raises repr album
                  (get_text <$> select (BeautifulSoup html) ".tralbum-tags a.tag") entries
                  [] Htags Htr (text_durations_bad_entry elements entries Hentries Hdur)).
Qed.

End RecordTools.

Lemma page_without_object_is_answered_witness :
  (exists rest,
     MorePages.tool (Dom.serve Pages.track_url MorePages.bare_track_html)
       (Some default_client) "bandcamp_get_album" {[ "url" := VStr Pages.track_url ]}
     = Server.TextContent
         ("Album: Unknown" +:+ Server.newline +:+ "Artist: Unknown" +:+ rest))
  /\ (exists rest,
        MorePages.tool (Dom.serve Pages.track_url MorePages.bare_track_html)
          (Some default_client) "bandcamp_get_track" {[ "url" := VStr Pages.track_url ]}
        = Server.TextContent
            ("Track: Unknown" +:+ Server.newline +:+ "Artist: Unknown" +:+ rest))
  /\ MorePages.tool (Dom.serve Pages.album_url Pages.empty_block_html)
       (Some default_client) "bandcamp_get_album" {[ "url" := VStr Pages.album_url ]}
     = Server.ErrorContent TypeError
  /\ MorePages.tool (Dom.serve Pages.album_url Pages.empty_block_html)
       (Some default_client) "bandcamp_get_track" {[ "url" := VStr Pages.album_url ]}
     = Server.ErrorContent TypeError.
Proof.
  assert (Hskipped := fun Hu Hfetch =>
    proj1 (page_without_object_is_answered (bs4 := MorePages.bs4) Pages.no_repr
             MorePages.ascii_title MorePages.loads Dom.urljoin
             (Dom.serve Pages.track_url MorePages.bare_track_html) default_client
             {[ "url" := VStr Pages.track_url ]} Pages.track_url
             MorePages.bare_track_html Hu Hfetch)).
  destruct Hskipped as [[rest1 H1] [rest2 H2]].
  { reflexivity. }
  { reflexivity. }
  { vm_compute. exact I. }
  assert (Hraises := fun Hu Hfetch =>
    proj2 (page_without_object_is_answered (bs4 := MorePages.bs4) Pages.no_repr
             MorePages.ascii_title MorePages.loads Dom.urljoin
             (Dom.serve Pages.album_url Pages.empty_block_html) default_client
             {[ "url" := VStr Pages.album_url ]} Pages.album_url
             Pages.empty_block_html Hu Hfetch)).
  destruct (Hraises eq_refl eq_refl
              ([Dom.document [Pages.empty_block_node; Pages.name_section]],
               Pages.empty_block_node) TypeError) as [Ha Ht].
  - vm_compute. reflexivity.
  - reflexivity.
  - reflexivity.
  - split; [exists rest1; exact H1|]. split; [exists rest2; exact H2|].
    split; [exact Ha | exact Ht].
Defined.

Lemma track_object_is_answered_witness :
  (exists rest,
     MorePages.tool (Dom.serve Pages.track_url MorePages.track_html)
       (Some default_client) "bandcamp_get_track" {[ "url" := VStr Pages.track_url ]}
     = Server.TextContent
         ("Track: One" +:+ Server.newline +:+ "Artist: Foo" +:+ rest))
  /\ MorePages.tool (Dom.serve Pages.track_url MorePages.numbered_html)
       (Some default_client) "bandcamp_get_track" {[ "url" := VStr Pages.track_url ]}
     = Server.ErrorContent TypeError.
Proof.
  split.
  - destruct (track_object_is_answered (bs4 := MorePages.bs4) Pages.no_repr
                MorePages.ascii_title MorePages.loads Dom.urljoin
                (Dom.serve Pages.track_url MorePages.track_html) default_client
                {[ "url" := VStr Pages.track_url ]} Pages.track_url MorePages.track_html
                ([Dom.document MorePages.track_nodes], Pages.ld_node MorePages.track_json)
                MorePages.track_json MorePages.track_dict)
      as [Hshown _].
    + reflexivity.
    + reflexivity.
    + vm_compute. reflexivity.
    + reflexivity.
    + vm_compute. reflexivity.
    + vm_compute. reflexivity.
    + destruct Hshown as [rest H]; [vm_compute; reflexivity|].
      exists rest. exact H.
  - destruct (track_object_is_answered (bs4 := MorePages.bs4) Pages.no_repr
                MorePages.ascii_title MorePages.loads Dom.urljoin
                (Dom.serve Pages.track_url MorePages.numbered_html) default_client
                {[ "url" := VStr Pages.track_url ]} Pages.track_url MorePages.numbered_html
                ([Dom.document [Pages.ld_node MorePages.numbered_json]],
                 Pages.ld_node MorePages.numbered_json)
                MorePages.numbered_json MorePages.numbered_dict)
      as [_ Hhidden].
    + reflexivity.
    + reflexivity.
    + vm_compute. reflexivity.
    + reflexivity.
    + vm_compute. reflexivity.
    + vm_compute. reflexivity.
    + apply Hhidden. vm_compute. reflexivity.
Defined.

Lemma album_track_list_witness :
  exists album elements entries,
    get_album (bs4 := Pages.bs4) Pages.loads
      (Dom.serve Pages.album_url Pages.full_html) default_client Pages.album_url
    = Ok album
    /\ track_elements Pages.full_dict = Ok elements
    /\ album !! "tracks" = Some (VList (VDict <$> entries))
    /\ entries_of elements entries.
Proof.
  apply (album_track_list (bs4 := Pages.bs4) Pages.loads
           (Dom.serve Pages.album_url Pages.full_html) default_client
           Pages.album_url Pages.full_html
           ([Dom.document [Pages.ld_node Pages.full_json]], Pages.ld_node Pages.full_json)
           Pages.full_json Pages.full_dict).
  - reflexivity.
  - vm_compute. reflexivity.
  - reflexivity.
  - vm_compute. reflexivity.
  - vm_compute. reflexivity.
Defined.

Lemma album_object_is_answered_witness :
  (exists rest,
     MorePages.tool (Dom.serve Pages.album_url Pages.full_html)
       (Some default_client) "bandcamp_get_album" {[ "url" := VStr Pages.album_url ]}
     = Server.TextContent
         ("Album: Dawn" +:+ Server.newline +:+ "Artist: Foo" +:+ rest))
  /\ MorePages.tool (Dom.serve Pages.album_url MorePages.timed_html)
       (Some default_client) "bandcamp_get_album" {[ "url" := VStr Pages.album_url ]}
     = Server.ErrorContent AttributeError.
Proof.
  split.
  - destruct (album_object_is_answered (bs4 := MorePages.bs4) Pages.no_repr
                MorePages.ascii_title MorePages.loads Dom.urljoin
                (Dom.serve Pages.album_url Pages.full_html) default_client
                {[ "url" := VStr Pages.album_url ]} Pages.album_url Pages.full_html
                ([Dom.document [Pages.ld_node Pages.full_json]], Pages.ld_node Pages.full_json)
                Pages.full_json Pages.full_dict)
      as [Hshown _].
    + reflexivity.
    + reflexivity.
    + vm_compute. reflexivity.
    + reflexivity.
    + vm_compute. reflexivity.
    + vm_compute. reflexivity.
    + destruct Hshown as [rest H]; [vm_compute; reflexivity|].
      exists rest. exact H.
  - destruct (album_object_is_answered (bs4 := MorePages.bs4) Pages.no_repr
                MorePages.ascii_title MorePages.loads Dom.urljoin
                (Dom.serve Pages.album_url MorePages.timed_html) default_client
                {[ "url" := VStr Pages.album_url ]} Pages.album_url MorePages.timed_html
                ([Dom.document [Pages.ld_node MorePages.timed_json]],
                 Pages.ld_node MorePages.timed_json)
                MorePages.timed_json MorePages.timed_dict)
      as [_ Hhidden].
    + reflexivity.
    + reflexivity.
    + vm_compute. reflexivity.
    + reflexivity.
    + vm_compute. reflexivity.
    + vm_compute. reflexivity.
    + apply Hhidden. vm_compute. reflexivity.
Defined.

(** ** The headline of a listing *)

Lemma join_first_line (l1 : string) (more : list string) :
  exists rest, join Server.newline (l1 :: more) = l1 +:+ rest.
Proof.
  destruct more as [|l2 more].
  - exists "". simpl. by rewrite append_empty_r.
  - by eexists.
Qed.

Section Headlines.
Context {Tag : Type} {bs4 : Bs4 Tag}.
Variable repr : value -> string.
Variable title_case : string -> string.

Lemma search_text_headline (soup : Tag) (page : Z) :
  search_results soup <> [] ->
  exists rest,
    Tools.search_text repr title_case (search_soup soup page)
    = Ok ("Found " +:+ str_int (Z.of_nat (List.length (search_results soup)))
          +:+ " results (page " +:+ str_int page +:+ "):" +:+ Server.newline +:+ rest).
Proof.
  intros Hsome.
  unfold Tools.search_text, search_soup. cbv zeta.
  unfold get at 1 2 3. rewrite lookup_insert_eq.
  rewrite lookup_insert_ne by done. rewrite lookup_insert_eq.
  rewrite truthy_entries.
  destruct (search_results soup) as [|e l] eqn:Hr; [done|].
  simpl negb. cbv iota. simpl len. simpl call_get. cbn [rbind].
  rewrite <- Hr.
  edestruct (succeeds_given (iterate (VList (VDict <$> search_results soup)))
               (fun l => Server.for_lines l (Tools.search_item_lines repr title_case)))
    as [more Hmore]; [reflexivity| |].
  - apply succeeds_for_lines. intros x Hx.
    apply list_elem_of_fmap in Hx as (entry & -> & Hentry).
    unfold search_results in Hentry.
    rewrite (listing_loop search_result _ []) in Hentry.
    destruct (listed_entry_built _ _ _ Hentry) as [item ->].
    destruct (search_result_type_and_tags item) as (type & tags & Htype & Htags).
    by apply (search_item_lines_succeeds repr title_case _ type tags).
  - rewrite Hmore. cbn [rbind app].
    match goal with
    | |- context [join _ (?l1 :: ?more')] =>
        destruct (join_first_line l1 more') as [rest ->]
    end.
    exists rest. f_equal.
    change (list_fmap dict value VDict l) with (VDict <$> l). rewrite length_fmap, Hr.
    unfold get. rewrite lookup_insert_eq. cbn [Server.format List.length].
    by rewrite !append_assoc.
Qed.

Lemma tag_text_headline (arguments : dict) (soup : Tag) (tag sort : string) (page : Z) :
  tag_albums soup <> [] ->
  exists rest,
    Tools.tag_text repr arguments (get_tag_page_soup soup tag sort page)
    = Ok ("Tag: " +:+ tag +:+ " (sort: " +:+ sort +:+ ", page " +:+ str_int page +:+ ")"
          +:+ Server.newline +:+ Server.newline
          +:+ "Found " +:+ str_int (Z.of_nat (List.length (tag_albums soup)))
          +:+ " albums:" +:+ Server.newline +:+ rest).
Proof.
  intros Hsome.
  assert (get_tag_page_soup soup tag sort page !! "albums"
          = Some (VList (VDict <$> tag_albums soup))) as Ha.
  { unfold get_tag_page_soup. repeat (rewrite lookup_insert_ne by done).
    apply lookup_insert_eq. }
  assert (get_tag_page_soup soup tag sort page !! "tag" = Some (VStr tag)) as Ht
    by apply lookup_insert_eq.
  assert (get_tag_page_soup soup tag sort page !! "sort" = Some (VStr sort)) as Hs.
  { unfold get_tag_page_soup. rewrite lookup_insert_ne by done. apply lookup_insert_eq. }
  assert (get_tag_page_soup soup tag sort page !! "page" = Some (VInt page)) as Hp.
  { unfold get_tag_page_soup. repeat (rewrite lookup_insert_ne by done).
    apply lookup_insert_eq. }
  unfold Tools.tag_text, getitem, get. rewrite Ha, Ht, Hs, Hp, truthy_entries.
  destruct (tag_albums soup) as [|e l] eqn:Hr; [done|].
  simpl negb. cbv iota. cbn [rbind]. simpl len. cbn [rbind].
  edestruct (succeeds_given (iterate (VList (VDict <$> (e :: l))))
               (fun l => Server.for_lines l (Tools.tag_album_lines repr)))
    as [more Hmore]; [reflexivity| |].
  - apply succeeds_for_lines. intros x Hx.
    apply list_elem_of_fmap in Hx as (entry & -> & _).
    apply tag_album_lines_succeeds.
  - rewrite Hmore. cbn [rbind app].
    match goal with
    | |- context [join _ (?l1 :: ?l2 :: ?more')] =>
        destruct (join_two_lines l1 l2 more') as [rest ->]
    end.
    exists rest. f_equal.
    change (list_fmap dict value VDict l) with (VDict <$> l). rewrite length_fmap.
    cbn [Server.format List.length]. by rewrite !append_assoc.
Qed.

Lemma discover_text_headline (soup : Tag) (genre subgenre sort : string) :
  discover_albums soup <> [] ->
  exists rest,
    Tools.discover_text repr (discover_soup soup genre subgenre sort)
    = Ok ("Discover: " +:+ (if nonempty genre then genre else "all genres")
          +:+ " (sort: " +:+ sort +:+ ")" +:+ Server.newline +:+ Server.newline
          +:+ "Found " +:+ str_int (Z.of_nat (List.length (discover_albums soup)))
          +:+ " albums:" +:+ Server.newline +:+ rest).
Proof.
  intros Hsome.
  assert (discover_soup soup genre subgenre sort !! "albums"
          = Some (VList (VDict <$> discover_albums soup))) as Ha.
  { unfold discover_soup. repeat (rewrite lookup_insert_ne by done).
    apply lookup_insert_eq. }
  assert (discover_soup soup genre subgenre sort !! "sort" = Some (VStr sort)) as Hs.
  { unfold discover_soup. repeat (rewrite lookup_insert_ne by done).
    apply lookup_insert_eq. }
  assert (discover_soup soup genre subgenre sort !! "genre" = Some (VStr genre)) as Hg
    by apply lookup_insert_eq.
  unfold Tools.discover_text, getitem, get_none, get. rewrite Ha, Hs, Hg, truthy_entries.
  destruct (discover_albums soup) as [|e l] eqn:Hr; [done|].
  simpl negb. cbv iota. cbn [rbind]. simpl len. cbn [rbind].
  edestruct (succeeds_given (iterate (VList (VDict <$> (e :: l))))
               (fun l => Server.for_lines l (Tools.discover_album_lines repr)))
    as [more Hmore]; [reflexivity| |].
  - apply succeeds_for_lines. intros x Hx.
    apply list_elem_of_fmap in Hx as (entry & -> & _).
    apply discover_album_lines_succeeds.
  - rewrite Hmore. cbn [rbind app].
    match goal with
    | |- context [join _ (?l1 :: ?l2 :: ?more')] =>
        destruct (join_two_lines l1 l2 more') as [rest ->]
    end.
    exists rest. f_equal.
    change (list_fmap dict value VDict l) with (VDict <$> l). rewrite length_fmap.
    cbn [truthy List.length]. unfold nonempty.
    destruct (negb (genre =? "")%string); cbn [Server.format]; by rewrite !append_assoc.
Qed.

Variable json_loads : string -> result value.
Variable urljoin : string -> string -> result string.
Variable net : Network.
Variable self : BandcampClient.

#[local] Abbreviation call := (Tools.call_tool repr title_case json_loads urljoin net).

(** X20. A listing with entries is headed by what was asked and by the
    number of entries returned: for arguments valid against the schema
    and a fetched page with at least one titled block, the search tool
    begins with [Found <n> results (page <page>):], the tag tool with
    [Tag: <tag> (sort: <sort>, page <page>)] and [Found <n> albums:],
    and the discovery tool with [Discover: <genre> (sort: <sort>)],
    [all genres] standing for an empty genre, and [Found <n> albums:];
    [n] is the number of entries of the record, and absent arguments
    show as the defaults of the branch. *)
Theorem listing_headlines (tool : Tools.Tool) (arguments : dict) (html : string) :
  tool ∈ Tools.list_tools -> valid_arguments tool arguments -> serves net html ->
  (Tools.name tool = "bandcamp_search" -> search_results (BeautifulSoup html) <> [] ->
   exists rest,
     call (Some self) (Tools.name tool) arguments
     = Server.TextContent
         ("Found "
          +:+ str_int (Z.of_nat (List.length (search_results (BeautifulSoup html))))
          +:+ " results (page " +:+ str_int (integer_argument arguments "page" 1)
          +:+ "):" +:+ Server.newline +:+ rest))
  /\ (Tools.name tool = "bandcamp_browse_tag" -> tag_albums (BeautifulSoup html) <> [] ->
      exists rest,
        call (Some self) (Tools.name tool) arguments
        = Server.TextContent
            ("Tag: " +:+ text_argument arguments "tag" ""
             +:+ " (sort: " +:+ text_argument arguments "sort" "pop"
             +:+ ", page " +:+ str_int (integer_argument arguments "page" 1) +:+ ")"
             +:+ Server.newline +:+ Server.newline
             +:+ "Found " +:+ str_int (Z.of_nat (List.length (tag_albums (BeautifulSoup html))))
             +:+ " albums:" +:+ Server.newline +:+ rest))
  /\ (Tools.name tool = "bandcamp_discover" ->
      discover_albums (BeautifulSoup html) <> [] ->
      exists rest,
        call (Some self) (Tools.name tool) arguments
        = Server.TextContent
            ("Discover: "
             +:+ (if nonempty (text_argument arguments "genre" "")
                  then text_argument arguments "genre" "" else "all genres")
             +:+ " (sort: " +:+ text_argument arguments "sort" "top" +:+ ")"
             +:+ Server.newline +:+ Server.newline
             +:+ "Found "
             +:+ str_int (Z.of_nat (List.length (discover_albums (BeautifulSoup html))))
             +:+ " albums:" +:+ Server.newline +:+ rest)).
Proof.
  intros Ht Hv Hnet.
  assert (forall url, _fetch net self url = Ok html) as Hfetch.
  { intros url. unfold _fetch. by rewrite Hnet. }
  destruct (valid_call_of_valid_arguments tool arguments Ht Hv)
    as [q t p Hq Hty Hp|u Hu|u Hu|u Hu|t o p Htag Ho Hp|g sg o f Hg Hsg Ho Hf];
    (split; [|split]); try discriminate.
  - intros _ Hsome. rewrite (call_search _ _ _ _ _ _ _ _ _ _ Hq Hty Hp).
    unfold search. rewrite Hfetch. simpl rbind.
    rewrite (integer_argument_get _ _ _ _ Hp).
    destruct (search_text_headline (BeautifulSoup html) p Hsome) as [rest ->].
    by exists rest.
  - intros _ Hsome. rewrite (call_browse_tag _ _ _ _ _ _ _ _ _ _ Htag Ho Hp).
    unfold get_tag_page. rewrite Hfetch. simpl rbind.
    rewrite (text_argument_present _ _ _ _ Htag), (text_argument_get _ _ _ _ Ho),
      (integer_argument_get _ _ _ _ Hp).
    destruct (tag_text_headline arguments (BeautifulSoup html) t o p Hsome) as [rest ->].
    by exists rest.
  - intros _ Hsome. rewrite (call_discover _ _ _ _ _ _ _ _ _ _ _ Hg Hsg Ho Hf).
    unfold discover. rewrite Hfetch. simpl rbind.
    rewrite (text_argument_get _ _ _ _ Hg), (text_argument_get _ _ _ _ Ho).
    destruct (discover_text_headline (BeautifulSoup html) g sg o Hsome) as [rest ->].
    by exists rest.
Qed.

End Headlines.

Lemma listing_headlines_witness :
  (exists rest,
     MorePages.tool (Pages.always MorePages.search_html) (Some default_client)
       "bandcamp_search" {[ "query" := VStr "dawn" ]}
     = Server.TextContent ("Found 1 results (page 1):" +:+ Server.newline +:+ rest))
  /\ (exists rest,
        MorePages.tool (Pages.always MorePages.discover_html) (Some default_client)
          "bandcamp_discover" ∅
        = Server.TextContent
            ("Discover: all genres (sort: top)" +:+ Server.newline +:+ Server.newline
             +:+ "Found 1 albums:" +:+ Server.newline +:+ rest)).
Proof.
  split.
  - destruct (listing_headlines (bs4 := MorePages.bs4) Pages.no_repr MorePages.ascii_title
                MorePages.loads Dom.urljoin (Pages.always MorePages.search_html)
                default_client Tools.search_tool {[ "query" := VStr "dawn" ]}
                MorePages.search_html) as (Hsearch & _ & _).
    + listed_tool.
    + valid_arguments_literal.
    + intros headers url. reflexivity.
    + destruct Hsearch as [rest H]; [reflexivity|vm_compute; discriminate|].
      exists rest. exact H.
  - destruct (listing_headlines (bs4 := MorePages.bs4) Pages.no_repr MorePages.ascii_title
                MorePages.loads Dom.urljoin (Pages.always MorePages.discover_html)
                default_client Tools.discover_tool ∅
                MorePages.discover_html) as (_ & _ & Hdiscover).
    + listed_tool.
    + valid_arguments_literal.
    + intros headers url. reflexivity.
    + destruct Hdiscover as [rest H]; [reflexivity|vm_compute; discriminate|].
      exists rest. exact H.
Defined.
